(* ===== verification/_CoqProject ===== *)
-Q . S2P
Prelude.v
JsValue.v
SyncTiming.v
Timers.v
Lifecycle.v
Poll.v
Cards.v
Views.v
Highlight.v
Dashboard.v
ErrorDetailPage.v
App.v
