(* ===== verification/Prelude.v ===== *)
(** * Verification of the RCA platform dashboard client

    This development models the client-side logic of the RCA platform
    front end (src/frontend/src): the React components [Dashboard]
    (components/Dashboard.js), [ErrorDetail] (components/ErrorDetail.js),
    the router [App] (App.js) and [Navbar] (components/Navbar.js).  Only
    [Dashboard.js] and [ErrorDetail.js] hold state and timing logic; the
    rest is markup.

    ** The program and how its parts interact

    [Dashboard] keeps six pieces of React state ([errors], [stats],
    [loading], [expandedError], [activeView], [detailedErrorData]) and
    [highlightedError].  Two mount effects drive it:
    - the highlight effect (Dashboard.js 27-41) reads [?highlight=] from
      the URL with [URLSearchParams], stores it and arms a 1000 ms timer,
      never cleared, that scrolls to and rings the element [error-<id>]
      of the document, whichever dashboard is then shown;
    - the sync effect (Dashboard.js 93-105) calls [fetchData] at once,
      arms a one-shot timer for [getTimeUntilNextSync()] milliseconds
      (Dashboard.js 83-91) whose callback calls [fetchData] again and
      starts a 5-minute [setInterval]; its cleanup clears only the
      one-shot timer.
    [fetchData] (43-61) fetches [/api/errors] and [/api/stats] together
    and replaces [errors] and [stats]; [toggleErrorDetails] (63-80)
    expands one card at a time (a single slot [expandedError]) and fetches
    [/api/errors/<id>] into the single slot [detailedErrorData].  The six
    sub-view buttons (488-547) set [activeView]; the render functions
    (110-298, 552-581) read [detailedErrorData] with [|| []] defaults;
    the render (300-598) shows the stats, two charts and the cards.
    [ErrorDetail] fetches [/api/errors/<errorId>] on every change of its
    route parameter and shows it in five tabs.  [App] routes [/] and
    [/dashboard] to [Dashboard] and [/dashboard/error/:errorId] to
    [ErrorDetail] under the [Navbar]; the only way between the pages is
    the detail page's Back to Dashboard link and the browser's history.

    ** Files (in dependency order)
    - [Prelude] (this file): notations of [rca_scope], the deterministic
      machine interface [Step] with its run function [run] and the
      lemmas that carry invariants along runs, the [eventually]
      combinator for liveness against an environment with its measure
      rule, the development's tactics, the hint database [rca], shared
      lemmas on [Math.ceil], filters, sums, [find] and [mapM].
    - [JsValue] (Module [JsValue]): JavaScript values as the code handles
      parsed JSON: truthiness, [||], strict equality [===], property
      access that throws on [undefined]/[null], optional chaining,
      [String(v)].  Language semantics, the environment of the models.
    - [SyncTiming] (Module [SyncTiming]): [getTimeUntilNextSync]
      (Dashboard.js 83-91) on a wall clock in milliseconds, with
      [Math.ceil] as [Qceiling] over [Q].  C1-C3: the delay is in
      [0, 240000]; it equals the exact distance to the next 5-minute
      boundary, except in the first minute of a slot, where it is 0 and
      the whole schedule runs off the boundary.
    - [Timers] (Module [Timers], Section over the callback type): the
      browser timer table ([setTimeout], [setInterval], [clearTimeout]),
      modelled from the HTML standard as the environment of Lifecycle;
      its well-formedness invariant, which callbacks are pending, and
      how a weight summed over the table changes when a timer runs.
    - [Lifecycle] (Module [Lifecycle]): the two mount effects, their
      timer callbacks, the effect cleanup and the Refresh button as a
      machine over a world (timers, instances mounted so far, the
      mounted instance, the component's state), and the browser's event
      loop run up to a time ([run_until], with fuel).  The component is
      reached through the typeclass interface [DashboardHooks]
      ([fetchData], [setHighlightedError], the highlight callback), so
      the theorems hold for any implementation.  Its invariant
      [lifecycle_inv] records that the cleanup id names only the
      mounted instance's one-shot timeout.  C4-C6: the poll schedule;
      unmounting before the first timed sync stops polling; after it
      the interval is never cleared.  C26: an interval once started is
      never cleared.  C36: the event loop terminates.
    - [Poll] (Module [Poll]): [fetchData] (43-61) from the settling of
      its two requests, and the polls in flight.  C7-C10: list and stats
      change together; failures keep them; HTTP error bodies wipe the
      list; an older poll settling last overwrites a newer one.
    - [Cards] (Module [Cards]): [expandedError], [activeView],
      [detailedErrorData], [toggleErrorDetails] (63-80) and the sub-view
      buttons, with detail requests in flight, and the invariant that
      requests in flight carry distinct numbers.  C11-C14: refinement
      of the spec's per-card machine (a simulation over every run); the
      three ways a detail response lands on the wrong card.
    - [Views] (Module [Views]): the five sub-view render functions and
      the overview (110-298, 552-581) as functions to panels, [None]
      where the code throws.  C15-C16: no throw on well-formed
      payloads; the N/A shown for a zero duration.
    - [Highlight] (Module [Highlight]): the URL handling the deep link
      goes through (the browser's query extraction and percent-encoding,
      the form-urlencoded parser of [URLSearchParams]), the share link
      (463-465), the card's DOM id and border (418-421) and the 1000 ms
      callback (34-39) on a document given by the [id] attributes of
      its elements.  C17 and C19: the share link round trip; ids with
      [&] read back as another id.
    - [Dashboard] (Module [Dashboard]): the component assembled: the
      state of an instance (Poll, Cards, the highlight and the ring
      classes), the instances of the page as a [gmap] from instance
      number to state (an absent instance has its [useState] initial
      values, so a remount starts afresh), the [DashboardHooks] instance,
      the page's events (Lifecycle events, polls settling, card events
      applied to the mounted instance only, as React drops updates of
      unmounted components), the instance the document shows (the
      highlight callback's [document.getElementById] acts on it), and
      the render (300-598: stats, the chart data and the pie's colours,
      the cards) as a function to the screen.  The document of an
      instance holds the cards of a render that returns; a render that
      throws commits no card ([page_cards], [document_ids]).  Frame
      lemmas are proved once for any preorder the hooks respect.  C18,
      C20-C25, C32 and C38: unknown ids emphasise nothing; numeric ids
      get the ring but not the border; card state kept by id across
      polls; the page after a failed first poll; a [null] stats body
      crashing the render; the highlight race; the deep link end to end
      on a page that renders; the highlight timer outliving an unmount
      and ringing the next dashboard; the pie's colours cycling.
    - [ErrorDetailPage] (Module [ErrorDetailPage]): components/
      ErrorDetail.js: its state, the effect on the route parameter,
      requests settling in any order, the tab buttons, the Download
      JSON button and the render (spinner, not found, summary, the five
      tabs).  C27-C31 and C37: not found without data; a failed fetch
      after a route change showing the previous error; responses of two
      route changes in reverse order; no throw on well-formed payloads;
      span durations shown in seconds on this page and in milliseconds
      on the dashboard; the spinner goes once the network has answered,
      whatever the order and content of the answers.
    - [App] (Module [App]): App.js and Navbar.js with the two pages in
      one browser tab: the route table, the session history, the links
      shown, the mount and unmount of the pages on a location change, a
      render error blanking the tree, and every other event dispatched
      to the page models; each change of the Dashboard world is a run
      of Dashboard events, so Dashboard's and Lifecycle's invariants
      hold in the tab.  C33-C35: the navigation bar never remounts the
      dashboard; the browser's Back button unmounts it but not its
      polling; a [null] stats body blanks the whole tab, navigation
      bar included, until a reload.

    ** Bounds and fuel
    One definition uses fuel: [Lifecycle.run_until], the event loop run
    up to a time [t], which returns [None] when the fuel runs out.  The
    fuel needed is [work t w + 1], the count of callbacks due by [t]
    (each interval once per 5-minute period, the one-shot sync and the
    interval it starts, the highlight timer once) plus the final clock
    update; C36 proves this bound is enough from every reachable world.
    Every other recursion is structural on strings, lists or event
    sequences.  Times and delays are unbounded [Z]: the code's [Date]
    values are milliseconds since 1970 (about 1.7e12), exact in binary64
    below 2^53, so integer arithmetic is exact there.  Timer and request
    ids are [nat] counters, as the browser's are unbounded in practice.

    ** Not modelled
    Chart drawing (recharts: axes, bars, the pie's label percentages),
    styling, the DOM reconciliation of React (the ring classes are kept
    as the list of DOM ids they were added to), React's refusal to
    render a plain object as a child (cells hold the value), [toFixed],
    [JSON.stringify] and date formatting (kept abstract in the cells and
    the downloaded file), the Blob and synthetic click of the download,
    HTTP transport (requests are modelled by their settled outcomes) and
    the percent-decoding of the route parameter by React Router (the
    parameter is the raw path segment).

    ** Conventions
    Times are Z milliseconds of local wall-clock time; JSON numbers are
    exact rationals [Q] (JSON text has no NaN or infinities; rounding to
    binary64 is not modelled); strings are Stdlib [string] (bytes; the
    UTF-8 decoding step of the URL parser is not modelled). *)

From stdpp Require Export base list strings options relations pretty.
From Stdlib Require Export ZArith Lia.
From Stdlib Require Import QArith Qround.

Declare Scope rca_scope.
Delimit Scope rca_scope with rca.

Create HintDb rca discriminated.
Create Rewrite HintDb rca.

(** ** Deterministic machines

    Every stateful component of the dashboard reacts to events one at a
    time (JavaScript is single-threaded): its handler is a function from
    a state and an event to the next state.  [Step S E] is that
    interface; [run] folds a sequence of events. *)
Class Step (S E : Type) := step : S -> E -> S.
Global Hint Mode Step ! - : typeclass_instances.

Fixpoint run {S E} `{!Step S E} (s : S) (evs : list E) : S :=
  match evs with
  | [] => s
  | e :: evs' => run (step s e) evs'
  end.

Notation "s '⟹' evs" := (run s evs) (at level 70, no associativity) : rca_scope.
Open Scope rca_scope.

Section Run.
Context {S E : Type} `{!Step S E}.

Lemma run_nil (s : S) : run s [] = s.
Proof. reflexivity. Qed.

Lemma run_cons (s : S) (e : E) (evs : list E) : run s (e :: evs) = run (step s e) evs.
Proof. reflexivity. Qed.

Lemma run_app (s : S) (evs1 evs2 : list E) :
  run s (evs1 ++ evs2) = run (run s evs1) evs2.
Proof. revert s; induction evs1; intros s; simpl; auto. Qed.

(** A property kept by every single event is kept by every run. *)
Lemma run_preserves (P : S -> Prop) :
  (forall s e, P s -> P (step s e)) -> forall s evs, P s -> P (run s evs).
Proof. intros Hstep s evs; revert s; induction evs; simpl; auto. Qed.

(** The same when only the events of the run satisfy [Q]. *)
Lemma run_preserves_on (Q : E -> Prop) (P : S -> Prop) :
  (forall s e, Q e -> P s -> P (step s e)) ->
  forall s evs, Forall Q evs -> P s -> P (run s evs).
Proof.
  intros Hstep s evs; revert s; induction evs as [|e evs IH]; intros s HQ Hs; simpl; auto.
  inversion HQ; subst. apply IH; auto.
Qed.
End Run.

#[export] Hint Rewrite @run_nil @run_cons @run_app : rca.

(** ** Liveness against an environment

    [eventually next P s]: whatever successor the environment picks at
    each step among the set [next] offers, [P] holds after finitely
    many steps (the [eventually] of coqutil's omni-small-step
    combinators). *)
Section Eventually.
Context {S : Type} (next : S -> (S -> Prop) -> Prop).

Inductive eventually (P : S -> Prop) : S -> Prop :=
| eventually_done (s : S) : P s -> eventually P s
| eventually_step (s : S) (midset : S -> Prop) :
    next s midset -> (forall s', midset s' -> eventually P s') -> eventually P s.

(** Progress with a measure: under an invariant, either [P] holds or
    the environment has a step, every outcome of which keeps the
    invariant and lowers the measure. *)
Lemma eventually_measure (P I : S -> Prop) (m : S -> nat) :
  (forall s, I s -> P s \/ exists midset, next s midset /\ forall s', midset s' -> I s' /\ (m s' < m s)%nat) ->
  forall s, I s -> eventually P s.
Proof.
  intros Hprog s. remember (m s) as n eqn:Hn. revert s Hn.
  induction n as [n IH] using lt_wf_ind. intros s -> Hs.
  destruct (Hprog s Hs) as [HP | (midset & Hnext & Hmid)]; [by constructor|].
  apply (eventually_step P s midset Hnext). intros s' Hs'. destruct (Hmid s' Hs') as [HI Hlt].
  exact (IH (m s') Hlt s' eq_refl HI).
Qed.
End Eventually.

(** ** Tactics *)

(** [invc H]: invert and clean up. *)
Ltac invc H := inversion H; subst; clear H.

(** [zlia]: linear arithmetic with [Z.div] and [Z.modulo] eliminated. *)
Ltac zlia := Z.div_mod_to_equations; lia.

(** [znia]: the same with non-linear products of the quotients. *)
Ltac znia := Z.div_mod_to_equations; nia.

(** ** Shared lemmas on numbers *)

(** [Math.ceil(m / d)] for integers [m] and a positive integer [d]. *)
Lemma Qceiling_div (m d : Z) :
  (0 < d)%Z -> Qceiling (inject_Z m / inject_Z d) = ((m + d - 1) / d)%Z.
Proof.
  intros Hd. destruct d as [|p|p]; try lia.
  unfold Qceiling, Qfloor, inject_Z, Qdiv, Qmult, Qinv, Qopp; simpl.
  rewrite Z.mul_1_r. znia.
Qed.

#[export] Hint Rewrite Qceiling_div using lia : rca.

(** ** Shared lemmas on lists *)

Lemma Forall_filter_keep {A} (P : A -> Prop) (f : A -> Prop) `{!forall x, Decision (f x)}
  (l : list A) : Forall P l -> Forall P (filter f l).
Proof.
  induction l as [|x l IH]; intros HP; [done|].
  inversion HP; subst. rewrite filter_cons. case_decide; auto.
Qed.

Lemma NoDup_map_filter {A B} (g : A -> B) (f : A -> Prop) `{!forall x, Decision (f x)}
  (l : list A) : NoDup (map g l) -> NoDup (map g (filter f l)).
Proof.
  induction l as [|x l IH]; simpl; [done|].
  intros Hnd. apply NoDup_cons in Hnd as [Hx Hl].
  rewrite filter_cons. case_decide; simpl; [|auto].
  constructor; [|auto].
  intros Hin. apply Hx. apply list_elem_of_In in Hin. apply list_elem_of_In.
  apply in_map_iff in Hin as (y & <- & Hy). apply in_map.
  apply list_elem_of_In in Hy. apply list_elem_of_filter in Hy as [_ Hy].
  by apply list_elem_of_In.
Qed.

Lemma forallb_elem {A} (p : A -> bool) (l : list A) (x : A) :
  forallb p l = true -> x ∈ l -> p x = true.
Proof. rewrite forallb_forall. intros H Hx%list_elem_of_In. auto. Qed.

(** [Array.prototype.find]: a match in the list means a result. *)
Lemma find_elem {A} (f : A -> bool) (l : list A) (x : A) :
  x ∈ l -> f x = true -> exists y, find f l = Some y /\ f y = true.
Proof.
  induction l as [|a l IH]; simpl; [by intros ?%elem_of_nil|].
  intros [->|Hx]%elem_of_cons Hf; [rewrite Hf; eauto|].
  destruct (f a) eqn:Ha; eauto.
Qed.

Lemma find_None_elem {A} (f : A -> bool) (l : list A) (x : A) :
  find f l = None -> x ∈ l -> f x = false.
Proof. intros Hn Hx%list_elem_of_In. by apply (find_none f l Hn). Qed.

(** The request just appended is in flight. *)
Lemma elem_of_fst_app_last {B} (l : list (nat * B)) (k : nat) (b : B) :
  k ∈ map fst (l ++ [(k, b)]).
Proof. rewrite map_app. apply elem_of_app. right. simpl. set_solver. Qed.

(** Two elements of a list whose images under [f] are distinct and
    equal are the same. *)
Lemma NoDup_map_eq {A B} (f : A -> B) (l : list A) (x y : A) :
  NoDup (map f l) -> x ∈ l -> y ∈ l -> f x = f y -> x = y.
Proof.
  induction l as [|a l IH]; intros Hnd Hx Hy Hf; [by apply elem_of_nil in Hx|].
  simpl in Hnd. apply NoDup_cons in Hnd as [Hn Hnd].
  assert (Hin : forall z, z ∈ l -> f z ∈ map f l)
    by (intros z Hz; apply list_elem_of_In, in_map, list_elem_of_In, Hz).
  apply elem_of_cons in Hx as [->|Hx]; apply elem_of_cons in Hy as [->|Hy]; auto.
  - destruct Hn. rewrite Hf. auto.
  - destruct Hn. rewrite <- Hf. auto.
Qed.

(** Every element of a [mapM] result comes from an element of the input. *)
Lemma mapM_elem_of {A B} (f : A -> option B) (l : list A) (k : list B) (y : B) :
  mapM f l = Some k -> y ∈ k -> exists x, x ∈ l /\ f x = Some y.
Proof.
  intros Hm%mapM_Some Hy. induction Hm as [|x y' l k Hx _ IH]; [by apply elem_of_nil in Hy|].
  apply elem_of_cons in Hy as [->|Hy].
  - exists x. split; [apply elem_of_cons; by left|done].
  - destruct (IH Hy) as (x' & ? & ?). exists x'. split; [apply elem_of_cons; by right|done].
Qed.

(** Every element of the input has its image in a [mapM] result. *)
Lemma mapM_elem_of_l {A B} (f : A -> option B) (l : list A) (k : list B) (x : A) :
  mapM f l = Some k -> x ∈ l -> exists y, y ∈ k /\ f x = Some y.
Proof.
  intros Hm%mapM_Some Hx. induction Hm as [|x' y l k Hy _ IH]; [by apply elem_of_nil in Hx|].
  apply elem_of_cons in Hx as [->|Hx].
  - exists y. split; [apply elem_of_cons; by left|done].
  - destruct (IH Hx) as (y' & ? & ?). exists y'. split; [apply elem_of_cons; by right|done].
Qed.

(** A filter every element passes is the identity. *)
Lemma filter_Forall_id {A} (P : A -> Prop) `{!forall x, Decision (P x)} (l : list A) :
  Forall P l -> filter P l = l.
Proof. induction 1 as [|x l Hx _ IH]; [done|]. by rewrite filter_cons_True, IH. Qed.

(** Removing the element with a given key from a list whose keys are
    distinct takes its weight off the sum. *)
Lemma sum_filter_key {A B} `{!EqDecision B} (g : A -> B) (f : A -> nat) (l : list A) (x : A) :
  NoDup (map g l) -> x ∈ l ->
  (sum_list_with f (filter (fun y => g y <> g x) l) + f x = sum_list_with f l)%nat.
Proof.
  induction l as [|y l IH]; intros Hnd Hx; [by apply elem_of_nil in Hx|].
  cbn in Hnd. apply NoDup_cons in Hnd as [Hy Hnd].
  assert (Hkeys : forall z, z ∈ l -> g z <> g y).
  { intros z Hz Heq. apply Hy. rewrite <- Heq. apply list_elem_of_In, in_map, list_elem_of_In, Hz. }
  apply elem_of_cons in Hx as [->|Hx].
  - rewrite filter_cons_False by auto. rewrite filter_Forall_id by (apply Forall_forall; eauto).
    cbn. lia.
  - rewrite filter_cons_True by (intros Heq; exact (Hkeys x Hx (eq_sym Heq))).
    cbn. rewrite <- (IH Hnd Hx). lia.
Qed.

#[export] Hint Resolve Forall_filter_keep NoDup_map_filter : rca.

(** Boolean tests of the code reflected into propositions. *)
Lemma Z_eqb_true_iff (a b : Z) : (a =? b)%Z = true <-> a = b.
Proof. apply Z.eqb_eq. Qed.

Lemma string_eqb_true_iff (a b : string) : String.eqb a b = true <-> a = b.
Proof. apply String.eqb_eq. Qed.

#[export] Hint Resolve <- Z_eqb_true_iff string_eqb_true_iff : rca.
