(* ===== verification/JsValue.v ===== *)
(** * JsValue: JavaScript values as the dashboard code handles them

    The responses of the API are parsed with [response.json()] /
    [axios] into JavaScript values, which the components then read with
    property access ([errorsData.errors]), optional chaining
    ([stats.last_24_hours?.total_errors]), the [||] default operator,
    truthiness tests ([if (highlight)], [span.duration ? ... : 'N/A']),
    strict equality ([expandedError === errorId]) and template literals
    ([`error-${error.id}`]).  This file gives those operations their
    JavaScript meaning on JSON data.

    JSON numbers are exact rationals (JSON text has no NaN or
    infinities; rounding to binary64 is not modelled).  Objects are the
    field lists [JSON.parse] produces (distinct keys).  Strict equality
    on arrays and objects compares references; the code only compares
    ids, which are primitives, so two composite values are never equal
    here.  Property access on [undefined] or [null] throws a
    [TypeError]: [get] returns [None] there. *)

From S2P Require Import Prelude.
From Stdlib Require Import QArith.

Module JsValue.

#[warning="-register-all"]
Inductive js : Type :=
| JUndefined
| JNull
| JBool (b : bool)
| JNum (q : Q)
| JStr (s : string)
| JArr (xs : list js)
| JObj (fields : list (string * js)).

(** ** Truthiness and the logical operators *)

(** [false], [0], [""], [null], [undefined] are falsy. *)
Definition truthy (v : js) : bool :=
  match v with
  | JUndefined | JNull => false
  | JBool b => b
  | JNum q => negb (Qeq_bool q 0)
  | JStr s => negb (String.eqb s "")
  | JArr _ | JObj _ => true
  end.

(** [a || b] and [a && b] return one of their operands. *)
Definition js_or (a b : js) : js := if truthy a then a else b.
Definition js_and (a b : js) : js := if truthy a then b else a.

(** [a === b]. *)
Definition strict_eq (a b : js) : bool :=
  match a, b with
  | JUndefined, JUndefined | JNull, JNull => true
  | JBool x, JBool y => Bool.eqb x y
  | JNum x, JNum y => Qeq_bool x y
  | JStr x, JStr y => String.eqb x y
  | _, _ => false
  end.

(** ** Property access *)

Fixpoint lookup_field (k : string) (fs : list (string * js)) : js :=
  match fs with
  | [] => JUndefined
  | (k', v) :: fs' => if String.eqb k k' then v else lookup_field k fs'
  end.

(** [v.k]: [None] is the [TypeError] of reading a property of
    [undefined] or [null].  Arrays and strings have a [length]; the code
    reads no other property of them. *)
Definition get (v : js) (k : string) : option js :=
  match v with
  | JUndefined | JNull => None
  | JObj fs => Some (lookup_field k fs)
  | JArr xs => Some (if String.eqb k "length" then JNum (inject_Z (Z.of_nat (length xs)))
                     else JUndefined)
  | JStr s => Some (if String.eqb k "length" then JNum (inject_Z (Z.of_nat (String.length s)))
                    else JUndefined)
  | JBool _ | JNum _ => Some JUndefined
  end.

(** [v?.k]. *)
Definition get_opt (v : js) (k : string) : option js :=
  match v with
  | JUndefined | JNull => Some JUndefined
  | _ => get v k
  end.

(** The integer value of a number, when it is one. *)
Definition js_int (v : js) : option Z :=
  match v with
  | JNum q => let r := Qred q in if (Qden r =? 1)%positive then Some (Qnum r) else None
  | _ => None
  end.

(** An integer literal of the source, such as the [0] of [x || 0]. *)
Definition num (z : Z) : js := JNum (inject_Z z).

(** [String(v)], as a template literal converts [v]: integers print in
    decimal; other numbers and arrays are not modelled ([None]). *)
Definition to_string (v : js) : option string :=
  match v with
  | JUndefined => Some "undefined"
  | JNull => Some "null"
  | JBool true => Some "true"
  | JBool false => Some "false"
  | JNum _ => option_map (fun z => pretty z) (js_int v)
  | JStr s => Some s
  | JArr _ => None
  | JObj _ => Some "[object Object]"
  end%string.

(** ** Lemmas *)

Lemma js_or_truthy (a b : js) : truthy a = true -> js_or a b = a.
Proof. unfold js_or. by intros ->. Qed.

Lemma js_or_falsy (a b : js) : truthy a = false -> js_or a b = b.
Proof. unfold js_or. by intros ->. Qed.

Lemma get_obj (fs : list (string * js)) (k : string) :
  get (JObj fs) k = Some (lookup_field k fs).
Proof. reflexivity. Qed.

Lemma get_opt_obj (fs : list (string * js)) (k : string) :
  get_opt (JObj fs) k = Some (lookup_field k fs).
Proof. reflexivity. Qed.

Lemma lookup_field_notin (k : string) (fs : list (string * js)) :
  k ∉ map fst fs -> lookup_field k fs = JUndefined.
Proof.
  induction fs as [|[k' v] fs IH]; simpl; [done|].
  intros Hn. destruct (String.eqb_spec k k') as [->|]; [set_solver|].
  apply IH. set_solver.
Qed.

Lemma strict_eq_str (x y : string) : strict_eq (JStr x) (JStr y) = true <-> x = y.
Proof. apply String.eqb_eq. Qed.

(** Strict equality is symmetric. *)
Lemma strict_eq_sym (a b : js) : strict_eq a b = strict_eq b a.
Proof.
  destruct a, b; simpl; auto.
  - by destruct b, b0.
  - apply Qeq_bool_comm.
  - apply String.eqb_sym.
Qed.

Lemma strict_eq_trans (a b d : js) :
  strict_eq a b = true -> strict_eq b d = true -> strict_eq a d = true.
Proof.
  destruct a, b, d; simpl; try done.
  - by destruct b, b0, b1.
  - intros H1 H2. apply Qeq_bool_iff in H1, H2. apply Qeq_bool_iff. by rewrite H1.
  - intros H1%String.eqb_eq H2%String.eqb_eq. subst. apply String.eqb_refl.
Qed.

(** [x === y] and [y === z] decide [x === z]. *)
Lemma strict_eq_congr (a b d : js) :
  strict_eq a b = true -> strict_eq a d = strict_eq b d.
Proof.
  intros H. destruct (strict_eq b d) eqn:E.
  - eauto using strict_eq_trans.
  - destruct (strict_eq a d) eqn:E'; [|done].
    rewrite strict_eq_sym in H. pose proof (strict_eq_trans _ _ _ H E'). congruence.
Qed.

(** The ids of error groups are JSON primitives other than [null]. *)
Definition is_card_id (v : js) : bool :=
  match v with JBool _ | JNum _ | JStr _ => true | _ => false end.

Lemma strict_eq_refl_id (v : js) : is_card_id v = true -> strict_eq v v = true.
Proof.
  destruct v; simpl; try done; intros _.
  - by destruct b.
  - apply Qeq_bool_refl.
  - apply String.eqb_refl.
Qed.

Lemma strict_eq_null_id (v : js) : is_card_id v = true -> strict_eq JNull v = false.
Proof. by destruct v. Qed.

End JsValue.

#[export] Hint Rewrite JsValue.get_obj JsValue.get_opt_obj : rca.
