(* ===== verification/SyncTiming.v ===== *)
(** * SyncTiming: the 5-minute wall-clock alignment of the poller

    Models [getTimeUntilNextSync] (components/Dashboard.js 83-91) and the
    5-minute period of the sync interval (Dashboard.js 100).  A [Date] is
    a local wall-clock instant in milliseconds; [getMinutes] and
    [getSeconds] are the JavaScript [Date] accessors on it.
    [Math.ceil(minutes / 5)] is [Qceiling] of the exact quotient.

    Theorems: the delay is between 0 and 4 minutes; it lands on a
    5-minute boundary (up to the ignored milliseconds) except when the
    minute is already a boundary and the second is not 0, where the code
    returns 0 instead of waiting for the next boundary; it equals the
    exact boundary delay on all other inputs. *)

From S2P Require Import Prelude.
From Stdlib Require Import QArith Qround.
Open Scope Z_scope.

Module SyncTiming.

(** ** Model *)

Definition Date := Z.

(** [now.getMinutes()] and [now.getSeconds()]. *)
Definition getMinutes (now : Date) : Z := (now / 60000) mod 60.
Definition getSeconds (now : Date) : Z := (now / 1000) mod 60.

(** Dashboard.js 83-91. *)
Definition getTimeUntilNextSync (now : Date) : Z :=
  let minutes := getMinutes now in
  let seconds := getSeconds now in
  let nextBoundary := Qceiling (inject_Z minutes / inject_Z 5) * 5 in
  let waitMinutes := nextBoundary - minutes in
  let waitSeconds := waitMinutes * 60 - seconds in
  Z.max 0 (waitSeconds * 1000).

(** [5 * 60 * 1000], the period of [setInterval(fetchData, ...)]. *)
Definition SYNC_INTERVAL : Z := 5 * 60 * 1000.

Lemma SYNC_INTERVAL_eq : SYNC_INTERVAL = 300000.
Proof. reflexivity. Qed.

(** The delay the spec asks for: the distance from [t] to the next
    multiple of five minutes (0 when [t] is one). *)
Definition boundary_delay (t : Date) : Z :=
  (SYNC_INTERVAL - t mod SYNC_INTERVAL) mod SYNC_INTERVAL.

(** ** Basic facts *)

Lemma getMinutes_range (t : Date) : 0 <= getMinutes t < 60.
Proof. unfold getMinutes. zlia. Qed.

Lemma getSeconds_range (t : Date) : 0 <= getSeconds t < 60.
Proof. unfold getSeconds. zlia. Qed.

(** The position of [t] inside its 5-minute slot, read off the clock
    fields. *)
Lemma slot_offset (t : Date) :
  t mod SYNC_INTERVAL =
  getMinutes t mod 5 * 60000 + getSeconds t * 1000 + t mod 1000.
Proof.
  unfold getMinutes, getSeconds. change SYNC_INTERVAL with 300000.
  assert (t mod 300000 = (t / 60000) mod 5 * 60000 + t mod 60000) by zlia.
  assert (t mod 60000 = ((t / 1000) mod 60) * 1000 + t mod 1000) by zlia.
  assert (((t / 60000) mod 60) mod 5 = (t / 60000) mod 5) by zlia.
  lia.
Qed.

(** The code with [Math.ceil] computed: the waiting time in whole
    minutes is [(-minutes) mod 5]. *)
Lemma getTimeUntilNextSync_eq (t : Date) :
  getTimeUntilNextSync t =
  Z.max 0 (((- getMinutes t) mod 5 * 60 - getSeconds t) * 1000).
Proof.
  unfold getTimeUntilNextSync. rewrite Qceiling_div by lia.
  replace ((getMinutes t + 5 - 1) / 5 * 5 - getMinutes t) with ((- getMinutes t) mod 5)
    by zlia.
  reflexivity.
Qed.

#[local] Hint Resolve getMinutes_range getSeconds_range : rca.

(** ** Properties *)

(** C1 *)
(** [getTimeUntilNextSync] never returns a negative delay and never
    waits more than four minutes, so the first timed sync always fires
    strictly before one sync period has elapsed. *)
Theorem getTimeUntilNextSync_bounds (t : Date) :
  0 <= getTimeUntilNextSync t <= 240000 /\ getTimeUntilNextSync t < SYNC_INTERVAL.
Proof.
  rewrite getTimeUntilNextSync_eq. rewrite SYNC_INTERVAL_eq.
  pose proof (getSeconds_range t). zlia.
Qed.

(** C2 *)
(** Equivalence with the spec's delay: the code returns exactly the
    distance from the current whole second to the next 5-minute boundary,
    except when the clock is in the first minute of a slot past second 0,
    where it returns 0. *)
Theorem getTimeUntilNextSync_spec (t : Date) :
  getTimeUntilNextSync t =
  if (getMinutes t mod 5 =? 0) && (0 <? getSeconds t)
  then 0 else boundary_delay (t - t mod 1000).
Proof.
  rewrite getTimeUntilNextSync_eq. unfold boundary_delay.
  pose proof (slot_offset t) as Hs. pose proof (slot_offset (t - t mod 1000)) as Hs'.
  assert (Hm : getMinutes (t - t mod 1000) = getMinutes t) by (unfold getMinutes; zlia).
  assert (Hsec : getSeconds (t - t mod 1000) = getSeconds t) by (unfold getSeconds; zlia).
  assert (Hms : (t - t mod 1000) mod 1000 = 0) by zlia.
  rewrite Hm, Hsec, Hms in Hs'. rewrite SYNC_INTERVAL_eq in *.
  pose proof (getMinutes_range t); pose proof (getSeconds_range t).
  rewrite Hs'.
  destruct (Z.eqb_spec (getMinutes t mod 5) 0), (Z.ltb_spec 0 (getSeconds t)); simpl; zlia.
Qed.

(** Alignment: outside the first minute of a slot (or at second 0),
    [now + delay] minus the ignored milliseconds is a multiple of five
    minutes: the timed sync fires on a wall-clock boundary. *)
Theorem getTimeUntilNextSync_aligned (t : Date) :
  getSeconds t = 0 \/ getMinutes t mod 5 <> 0 ->
  (t - t mod 1000 + getTimeUntilNextSync t) mod SYNC_INTERVAL = 0.
Proof.
  intros H. rewrite getTimeUntilNextSync_eq. pose proof (slot_offset t) as Ho.
  pose proof (getMinutes_range t); pose proof (getSeconds_range t).
  rewrite SYNC_INTERVAL_eq in *. destruct H; zlia.
Qed.

(** C3 *)
(** The misalignment: when the page is loaded in the first minute of a
    5-minute slot after second 0 (e.g. at 10:00:30), the code waits 0 ms,
    so the timed sync and the interval started from it are off the
    boundary by [getSeconds t] seconds, for every later tick. *)
Theorem getTimeUntilNextSync_slot_start (t : Date) (k : Z) :
  getMinutes t mod 5 = 0 -> 0 < getSeconds t ->
  getTimeUntilNextSync t = 0 /\
  (t + getTimeUntilNextSync t + k * SYNC_INTERVAL) mod SYNC_INTERVAL
  = getSeconds t * 1000 + t mod 1000.
Proof.
  intros Hm Hs. rewrite getTimeUntilNextSync_eq.
  replace ((- getMinutes t) mod 5) with 0 by zlia.
  pose proof (getSeconds_range t). pose proof (slot_offset t) as Ho. rewrite Hm in Ho.
  rewrite SYNC_INTERVAL_eq in *. split; zlia.
Qed.

(** ** Concrete runs (the spec's examples) *)

(** 10:02:30 is 36150000 ms after midnight. *)
Example getTimeUntilNextSync_100230 : getTimeUntilNextSync 36150000 = 150000.
Proof. reflexivity. Qed.

Example getTimeUntilNextSync_100000 : getTimeUntilNextSync 36000000 = 0.
Proof. reflexivity. Qed.

Lemma getTimeUntilNextSync_aligned_witness :
  (getSeconds 36150000 = 0 \/ getMinutes 36150000 mod 5 <> 0) /\
  (36150000 - 36150000 mod 1000 + getTimeUntilNextSync 36150000) mod SYNC_INTERVAL = 0.
Proof.
  split; [right; vm_compute; discriminate|].
  apply getTimeUntilNextSync_aligned. right; vm_compute; discriminate.
Defined.

(** 10:00:30: the delay is 0 and every later tick is 30 s past the
    boundary. *)
Lemma getTimeUntilNextSync_slot_start_witness :
  getMinutes 36030000 mod 5 = 0 /\ 0 < getSeconds 36030000 /\
  getTimeUntilNextSync 36030000 = 0 /\
  (36030000 + getTimeUntilNextSync 36030000 + 3 * SYNC_INTERVAL) mod SYNC_INTERVAL
  = getSeconds 36030000 * 1000 + 36030000 mod 1000.
Proof.
  split; [reflexivity|]. split; [vm_compute; reflexivity|].
  apply getTimeUntilNextSync_slot_start; [reflexivity | vm_compute; reflexivity].
Defined.

End SyncTiming.
