(* ===== verification/Timers.v ===== *)
(** * Timers: the browser timer table the dashboard's effects use

    The HTML timer API as the Dashboard calls it ([setTimeout],
    [setInterval], [clearTimeout], [clearInterval]; Dashboard.js 33, 97,
    100, 104).  This is the environment of the program, modelled from the
    HTML standard: a clock, a counter of timer ids (positive, starting at
    1) and the list of active timers in registration order.  A negative
    delay is clamped to 0.  [clearTimeout] and [clearInterval] share one
    id space.  The event loop runs the active timer with the earliest due
    time (the earliest registered among equals); an interval timer is
    re-armed one period after its due time.

    The callback type [C] is a parameter: the client (Lifecycle) supplies
    its closures.  Theorems: the well-formedness invariant (no timer due
    in the past, distinct ids below the id counter, non-negative periods)
    is kept by every operation, and [take_next] picks an earliest timer. *)

From S2P Require Import Prelude.
Open Scope Z_scope.

Module Timers.

Section Timers.
Context {C : Type}.

Record timer := mkTimer {
  t_id : nat;
  t_due : Z;
  t_period : option Z;
  t_cb : C
}.

Record timers := mkTimers {
  clock : Z;
  next_id : nat;
  active : list timer
}.

Definition init (now : Z) : timers := mkTimers now 1 [].

(** "If timeout is less than 0, then set timeout to 0." *)
Definition clamp (delay : Z) : Z := Z.max 0 delay.

Definition arm (cb : C) (delay : Z) (period : option Z) (T : timers) : nat * timers :=
  (next_id T,
   mkTimers (clock T) (S (next_id T))
     (active T ++ [mkTimer (next_id T) (clock T + clamp delay) period cb])).

Definition setTimeout (cb : C) (delay : Z) (T : timers) : nat * timers :=
  arm cb delay None T.

Definition setInterval (cb : C) (delay : Z) (T : timers) : nat * timers :=
  arm cb delay (Some (clamp delay)) T.

Definition clearTimer (id : nat) (T : timers) : timers :=
  mkTimers (clock T) (next_id T) (filter (fun tm => t_id tm <> id) (active T)).

Definition clearTimeout := clearTimer.
Definition clearInterval := clearTimer.

(** The active timer with the smallest due time; the first registered
    one among equals. *)
Fixpoint earliest (l : list timer) : option timer :=
  match l with
  | [] => None
  | tm :: l' =>
      match earliest l' with
      | Some tm' => if t_due tm' <? t_due tm then Some tm' else Some tm
      | None => Some tm
      end
  end.

(** Take the next timer to run: the clock moves to its due time, a
    timeout is removed, an interval is re-armed one period later. *)
Definition take_next (T : timers) : option (timer * timers) :=
  match earliest (active T) with
  | None => None
  | Some tm =>
      let rest := filter (fun x => t_id x <> t_id tm) (active T) in
      let rest' := match t_period tm with
                   | None => rest
                   | Some p => rest ++ [mkTimer (t_id tm) (t_due tm + p) (Some p) (t_cb tm)]
                   end in
      Some (tm, mkTimers (t_due tm) (next_id T) rest')
  end.

(** ** Well-formedness *)

Definition period_ok (tm : timer) : Prop :=
  match t_period tm with Some p => 0 <= p | None => True end.

Record timers_wf (T : timers) : Prop := {
  wf_future : Forall (fun tm => clock T <= t_due tm) (active T);
  wf_ids : NoDup (map t_id (active T));
  wf_fresh : Forall (fun tm => (t_id tm < next_id T)%nat) (active T);
  wf_period : Forall period_ok (active T)
}.

(** ** Lemmas on [earliest] *)

Lemma earliest_None (l : list timer) : earliest l = None <-> l = [].
Proof.
  destruct l as [|tm l]; simpl; [done|].
  split; [|done]. destruct (earliest l); [case_match|]; done.
Qed.

Lemma earliest_In (l : list timer) (tm : timer) : earliest l = Some tm -> In tm l.
Proof.
  revert tm; induction l as [|x l IH]; intros tm; simpl; [done|].
  destruct (earliest l) as [y|] eqn:E; [case_match|]; intros [= <-]; auto.
Qed.

Lemma earliest_min (l : list timer) (tm : timer) :
  earliest l = Some tm -> Forall (fun x => t_due tm <= t_due x) l.
Proof.
  revert tm; induction l as [|x l IH]; intros tm; simpl; [done|].
  destruct (earliest l) as [y|] eqn:E.
  - specialize (IH y eq_refl).
    destruct (Z.ltb_spec (t_due y) (t_due x)); intros [= <-]; constructor; try lia.
    + done.
    + eapply Forall_impl; [exact IH|]; simpl; lia.
  - apply earliest_None in E as ->. intros [= <-]. constructor; [lia|constructor].
Qed.

(** ** The operations keep the invariant *)

Lemma arm_wf (cb : C) (delay : Z) (period : option Z) (T : timers) :
  timers_wf T -> (match period with Some p => 0 <= p | None => True end) ->
  timers_wf (snd (arm cb delay period T)).
Proof.
  intros [Hf Hi Hfr Hp] Hper. unfold arm, clamp; simpl. constructor; simpl.
  - apply Forall_app; split; [done|]. constructor; [simpl; lia | constructor].
  - rewrite map_app. apply NoDup_app. split; [done|]. split; [|apply NoDup_singleton].
    intros x Hx Hin. apply list_elem_of_singleton in Hin as ->.
    apply list_elem_of_In, in_map_iff in Hx as (tm & Htm & Hin).
    rewrite Forall_forall in Hfr. specialize (Hfr tm). apply list_elem_of_In in Hin.
    specialize (Hfr Hin). simpl in Htm. lia.
  - apply Forall_app; split.
    + eapply Forall_impl; [exact Hfr|]; simpl; lia.
    + constructor; [simpl; lia | constructor].
  - apply Forall_app; split; [done|]. constructor; [exact Hper | constructor].
Qed.

Lemma setTimeout_wf (cb : C) (delay : Z) (T : timers) :
  timers_wf T -> timers_wf (snd (setTimeout cb delay T)).
Proof. intros H. by apply arm_wf. Qed.

Lemma setInterval_wf (cb : C) (delay : Z) (T : timers) :
  timers_wf T -> timers_wf (snd (setInterval cb delay T)).
Proof. intros H. apply arm_wf; [done|]. unfold clamp; lia. Qed.

Lemma clearTimer_wf (id : nat) (T : timers) : timers_wf T -> timers_wf (clearTimer id T).
Proof.
  intros [Hf Hi Hfr Hp]. constructor; simpl;
    auto using Forall_filter_keep, NoDup_map_filter.
Qed.

Lemma take_next_wf (T : timers) (tm : timer) (T' : timers) :
  timers_wf T -> take_next T = Some (tm, T') -> timers_wf T'.
Proof.
  intros [Hf Hi Hfr Hp]. unfold take_next.
  destruct (earliest (active T)) as [x|] eqn:E; [|done]. intros [= <- <-].
  pose proof (earliest_min _ _ E) as Hmin.
  apply earliest_In, list_elem_of_In in E as Hin.
  pose proof (proj1 (Forall_forall _ _) Hp x Hin) as Hpx.
  pose proof (proj1 (Forall_forall _ _) Hfr x Hin) as Hfx.
  assert (Hrest : timers_wf (mkTimers (t_due x) (next_id T)
                              (filter (fun y => t_id y <> t_id x) (active T)))).
  { constructor; simpl; auto using Forall_filter_keep, NoDup_map_filter. }
  destruct (t_period x) as [p|] eqn:Hper; [|done].
  destruct Hrest as [Hf' Hi' Hfr' Hp']; simpl in *.
  unfold period_ok in Hpx; rewrite Hper in Hpx.
  constructor; simpl; rewrite ?map_app; try (apply Forall_app; split; [done|]).
  - repeat constructor; simpl; lia.
  - apply NoDup_app. split; [done|]. split; [|apply NoDup_singleton].
    intros y Hy ->%list_elem_of_singleton.
    apply list_elem_of_In, in_map_iff in Hy as (z & Hz & Hzin).
    apply list_elem_of_In, list_elem_of_filter in Hzin as [Hne _]. done.
  - repeat constructor; simpl; lia.
  - repeat constructor. unfold period_ok; simpl; lia.
Qed.

(** [take_next] runs an earliest active timer and moves the clock to its
    due time, which is not in the past. *)
Lemma take_next_spec (T : timers) (tm : timer) (T' : timers) :
  timers_wf T -> take_next T = Some (tm, T') ->
  In tm (active T) /\ Forall (fun x => t_due tm <= t_due x) (active T) /\
  clock T <= clock T' /\ clock T' = t_due tm.
Proof.
  intros [Hf _ _ _]. unfold take_next.
  destruct (earliest (active T)) as [x|] eqn:E; [|done]. intros [= <- <-]. simpl.
  pose proof (earliest_In _ _ E) as Hin.
  repeat split; auto using earliest_min.
  rewrite Forall_forall in Hf. apply Hf. by apply list_elem_of_In.
Qed.

Lemma take_next_None (T : timers) : take_next T = None <-> active T = [].
Proof.
  unfold take_next. rewrite <- earliest_None.
  destruct (earliest (active T)); split; congruence.
Qed.

Lemma init_wf (now : Z) : timers_wf (init now).
Proof. constructor; simpl; constructor. Qed.

(** ** What stays active *)

Lemma take_next_In (T T' : timers) (tm : timer) :
  take_next T = Some (tm, T') -> tm ∈ active T.
Proof.
  unfold take_next. destruct (earliest (active T)) as [x|] eqn:E; [|done].
  intros [= <- <-]. apply list_elem_of_In. by apply earliest_In.
Qed.

(** [take_next] keeps every other timer, and re-arms the one it ran,
    with its id and callback, when it is an interval. *)
Lemma take_next_keeps (T T' : timers) (tm x : timer) :
  take_next T = Some (tm, T') -> x ∈ active T ->
  (t_id x <> t_id tm -> x ∈ active T') /\
  (forall p, t_period tm = Some p ->
     exists y, y ∈ active T' /\ t_id y = t_id tm /\ t_cb y = t_cb tm /\ t_period y = Some p).
Proof.
  unfold take_next. destruct (earliest (active T)) as [y|] eqn:E; [|done].
  intros [= <- <-] Hx. simpl. split.
  - intros Hne.
    assert (Hf : x ∈ filter (fun z => t_id z <> t_id y) (active T))
      by (apply list_elem_of_filter; split; [exact Hne|exact Hx]).
    destruct (t_period y); simpl; [apply elem_of_app; left|]; exact Hf.
  - intros p Hp. rewrite Hp. simpl. exists (mkTimer (t_id y) (t_due y + p) (Some p) (t_cb y)).
    split; [|done].
    apply elem_of_app. right. by apply list_elem_of_singleton.
Qed.

Lemma take_next_next_id (T T' : timers) (tm : timer) :
  take_next T = Some (tm, T') -> next_id T' = next_id T.
Proof. unfold take_next. destruct (earliest (active T)); [|done]. by intros [= <- <-]. Qed.

(** Every timer [take_next] leaves was active before, or is the re-armed
    interval it ran. *)
Lemma take_next_origin (T T' : timers) (tm y : timer) :
  take_next T = Some (tm, T') -> y ∈ active T' ->
  next_id T' = next_id T /\
  (y ∈ active T \/ (t_id y = t_id tm /\ t_cb y = t_cb tm /\ t_period y = t_period tm)).
Proof.
  unfold take_next. destruct (earliest (active T)) as [x|] eqn:E; [|done].
  intros [= <- <-] Hy. simpl in *. split; [done|].
  destruct (t_period x) as [p|] eqn:Hp.
  - apply elem_of_app in Hy as [Hy|Hy%list_elem_of_singleton]; [|subst y; by right].
    left. by apply list_elem_of_filter in Hy as [_ ?].
  - left. by apply list_elem_of_filter in Hy as [_ ?].
Qed.

(** A property of timers that depends only on their id, callback and
    period is kept by [take_next]; [arm] keeps it when the new timer
    has it. *)
(** A weight summed over the active timers: running the next timer
    takes its weight off and adds the weight of its re-armed copy. *)
Lemma sum_take_next (f : timer -> nat) (T T' : timers) (tm : timer) :
  timers_wf T -> take_next T = Some (tm, T') ->
  (sum_list_with f (active T') + f tm = sum_list_with f (active T) +
     match t_period tm with Some p => f (mkTimer (t_id tm) (t_due tm + p) (Some p) (t_cb tm)) | None => 0 end)%nat.
Proof.
  intros Hwf Ht. pose proof (take_next_In _ _ _ Ht) as Hin.
  unfold take_next in Ht. destruct (earliest (active T)) as [x|] eqn:E; [|done].
  injection Ht as <- <-. cbn [active].
  rewrite <- (sum_filter_key t_id f (active T) x (wf_ids _ Hwf) Hin).
  destruct (t_period x); [rewrite sum_list_with_app; cbn; lia|lia].
Qed.

Lemma Forall_take_next (P : timer -> Prop) (T T' : timers) (tm : timer) :
  (forall x y, t_id x = t_id y -> t_cb x = t_cb y -> t_period x = t_period y -> P x -> P y) ->
  take_next T = Some (tm, T') -> Forall P (active T) -> Forall P (active T').
Proof.
  intros Hresp Ht HP. apply Forall_forall. intros y Hy.
  destruct (take_next_origin _ _ _ _ Ht Hy) as [_ [Hy'|(Hi & Hc & Hp)]].
  - by apply (proj1 (Forall_forall _ _) HP).
  - apply (Hresp tm); auto. apply (proj1 (Forall_forall _ _) HP). by apply (take_next_In _ T').
Qed.

Lemma Forall_arm (P : timer -> Prop) (cb : C) (delay : Z) (period : option Z) (T : timers) :
  Forall P (active T) -> P (mkTimer (next_id T) (clock T + clamp delay) period cb) ->
  Forall P (active (arm cb delay period T).2).
Proof. intros H1 H2. simpl. apply Forall_app. auto. Qed.

(** A timer of the list has this id and callback. *)
Definition alive (id : nat) (c : C) (l : list timer) : Prop :=
  exists tm, tm ∈ l /\ t_id tm = id /\ t_cb tm = c.

Lemma alive_app (id : nat) (c : C) (l l' : list timer) : alive id c l -> alive id c (l ++ l').
Proof. intros (tm & Hin & ? & ?). exists tm. split; [apply elem_of_app; by left|done]. Qed.

(** ** Pending callbacks *)

(** Whether an active timer's callback satisfies [p]. *)
Definition has_cb (p : C -> bool) (T : timers) : bool :=
  existsb (fun tm => p (t_cb tm)) (active T).

Lemma has_cb_arm (p : C -> bool) (cb : C) (delay : Z) (period : option Z) (T : timers) :
  has_cb p (arm cb delay period T).2 = has_cb p T || p cb.
Proof. unfold has_cb, arm. simpl. rewrite existsb_app. simpl. by rewrite orb_false_r. Qed.

Lemma has_cb_filter (p : C -> bool) (q : timer -> Prop) `{!forall x, Decision (q x)} (l : list timer) :
  existsb (fun tm => p (t_cb tm)) l = false ->
  existsb (fun tm => p (t_cb tm)) (filter q l) = false.
Proof.
  induction l as [|x l IH]; simpl; [done|]. intros [Hx Hl]%orb_false_iff.
  destruct (decide (q x)); [rewrite filter_cons_True by done; simpl; rewrite Hx|
                            rewrite filter_cons_False by done]; auto.
Qed.

Lemma has_cb_clear (p : C -> bool) (id : nat) (T : timers) :
  has_cb p T = false -> has_cb p (clearTimer id T) = false.
Proof. apply has_cb_filter. Qed.

(** Running the next timer adds no callback: a timer whose callback
    fails [p] stays absent. *)
Lemma has_cb_take_next (p : C -> bool) (T T' : timers) (tm : timer) :
  take_next T = Some (tm, T') -> has_cb p T = false ->
  p (t_cb tm) = false /\ has_cb p T' = false.
Proof.
  unfold take_next, has_cb. destruct (earliest (active T)) as [x|] eqn:E; [|done].
  intros [= <- <-] Hp.
  assert (Hx : p (t_cb x) = false).
  { apply earliest_In in E. destruct (p (t_cb x)) eqn:Hx; [|done].
    rewrite <- Hp. symmetry. apply existsb_exists. eauto. }
  split; [done|]. simpl. destruct (t_period x); [rewrite existsb_app; simpl; rewrite Hx|];
    rewrite ?has_cb_filter; auto.
Qed.

End Timers.

Arguments timer : clear implicits.
Arguments timers : clear implicits.

End Timers.
