(* ===== verification/Lifecycle.v ===== *)
(** * Lifecycle: the Dashboard's mount effects, its timers and teardown

    Models the two [useEffect] hooks of components/Dashboard.js that run
    on mount, in declaration order:
    - the highlight effect (27-41): if [urlParams.get('highlight')] is a
      non-empty string, [setHighlightedError(highlight)] and a 1000 ms
      [setTimeout] whose callback scrolls to the card; no cleanup;
    - the sync effect (93-105): [fetchData()] at once, then a one-shot
      [setTimeout] for [getTimeUntilNextSync()] ms whose callback calls
      [fetchData()] and starts [setInterval(fetchData, 5 * 60 * 1000)];
      the value the callback returns (a function clearing the interval)
      is dropped by the timer API; the effect's cleanup clears only the
      one-shot timer.
    The Refresh button (404-410) calls [fetchData] directly.

    The three operations the effects call on the rest of the component
    form the interface [DashboardHooks]; every theorem here holds for
    any implementation of it.  Each mounted instance of the component
    gets a number, captured by its closures, as a JavaScript closure
    captures the setters of the instance that created it.

    Theorems: the poll schedule after mount ([t], [t + d], then every
    five minutes); unmounting before the first timed sync stops all
    polling; unmounting after it does not (the interval keeps calling
    [fetchData] forever).  The bookkeeping invariant [lifecycle_inv]
    (a well-formed timer table, the interval armed with its 5-minute
    period and the timeouts with none, a cleanup id that names no
    interval) holds on every run, and with it an interval once started
    stays armed whatever events follow, so the intervals of successive
    mounts accumulate.  The browser's event loop up to a time [t]
    ([run_until], with fuel) terminates from every reachable world:
    [work t w + 1] units of fuel suffice, [work] counting the callbacks
    due by [t]; a zero-period interval would break the bound, and the
    invariant rules it out. *)

From S2P Require Import Prelude SyncTiming Timers.
Open Scope Z_scope.

Module Lifecycle.
Import SyncTiming Timers.

(** What the effects call on the component; the [nat] is the instance
    whose closure makes the call, the [Z] the clock at the call. *)
Class DashboardHooks (A : Type) := {
  fetchData : nat -> Z -> A -> A;
  setHighlightedError : nat -> string -> A -> A;
  highlightScroll : nat -> string -> Z -> A -> A
}.

(** The closures handed to the timer API. *)
Inductive closure :=
| HighlightTimeout (inst : nat) (highlight : string)  (* Dashboard.js 33-39 *)
| InitialSync (inst : nat)                            (* Dashboard.js 97-102 *)
| SyncInterval (inst : nat).                          (* Dashboard.js 100 *)

Section Lifecycle.
Context {A : Type} `{!DashboardHooks A}.

Record world := mkWorld {
  timers_of : timers closure;
  instances : nat;                 (* number of instances mounted so far *)
  mounted : option (nat * nat);    (* live instance, id cleared by its cleanup *)
  app : A
}.

Definition now (w : world) : Z := clock (timers_of w).

(** Running a timer callback: the callback body of each closure. *)
Definition run_closure (c : closure) (T : timers closure) (a : A) : timers closure * A :=
  match c with
  | HighlightTimeout i h => (T, highlightScroll i h (clock T) a)
  | InitialSync i =>
      let a1 := fetchData i (clock T) a in
      let '(_, T1) := setInterval (SyncInterval i) SYNC_INTERVAL T in
      (T1, a1)
  | SyncInterval i => (T, fetchData i (clock T) a)
  end.

(** Dashboard.js 27-41: [if (highlight)] is false for [null] and [""]. *)
Definition highlight_effect (i : nat) (highlight : option string) (w : world) : world :=
  match highlight with
  | Some h =>
      if decide (h = ""%string) then w
      else
        let a1 := setHighlightedError i h (app w) in
        let '(_, T1) := setTimeout (HighlightTimeout i h) 1000 (timers_of w) in
        mkWorld T1 (instances w) (mounted w) a1
  | None => w
  end.

(** Dashboard.js 93-105: returns the id of the one-shot timer, which the
    cleanup closure captures. *)
Definition sync_effect (i : nat) (w : world) : world * nat :=
  let a1 := fetchData i (now w) (app w) in
  let '(id, T1) := setTimeout (InitialSync i) (getTimeUntilNextSync (now w)) (timers_of w) in
  (mkWorld T1 (instances w) (mounted w) a1, id).

Definition mount (highlight : option string) (w : world) : world :=
  match mounted w with
  | Some _ => w
  | None =>
      let i := instances w in
      let '(w2, id) := sync_effect i (highlight_effect i highlight w) in
      mkWorld (timers_of w2) (S i) (Some (i, id)) (app w2)
  end.

(** The cleanup of the sync effect: [clearTimeout(initialTimeout)]. *)
Definition unmount (w : world) : world :=
  match mounted w with
  | Some (_, id) => mkWorld (clearTimeout id (timers_of w)) (instances w) None (app w)
  | None => w
  end.

(** The event loop runs the next due timer. *)
Definition fire (w : world) : world :=
  match take_next (timers_of w) with
  | Some (tm, T') =>
      let '(T'', a') := run_closure (t_cb tm) T' (app w) in
      mkWorld T'' (instances w) (mounted w) a'
  | None => w
  end.

(** [onClick={fetchData}]: the button exists while the instance is
    mounted. *)
Definition refresh (w : world) : world :=
  match mounted w with
  | Some (i, _) => mkWorld (timers_of w) (instances w) (mounted w) (fetchData i (now w) (app w))
  | None => w
  end.

(** Time passes up to [t] when no timer is due before it. *)
Definition advance (t : Z) (w : world) : world :=
  let T := timers_of w in
  if (clock T <=? t) && forallb (fun tm => t <=? t_due tm) (active T)
  then mkWorld (mkTimers t (next_id T) (active T)) (instances w) (mounted w) (app w)
  else w.

Inductive event :=
| Mount (highlight : option string)
| Unmount
| Fire
| Refresh
| Advance (t : Z).

#[global] Instance lifecycle_step : Step world event := fun w e =>
  match e with
  | Mount h => mount h w
  | Unmount => unmount w
  | Fire => fire w
  | Refresh => refresh w
  | Advance t => advance t w
  end.

(** A fresh page at time [t]: no timers, nothing mounted. *)
Definition page (t : Z) (a : A) : world := mkWorld (init t) 0 None a.

(** The times at which instance 0 calls [fetchData] after a mount at [t]
    and [n] timer firings: [t], then [t + d + k * 5 min] for [k < n]. *)
Definition interval_times (due : Z) (n : nat) : list Z :=
  map (fun k => due + Z.of_nat k * SYNC_INTERVAL) (seq 0 n).

Definition sync_schedule (t : Z) (n : nat) : list Z :=
  t :: interval_times (t + getTimeUntilNextSync t) n.

Definition fetches (i : nat) (times : list Z) (a : A) : A :=
  fold_left (fun a' tau => fetchData i tau a') times a.

Definition is_sync_interval (c : closure) : bool :=
  match c with SyncInterval _ => true | _ => false end.

(** The period a closure is armed with: the 5-minute interval is the
    only [setInterval] of the code. *)
Definition period_of (c : closure) : option Z :=
  if is_sync_interval c then Some SYNC_INTERVAL else None.

(** ** The event loop up to a time *)

(** The browser runs every timer due by [t], earliest first, then its
    clock reads [t]; [fuel] bounds the callbacks run. *)
Fixpoint run_until (fuel : nat) (t : Z) (w : world) : option world :=
  match fuel with
  | O => None
  | S f =>
      match earliest (active (timers_of w)) with
      | Some tm => if t_due tm <=? t then run_until f t (fire w) else Some (advance t w)
      | None => Some (advance t w)
      end
  end.

(** The callbacks a timer runs up to [t]: the interval once per period
    from its due time, the one-shot sync once and then the interval it
    starts, the highlight timer once. *)
Definition interval_runs (t due : Z) : nat :=
  if due <=? t then S (Z.to_nat ((t - due) / SYNC_INTERVAL)) else 0.

Definition callbacks_until (t : Z) (tm : timer closure) : nat :=
  match t_cb tm with
  | SyncInterval _ => interval_runs t (t_due tm)
  | InitialSync _ => if t_due tm <=? t then S (interval_runs t (t_due tm + SYNC_INTERVAL)) else 0
  | HighlightTimeout _ _ => if t_due tm <=? t then 1 else 0
  end.

Definition work (t : Z) (w : world) : nat := sum_list_with (callbacks_until t) (active (timers_of w)).

(** The bookkeeping of a world: a well-formed timer table, the
    interval armed with its 5-minute period and the timeouts with none,
    and a cleanup id below the id counter that names no timer but the
    mounted instance's one-shot sync timeout. *)
Record lifecycle_inv (w : world) : Prop := {
  inv_timers : timers_wf (timers_of w);
  inv_periodic : Forall (fun tm => t_period tm = period_of (t_cb tm)) (active (timers_of w));
  inv_cleanup : forall i id, mounted w = Some (i, id) ->
    (id < next_id (timers_of w))%nat /\
    Forall (fun tm => t_id tm = id -> t_cb tm = InitialSync i) (active (timers_of w))
}.

(** ** Lemmas *)

Lemma getTimeUntilNextSync_nonneg (t : Z) : 0 <= getTimeUntilNextSync t.
Proof. unfold getTimeUntilNextSync. lia. Qed.

Lemma clamp_nonneg (d : Z) : 0 <= d -> clamp d = d.
Proof. unfold clamp. lia. Qed.

Lemma interval_times_S (due : Z) (n : nat) :
  interval_times due (S n) = due :: interval_times (due + SYNC_INTERVAL) n.
Proof.
  unfold interval_times. simpl. f_equal; [lia|].
  rewrite <- seq_shift, map_map. apply map_ext. intros k. lia.
Qed.

(** One firing when only an interval of instance [i] is active. *)
Lemma fire_interval (w : world) (c due : Z) (n id i : nat) :
  timers_of w = mkTimers c n [mkTimer id due (Some SYNC_INTERVAL) (SyncInterval i)] ->
  fire w = mkWorld (mkTimers due n [mkTimer id (due + SYNC_INTERVAL) (Some SYNC_INTERVAL)
                                      (SyncInterval i)])
                   (instances w) (mounted w) (fetchData i due (app w)).
Proof.
  intros HT. unfold fire. rewrite HT. unfold take_next; simpl.
  rewrite filter_cons_False by (intros H; apply H; reflexivity). reflexivity.
Qed.

(** [k] firings of a lone interval: [fetchData] at each due time. *)
Lemma fire_interval_n (k : nat) (w : world) (c due : Z) (n id i : nat) :
  timers_of w = mkTimers c n [mkTimer id due (Some SYNC_INTERVAL) (SyncInterval i)] ->
  app (run w (repeat Fire k)) = fetches i (interval_times due k) (app w) /\
  active (timers_of (run w (repeat Fire k))) =
    [mkTimer id (due + Z.of_nat k * SYNC_INTERVAL) (Some SYNC_INTERVAL) (SyncInterval i)].
Proof.
  revert w c due; induction k as [|k IH]; intros w c due HT.
  - replace (due + Z.of_nat 0 * SYNC_INTERVAL) with due by lia.
    simpl. rewrite HT. split; reflexivity.
  - rewrite interval_times_S. simpl repeat. rewrite run_cons.
    change (step w Fire) with (fire w). rewrite (fire_interval w c due n id i HT).
    match goal with
    | |- context [run ?w' _] => destruct (IH w' due (due + SYNC_INTERVAL) eq_refl) as [Happ Hact]
    end.
    split; [exact Happ|]. rewrite Hact.
    replace (due + SYNC_INTERVAL + Z.of_nat k * SYNC_INTERVAL)
      with (due + Z.of_nat (S k) * SYNC_INTERVAL) by lia. reflexivity.
Qed.

(** After a mount at [t] and the first firing, the one-shot timer is
    gone and the interval of instance 0 is armed. *)
Lemma mount_then_first_sync (t : Z) (a : A) :
  run (page t a) [Mount None; Fire] =
  mkWorld (mkTimers (t + getTimeUntilNextSync t) 3
             [mkTimer 2 (t + getTimeUntilNextSync t + SYNC_INTERVAL) (Some SYNC_INTERVAL)
                (SyncInterval 0)])
          1 (Some (0%nat, 1%nat))
          (fetchData 0 (t + getTimeUntilNextSync t) (fetchData 0 t a)).
Proof.
  pose proof (getTimeUntilNextSync_nonneg t).
  cbn. case_decide as Hd; [by destruct Hd|]. cbn.
  rewrite !clamp_nonneg by (try unfold SYNC_INTERVAL; lia). reflexivity.
Qed.

(** Runs of a lone interval, instantiated from the goal. *)
Ltac interval_run lem :=
  match goal with
  | |- context [run ?w (repeat Fire ?k)] =>
      destruct (lem k w _ _ _ _ _ eq_refl) as [?Happ ?Hact]
  end.

Lemma fetches_cons (i : nat) (tau : Z) (times : list Z) (a : A) :
  fetches i (tau :: times) a = fetches i times (fetchData i tau a).
Proof. reflexivity. Qed.

(** ** Properties *)

(** C4 *)
(** The poll schedule: after the Dashboard mounts at time [t] (no
    highlight), [n] timer firings call [fetchData] exactly at [t],
    [t + d] and then every five minutes, where [d] is
    [getTimeUntilNextSync t]. *)
Theorem mount_poll_schedule (t : Z) (a : A) (n : nat) :
  app (run (page t a) (Mount None :: repeat Fire n)) = fetches 0 (sync_schedule t n) a.
Proof.
  destruct n as [|n]; [reflexivity|].
  change (Mount None :: repeat Fire (S n)) with ([Mount None; Fire] ++ repeat Fire n).
  rewrite run_app, mount_then_first_sync. interval_run fire_interval_n. rewrite Happ.
  unfold sync_schedule. rewrite interval_times_S. reflexivity.
Qed.

(** C5 *)
(** Teardown before the first timed sync: once the Dashboard unmounts
    before the one-shot timer fires, no later firing, refresh or passage
    of time calls [fetchData] again (as long as it is not mounted
    anew). *)
Theorem unmount_before_first_sync (t : Z) (a : A) (evs : list event) :
  Forall (fun e => forall h, e <> Mount h) evs ->
  app (run (page t a) (Mount None :: Unmount :: evs)) = fetchData 0 t a.
Proof.
  intros Hevs. rewrite !run_cons.
  apply (run_preserves_on (fun e => forall h, e <> Mount h) (fun w => active (timers_of w) = [] /\ mounted w = None /\
                                      app w = fetchData 0 t a)); [|exact Hevs|].
  - intros w e He (Hact & Hm & Happ).
    destruct e as [h| | | |t']; [by destruct (He h)| | | |];
      cbn; unfold unmount, fire, refresh, advance; rewrite ?Hm;
      rewrite ?(proj2 (take_next_None _) Hact); auto.
    destruct (_ && _); simpl; auto.
  - cbn. case_decide as Hd; [by destruct Hd|]. auto.
Qed.

(** C6 *)
(** The teardown leak: once the first timed sync has run, unmounting the
    Dashboard changes nothing about polling: the interval started by the
    timeout callback is never cleared, and [n] later firings call
    [fetchData] on the same five-minute schedule as if the page were
    still open. *)
Theorem unmount_after_first_sync_keeps_polling (t : Z) (a : A) (n : nat) :
  app (run (page t a) ([Mount None; Fire; Unmount] ++ repeat Fire n)) =
  fetches 0 (sync_schedule t (S n)) a.
Proof.
  rewrite run_app.
  change [Mount None; Fire; Unmount] with ([Mount None; Fire] ++ [Unmount]).
  rewrite run_app, mount_then_first_sync.
  cbn [run step lifecycle_step unmount mounted timers_of instances app].
  unfold clearTimeout, clearTimer. cbn [clock next_id active].
  rewrite filter_cons_True by (cbn; lia). rewrite filter_nil.
  interval_run fire_interval_n. rewrite Happ.
  unfold sync_schedule. rewrite interval_times_S. reflexivity.
Qed.

(** ** Intervals are never cleared *)

Lemma lifecycle_inv_page (t : Z) (a : A) : lifecycle_inv (page t a).
Proof. constructor; [apply init_wf|constructor|done]. Qed.

(** Arming a timer keeps the bookkeeping when an interval gets a
    period. *)
Lemma lifecycle_inv_arm (w : world) (cb : closure) (delay : Z) (period : option Z) (n : nat) (a : A) :
  lifecycle_inv w -> (match period with Some p => 0 <= p | None => True end) ->
  period = period_of cb ->
  lifecycle_inv (mkWorld (arm cb delay period (timers_of w)).2 n (mounted w) a).
Proof.
  intros [Hwf Hper Hcl] Hp Hcb. constructor; simpl.
  - by apply arm_wf.
  - by apply (Forall_arm (fun tm => _ = _)).
  - intros i id Hm. destruct (Hcl i id Hm) as [Hlt Hf]. split; [lia|].
    apply (Forall_arm (fun tm => _ -> _)); [done|]. simpl. lia.
Qed.

Lemma lifecycle_inv_mount (w : world) (h : option string) :
  lifecycle_inv w -> lifecycle_inv (mount h w).
Proof.
  intros Hinv. unfold mount. destruct (mounted w) as [[]|] eqn:Hm; [done|].
  set (i := instances w).
  assert (H1 : lifecycle_inv (highlight_effect i h w) /\ mounted (highlight_effect i h w) = None).
  { unfold highlight_effect. destruct h as [h|]; [case_decide|]; auto.
    unfold setTimeout. split; [|done]. by apply lifecycle_inv_arm. }
  destruct H1 as [[Hwf Hper _] Hm1]. set (w1 := highlight_effect i h w) in *.
  unfold sync_effect, setTimeout. cbn.
  constructor; simpl.
  - by apply arm_wf.
  - by apply (Forall_arm (fun tm => _ = _)).
  - intros i' id [= <- <-]. split; [lia|].
    apply (Forall_arm (fun tm => _ -> _)); [|done].
    apply Forall_forall. intros tm Htm Heq.
    pose proof (proj1 (Forall_forall _ _) (wf_fresh _ Hwf) tm Htm) as Hlt. simpl in Hlt. lia.
Qed.

Lemma lifecycle_inv_fire (w : world) : lifecycle_inv w -> lifecycle_inv (fire w).
Proof.
  intros [Hwf Hper Hcl]. unfold fire.
  destruct (take_next (timers_of w)) as [[tm T']|] eqn:Ht; [|by constructor].
  pose proof (take_next_next_id _ _ _ Ht) as Hnid.
  assert (HT' : lifecycle_inv (mkWorld T' (instances w) (mounted w) (app w))).
  { constructor; simpl.
    - exact (take_next_wf _ _ _ Hwf Ht).
    - refine (Forall_take_next _ _ _ _ _ Ht Hper). intros x y _ Hc Hp Hx. by rewrite <- Hc, <- Hp.
    - intros i id Hm. destruct (Hcl i id Hm) as [Hlt Hf]. split; [by rewrite Hnid|].
      refine (Forall_take_next _ _ _ _ _ Ht Hf). intros x y Hi Hc _ Hx. by rewrite <- Hi, <- Hc. }
  destruct (t_cb tm) as [j h|j|j]; cbn [run_closure]; [destruct HT'; by constructor| |destruct HT'; by constructor].
  destruct (setInterval _ _ _) as [n0 T1] eqn:E.
  replace T1 with (arm (SyncInterval j) SYNC_INTERVAL (Some (clamp SYNC_INTERVAL)) T').2
    by (unfold setInterval in E; by rewrite E).
  apply (lifecycle_inv_arm (mkWorld T' (instances w) (mounted w) (app w))); [done|unfold clamp; lia|].
  unfold period_of, clamp, SYNC_INTERVAL. cbn. reflexivity.
Qed.

Lemma lifecycle_inv_step (w : world) (e : event) : lifecycle_inv w -> lifecycle_inv (step w e).
Proof.
  intros Hinv. destruct e as [h| | | |t]; cbn [step lifecycle_step].
  - by apply lifecycle_inv_mount.
  - unfold unmount. destruct (mounted w) as [[]|]; [|done]. destruct Hinv as [Hwf Hper Hcl].
    constructor; cbn [timers_of mounted];
      first [assumption | by apply clearTimer_wf | by intros ? ? ?
            | unfold clearTimeout, clearTimer; simpl; by apply Forall_filter_keep].
  - by apply lifecycle_inv_fire.
  - unfold refresh. destruct (mounted w) as [[]|] eqn:Hm; [|done]. destruct Hinv as [Hwf Hper Hcl].
    constructor; simpl; [done|done|]. rewrite <- Hm. exact Hcl.
  - destruct Hinv as [[Hf Hi Hfr Hp] Hper Hcl]. unfold advance.
    destruct (clock (timers_of w) <=? t) eqn:Hc; simpl; [|by constructor].
    destruct (forallb _ _) eqn:Hall; simpl; [|by constructor].
    constructor; [constructor|..]; simpl; auto.
    apply Forall_forall. intros tm Htm. apply Z.leb_le.
    exact (forallb_elem (fun tm => t <=? t_due tm) _ tm Hall Htm).
Qed.

(** An interval stays armed across any event. *)
Lemma alive_step (w : world) (e : event) (id : nat) (c : closure) :
  lifecycle_inv w -> is_sync_interval c = true ->
  alive id c (active (timers_of w)) -> alive id c (active (timers_of (step w e))).
Proof.
  intros [Hwf Hper Hcl] Hc Hal. destruct e as [h| | | |t]; cbn [step lifecycle_step].
  - unfold mount. destruct (mounted w) as [[]|]; [done|].
    unfold sync_effect, highlight_effect, setTimeout.
    destruct h as [h|]; [case_decide|]; cbn; repeat apply alive_app; exact Hal.
  - unfold unmount. destruct (mounted w) as [[i id']|] eqn:Hm; [|done].
    destruct Hal as (tm & Hin & Hid & Hcb). exists tm. split; [|done].
    cbn [timers_of]. first [exact Hin | apply list_elem_of_filter; split; [|done]; intros Heq;
      destruct (Hcl i id' eq_refl) as [_ Hf];
      pose proof (proj1 (Forall_forall _ _) Hf tm Hin Heq) as Hs; rewrite <- Hcb, Hs in Hc; discriminate].
  - unfold fire. destruct (take_next (timers_of w)) as [[x T']|] eqn:Ht; [|done].
    assert (HT' : alive id c (active T')).
    { destruct Hal as (tm & Hin & Hid & Hcb).
      destruct (take_next_keeps _ _ _ _ Ht Hin) as [Hother Hrearm].
      destruct (decide (t_id tm = t_id x)) as [Heq|Hne]; [|exists tm; auto].
      pose proof (NoDup_map_eq t_id _ tm x (wf_ids _ Hwf) Hin (take_next_In _ _ _ Ht) Heq) as <-.
      assert (Hp : t_period tm = Some SYNC_INTERVAL).
      { rewrite (proj1 (Forall_forall _ _) Hper tm Hin). unfold period_of. by rewrite Hcb, Hc. }
      destruct (Hrearm _ Hp) as (y & Hy & Hyid & Hycb & _). exists y. split_and!; congruence. }
    destruct (t_cb x) as [j h|j|j]; cbn [run_closure]; [done| |done].
    unfold setInterval, arm. cbn. by apply alive_app.
  - unfold refresh. destruct (mounted w) as [[]|]; done.
  - unfold advance. destruct (_ && _); done.
Qed.

(** ** The event loop reaches every time *)

Lemma interval_runs_step (t due : Z) :
  due <= t -> S (interval_runs t (due + SYNC_INTERVAL)) = interval_runs t due.
Proof.
  unfold interval_runs, SYNC_INTERVAL. intros Hle.
  destruct (Z.leb_spec (due + 5 * 60 * 1000) t), (Z.leb_spec due t); zlia.
Qed.

Lemma now_fire (w : world) (tm : timer closure) :
  earliest (active (timers_of w)) = Some tm -> now (fire w) = t_due tm.
Proof.
  intros E. unfold fire, take_next. rewrite E. cbn [fst snd].
  destruct (t_cb tm); cbn [run_closure]; [done| |done].
  unfold setInterval, arm. done.
Qed.

Lemma active_advance (t : Z) (w : world) : active (timers_of (advance t w)) = active (timers_of w).
Proof. unfold advance. by destruct (_ && _). Qed.

Lemma now_advance (t : Z) (w : world) :
  now w <= t -> Forall (fun tm => t <= t_due tm) (active (timers_of w)) -> now (advance t w) = t.
Proof.
  intros Hle Hall. unfold advance, now in *. rewrite (proj2 (Z.leb_le _ _) Hle).
  replace (forallb _ _) with true; [done|]. symmetry. apply forallb_forall.
  intros tm Htm%list_elem_of_In. apply Z.leb_le. exact (proj1 (Forall_forall _ _) Hall tm Htm).
Qed.

(** Running the earliest timer due by [t] is one callback less to run. *)
Lemma work_fire (w : world) (t : Z) (tm : timer closure) :
  lifecycle_inv w -> earliest (active (timers_of w)) = Some tm -> t_due tm <= t ->
  S (work t (fire w)) = work t w.
Proof.
  intros [Hwf Hper _] E Hle.
  assert (Ht : take_next (timers_of w) = Some (tm, mkTimers (t_due tm) (next_id (timers_of w))
      (let rest := filter (fun x => t_id x <> t_id tm) (active (timers_of w)) in
       match t_period tm with Some p => rest ++ [mkTimer (t_id tm) (t_due tm + p) (Some p) (t_cb tm)] | None => rest end)))
    by (unfold take_next; by rewrite E).
  pose proof (sum_take_next (callbacks_until t) _ _ _ Hwf Ht) as Hsum.
  pose proof (proj1 (Forall_forall _ _) Hper tm (take_next_In _ _ _ Ht)) as Hp.
  unfold work, fire. rewrite Ht. unfold period_of in Hp.
  destruct (t_cb tm) as [j h|j|j] eqn:Hcb; cbn [is_sync_interval] in Hp; rewrite Hp in Hsum |- *;
    cbn [run_closure fst snd timers_of]; unfold callbacks_until at 2 in Hsum; rewrite Hcb in Hsum.
  - rewrite (proj2 (Z.leb_le _ _) Hle) in Hsum. lia.
  - unfold setInterval, arm. cbn [active clock next_id fst snd timers_of]. rewrite sum_list_with_app.
    unfold clamp. replace (Z.max 0 SYNC_INTERVAL) with SYNC_INTERVAL by (unfold SYNC_INTERVAL; lia).
    cbn [active] in Hsum. cbn [sum_list_with callbacks_until t_cb t_due].
    rewrite (proj2 (Z.leb_le _ _) Hle) in Hsum. lia.
  - cbn [callbacks_until t_cb t_due] in Hsum. rewrite <- (interval_runs_step t (t_due tm) Hle) in Hsum. lia.
Qed.

(** Enough fuel, one more than the callbacks due, runs the loop to
    [t]: no timer due by then is left, and the clock reads [t]. *)
Lemma run_until_work (fuel : nat) (t : Z) (w : world) :
  lifecycle_inv w -> (work t w < fuel)%nat ->
  exists w', run_until fuel t w = Some w' /\ Forall (fun tm => t < t_due tm) (active (timers_of w')) /\
    (now w <= t -> now w' = t).
Proof.
  revert w. induction fuel as [|f IH]; intros w Hinv Hf; [lia|].
  cbn [run_until]. destruct (earliest (active (timers_of w))) as [tm|] eqn:E.
  - destruct (Z.leb_spec (t_due tm) t) as [Hle|Hgt].
    + destruct (IH (fire w)) as (w' & Hr & Hall & Hnow); [by apply lifecycle_inv_fire|rewrite <- (work_fire w t tm) in Hf by done; lia|].
      exists w'. split_and!; [done|done|]. intros _. apply Hnow. by rewrite (now_fire w tm E).
    + pose proof (earliest_min _ _ E) as Hmin.
      exists (advance t w). rewrite active_advance. split_and!; [done| |].
      * apply Forall_forall. intros x Hx. pose proof (proj1 (Forall_forall _ _) Hmin x Hx) as Hx'. cbn beta in Hx'. lia.
      * intros Hnow. apply now_advance; [done|]. apply Forall_forall. intros x Hx.
        pose proof (proj1 (Forall_forall _ _) Hmin x Hx) as Hx'. cbn beta in Hx'. lia.
  - apply earliest_None in E. exists (advance t w). rewrite active_advance, E.
    split_and!; [done|constructor|]. intros Hnow. apply now_advance; [done|]. rewrite E. constructor.
Qed.

(** C36 *)
(** The event loop terminates: from any world a run of the page
    reaches, the browser runs every timer due by a time [t] in finitely
    many callbacks (one more unit of fuel than [work t] suffices, the
    count of callbacks due: each interval once per period, the one-shot
    sync and the interval it starts, the highlight timer once), leaving
    no timer due by [t] and the clock at [t]. *)
Theorem event_loop_terminates (t0 : Z) (a : A) (evs : list event) (t : Z) (fuel : nat) :
  (work t (run (page t0 a) evs) < fuel)%nat ->
  exists w', run_until fuel t (run (page t0 a) evs) = Some w' /\
    Forall (fun tm => t < t_due tm) (active (timers_of w')) /\
    (now (run (page t0 a) evs) <= t -> now w' = t).
Proof.
  apply run_until_work. apply run_preserves; [apply lifecycle_inv_step|apply lifecycle_inv_page].
Qed.

(** C26 *)
(** The 5-minute interval is never cleared: once a run of the page has
    started it (the first timed sync has fired), no later sequence of
    events (unmounting, remounting, firings, refreshes, time passing)
    removes it; it stays armed with its id and callback, so the
    intervals of successive mounts accumulate. *)
Theorem sync_interval_never_cleared (t : Z) (a : A) (evs0 evs : list event) (tm : timer closure) :
  tm ∈ active (timers_of (run (page t a) evs0)) -> is_sync_interval (t_cb tm) = true ->
  alive (t_id tm) (t_cb tm) (active (timers_of (run (page t a) (evs0 ++ evs)))).
Proof.
  intros Hin Hc. rewrite run_app.
  assert (Hinv : lifecycle_inv (run (page t a) evs0))
    by (apply run_preserves; [apply lifecycle_inv_step|apply lifecycle_inv_page]).
  refine (proj2 (run_preserves (fun w => lifecycle_inv w /\ alive (t_id tm) (t_cb tm) (active (timers_of w)))
                                _ _ evs (conj Hinv _))).
  - intros w e [Hi Ha]. split; [by apply lifecycle_inv_step|by apply alive_step].
  - by exists tm.
Qed.

End Lifecycle.

(** ** A concrete implementation of the hooks: the log of the calls *)

Inductive call :=
| CFetch (inst : nat) (at_ : Z)
| CSetHighlight (inst : nat) (h : string)
| CScroll (inst : nat) (h : string) (at_ : Z).

#[export] Instance call_log : DashboardHooks (list call) := {|
  fetchData i t l := l ++ [CFetch i t];
  setHighlightedError i h l := l ++ [CSetHighlight i h];
  highlightScroll i h t l := l ++ [CScroll i h t]
|}.

(** Mounted at 10:02:30, the page fetches at once and at 10:05:00, then
    at 10:10:00 and 10:15:00. *)
Example mount_poll_schedule_100230 :
  app (run (page 36150000 []) (Mount None :: repeat Fire 3)) =
  [CFetch 0 36150000; CFetch 0 36300000; CFetch 0 36600000; CFetch 0 36900000].
Proof. reflexivity. Qed.

Lemma unmount_before_first_sync_witness :
  Forall (fun e => forall h, e <> Mount h) [Fire; Refresh; Advance 36600000; Fire] /\
  app (run (page 36150000 []) (Mount None :: Unmount :: [Fire; Refresh; Advance 36600000; Fire]))
  = [CFetch 0 36150000].
Proof.
  assert (H : Forall (fun e => forall h, e <> Mount h) [Fire; Refresh; Advance 36600000; Fire])
    by (repeat constructor; intros h; discriminate).
  split; [exact H|].
  exact (unmount_before_first_sync (A := list call) 36150000 [] _ H).
Defined.

(** The interval of instance 0, started by the first timed sync after a
    mount at 10:02:30, stays armed through two remount cycles. *)
Lemma sync_interval_never_cleared_witness :
  mkTimer 2 36600000 (Some 300000) (SyncInterval 0) ∈
    active (timers_of (run (page 36150000 []) [Mount None; Fire])) /\
  is_sync_interval (SyncInterval 0) = true /\
  alive 2 (SyncInterval 0)
    (active (timers_of (run (page 36150000 [])
       ([Mount None; Fire] ++ [Unmount; Mount None; Fire; Unmount; Mount None; Unmount])))).
Proof.
  assert (Hin : mkTimer 2 36600000 (Some 300000) (SyncInterval 0) ∈
                  active (timers_of (run (page 36150000 []) [Mount None; Fire])))
    by (apply list_elem_of_In; vm_compute; left; reflexivity).
  split; [exact Hin|]. split; [reflexivity|].
  exact (sync_interval_never_cleared (A := list call) 36150000 [] _ _ _ Hin eq_refl).
Defined.


(** Mounted at 00:02:00 and left until 00:22:00: the one-shot sync at
    00:05:00 and the interval at 00:10:00, 00:15:00 and 00:20:00, four
    callbacks. *)
Lemma event_loop_terminates_witness :
  (work 1320000 (run (page 120000 []) [Mount None]) < 5)%nat /\
  exists w', run_until 5 1320000 (run (page 120000 []) [Mount None]) = Some w' /\
    Forall (fun tm => 1320000 < t_due tm) (active (timers_of w')) /\
    (now (run (page 120000 []) [Mount None]) <= 1320000 -> now w' = 1320000).
Proof.
  assert (H : (work 1320000 (run (page 120000 []) [Mount None]) < 5)%nat) by (vm_compute; lia).
  split; [exact H|].
  exact (event_loop_terminates (A := list call) 120000 [] [Mount None] 1320000 5 H).
Defined.

Example event_loop_fetches :
  option_map app (run_until 5 1320000 (run (page 120000 []) [Mount None])) =
  Some [CFetch 0 120000; CFetch 0 300000; CFetch 0 600000; CFetch 0 900000; CFetch 0 1200000].
Proof. vm_compute. reflexivity. Qed.

End Lifecycle.
