(* ===== verification/Poll.v ===== *)
(** * Poll: [fetchData], the error-list and stats poll

    Models [fetchData] (components/Dashboard.js 43-61) and the state it
    writes: [errors], [stats] and [loading] (Dashboard.js 18-20).
    [fetchData] awaits [Promise.all] of the two [fetch] calls, then
    [errorsResponse.json()] and [statsResponse.json()], then sets
    [errors] to [errorsData.errors || []], [stats] to [statsData] and
    [loading] to [false]; any rejection or [TypeError] on the way is
    caught and only sets [loading] to [false].  [fetch] resolves for
    every HTTP status: the code never reads [response.ok].

    A [fetch_result] is a settled [fetch]: a network failure, or a
    response whose body [.json()] parses ([Some v]) or not ([None]).
    [fetchData_settle] is what happens when both requests of one poll
    have settled.  The [poller] tracks polls in flight: each call to
    [fetchData] starts one; they settle in any order (the code does not
    sequence them), each applying [fetchData_settle] to the current
    state. *)

From S2P Require Import Prelude JsValue.

Module Poll.
Import JsValue.

Record response := mkResponse { status : Z; body : option js }.

Inductive fetch_result :=
| NetworkError
| Response (r : response).

Record data := mkData { errors : js; stats : js; loading : bool }.

(** [useState([])], [useState({})], [useState(true)]. *)
Definition initial_data : data := mkData (JArr []) (JObj []) true.

(** Dashboard.js 45-60, from the settling of [Promise.all] on. *)
Definition fetchData_settle (er sr : fetch_result) (d : data) : data :=
  let caught := mkData (errors d) (stats d) false in
  match er, sr with
  | Response e, Response s =>
      match body e with
      | None => caught
      | Some errorsData =>
          match body s with
          | None => caught
          | Some statsData =>
              match get errorsData "errors" with
              | None => caught
              | Some v => mkData (js_or v (JArr [])) statsData false
              end
          end
      end
  | _, _ => caught
  end.

(** Polls in flight, numbered in the order [fetchData] was called. *)
Record poller := mkPoller { data_of : data; next_poll : nat; inflight : list nat }.

Definition initial_poller : poller := mkPoller initial_data 0 [].

Definition start (p : poller) : poller :=
  mkPoller (data_of p) (S (next_poll p)) (inflight p ++ [next_poll p]).

Definition settle (k : nat) (er sr : fetch_result) (p : poller) : poller :=
  if decide (k ∈ inflight p)
  then mkPoller (fetchData_settle er sr (data_of p)) (next_poll p)
                (filter (fun j => j <> k) (inflight p))
  else p.

Inductive event :=
| Start
| Settle (k : nat) (er sr : fetch_result).

#[global] Instance poll_step : Step poller event := fun p e =>
  match e with
  | Start => start p
  | Settle k er sr => settle k er sr p
  end.

(** The failures of the spec's categories (1) and (2): a transport
    failure of either request, or a body that is not JSON. *)
Definition transport_or_parse_failure (er sr : fetch_result) : Prop :=
  match er, sr with
  | Response e, Response s => body e = None \/ body s = None
  | _, _ => True
  end.

(** ** Lemmas *)

Lemma fetchData_settle_loading (er sr : fetch_result) (d : data) :
  loading (fetchData_settle er sr d) = false.
Proof. unfold fetchData_settle. repeat case_match; reflexivity. Qed.

Lemma settle_inflight (k : nat) (er sr : fetch_result) (p : poller) :
  k ∈ inflight p -> data_of (settle k er sr p) = fetchData_settle er sr (data_of p).
Proof. intros Hk. unfold settle. by rewrite decide_True. Qed.

Lemma settle_failure_caught (er sr : fetch_result) (d : data) :
  transport_or_parse_failure er sr ->
  fetchData_settle er sr d = mkData (errors d) (stats d) false.
Proof.
  unfold transport_or_parse_failure, fetchData_settle.
  destruct er as [|e], sr as [|s]; auto.
  intros [He | Hs]; rewrite ?He; auto.
  destruct (body e); rewrite ?Hs; auto.
Qed.

(** ** Properties *)

(** C7 *)
(** Atomicity of a poll: after [fetchData] settles, the list and the
    stats shown are either both the ones shown before, or both come
    from this poll's two responses (the list from the errors body, the
    stats from the stats body), and the loading spinner is off. *)
Theorem fetchData_settle_atomic (er sr : fetch_result) (d : data) :
  loading (fetchData_settle er sr d) = false /\
  ((errors (fetchData_settle er sr d) = errors d /\ stats (fetchData_settle er sr d) = stats d)
   \/ exists e s ej v,
       er = Response e /\ sr = Response s /\ body e = Some ej /\ get ej "errors" = Some v /\
       errors (fetchData_settle er sr d) = js_or v (JArr []) /\
       body s = Some (stats (fetchData_settle er sr d))).
Proof.
  split; [apply fetchData_settle_loading|].
  unfold fetchData_settle.
  destruct er as [|e], sr as [|s]; simpl; auto.
  destruct (body e) as [ej|] eqn:He; simpl; auto.
  destruct (body s) as [sj|] eqn:Hs; simpl; auto.
  destruct (get ej "errors") as [v|] eqn:Hv; simpl; auto.
  right. exists e, s, ej, v. repeat split; auto.
Qed.

(** C8 *)
(** A poll that fails in transport or returns a body that is not JSON
    leaves the displayed list and stats exactly as they were. *)
Theorem poll_failure_keeps_state (er sr : fetch_result) (d : data) :
  transport_or_parse_failure er sr ->
  fetchData_settle er sr d = mkData (errors d) (stats d) false.
Proof. apply settle_failure_caught. Qed.

(** C9 *)
(** HTTP errors are not failures to the code: an error response of any
    status whose JSON body has no [errors] field (e.g. a 500 with
    [{"detail": ...}]) replaces the list by [[]] and the stats by the
    stats body, instead of keeping the previous poll's data. *)
Theorem http_error_body_clears_list (st : Z) (fs : list (string * js)) (s : response)
    (sj : js) (d : data) :
  "errors"%string ∉ map fst fs -> body s = Some sj ->
  fetchData_settle (Response (mkResponse st (Some (JObj fs)))) (Response s) d =
  mkData (JArr []) sj false.
Proof.
  intros Hn Hs. unfold fetchData_settle. simpl. rewrite Hs, lookup_field_notin by done.
  reflexivity.
Qed.

(** C10 *)
(** Out-of-order completion: when two polls are in flight and the later
    one settles first, the earlier one's result overwrites it; the list
    shown is the older poll's, although a newer one was applied
    before. *)
Theorem stale_poll_overwrites (p : poller) (er1 sr1 er2 sr2 : fetch_result) :
  data_of (run p [Start; Start; Settle (S (next_poll p)) er2 sr2; Settle (next_poll p) er1 sr1])
  = fetchData_settle er1 sr1 (fetchData_settle er2 sr2 (data_of p)).
Proof.
  set (n := next_poll p).
  assert (H1 : S n ∈ inflight (start (start p))) by (simpl; set_solver).
  assert (H2 : n ∈ inflight (settle (S n) er2 sr2 (start (start p)))).
  { unfold settle. rewrite decide_True by done. simpl.
    apply list_elem_of_filter. split; [lia|set_solver]. }
  rewrite !run_cons, run_nil. cbn [step poll_step].
  rewrite (settle_inflight _ _ _ _ H2), (settle_inflight _ _ _ _ H1). reflexivity.
Qed.

(** ** Witnesses *)

Lemma poll_failure_keeps_state_witness :
  transport_or_parse_failure NetworkError (Response (mkResponse 200 (Some (JObj [])))) /\
  fetchData_settle NetworkError (Response (mkResponse 200 (Some (JObj [])))) initial_data =
  mkData (JArr []) (JObj []) false.
Proof.
  split; [exact I|].
  exact (poll_failure_keeps_state NetworkError _ initial_data I).
Defined.

Lemma http_error_body_clears_list_witness :
  "errors"%string ∉ map fst [("detail"%string, JStr "Internal Server Error")] /\
  body (mkResponse 200 (Some (JObj []))) = Some (JObj []) /\
  fetchData_settle (Response (mkResponse 500 (Some (JObj [("detail"%string, JStr "Internal Server Error")]))))
    (Response (mkResponse 200 (Some (JObj []))))
    (mkData (JArr [JStr "E1"]) (JObj []) false) = mkData (JArr []) (JObj []) false.
Proof.
  assert (H : "errors"%string ∉ map fst [("detail"%string, JStr "Internal Server Error")])
    by (simpl; set_solver).
  split; [exact H|]. split; [reflexivity|].
  exact (http_error_body_clears_list 500 _ (mkResponse 200 (Some (JObj []))) (JObj []) _ H eq_refl).
Defined.

End Poll.
