(* ===== verification/Cards.v ===== *)
(** * Cards: the expand/collapse state of the error cards

    Models the card state of components/Dashboard.js: [expandedError]
    ([useState(null)], line 21), [activeView] ([useState('overview')],
    line 22), [detailedErrorData] ([useState({})], line 23), the handler
    [toggleErrorDetails] (63-80) and the six sub-view buttons (488-547),
    each calling [setActiveView] with its literal tag.

    There is one slot for the expanded card and one for its detail: the
    code expands at most one card, compares ids with [===], and on
    expanding calls [axios.get('/api/errors/<id>')] and writes whatever
    response arrives into [detailedErrorData], without checking which
    card it was for or whether that card is still expanded.  Requests in
    flight are numbered; [DetailSettle k r] is the arrival of request
    [k]'s outcome ([Some data] when axios resolves, [None] when it
    rejects: network errors and non-2xx statuses).

    Theorems: a refinement of the spec's per-card state machine
    (Collapsed / Expanded(view), single slot) by the code's two fields;
    the request numbering invariant [cards_wf] (distinct numbers below
    the next one); the fetch count of expand/collapse/expand; and the
    three ways a response lands on the wrong card: stale data shown
    while a newly expanded card's request is pending, an older response
    overwriting a newer one, and a response for a collapsed card
    refilling the cleared slot. *)

From S2P Require Import Prelude JsValue.

Module Cards.
Import JsValue.

(** The six tags passed to [setActiveView]. *)
Inductive view := Overview | Traces | Spans | Logs | Correlation | Rca.

#[global] Instance view_eq_dec : EqDecision view.
Proof. solve_decision. Defined.

Definition view_tag (v : view) : string :=
  match v with
  | Overview => "overview" | Traces => "traces" | Spans => "spans"
  | Logs => "logs" | Correlation => "correlation" | Rca => "rca"
  end%string.

Record cards := mkCards {
  expandedError : js;            (* null or the id of the expanded card *)
  activeView : view;
  detailedErrorData : js;
  next_req : nat;
  pending : list (nat * js)      (* detail requests in flight, with their id *)
}.

Definition initial_cards : cards := mkCards JNull Overview (JObj []) 0 [].

(** Dashboard.js 63-80. *)
Definition toggleErrorDetails (errorId : js) (c : cards) : cards :=
  if strict_eq (expandedError c) errorId then
    (* setExpandedError(null); setActiveView('overview'); setDetailedErrorData({}) *)
    mkCards JNull Overview (JObj []) (next_req c) (pending c)
  else
    (* setExpandedError(errorId); setActiveView('overview'); axios.get(...) *)
    mkCards errorId Overview (detailedErrorData c) (S (next_req c))
            (pending c ++ [(next_req c, errorId)]).

(** Dashboard.js 488-547: [onClick={() => setActiveView('...')}]. *)
Definition setActiveView (v : view) (c : cards) : cards :=
  mkCards (expandedError c) v (detailedErrorData c) (next_req c) (pending c).

(** Dashboard.js 74-78: the awaited [axios.get] settles; on success
    [setDetailedErrorData(response.data)], on failure only a log. *)
Definition detail_settle (k : nat) (r : option js) (c : cards) : cards :=
  if decide (k ∈ map fst (pending c)) then
    let rest := filter (fun p => p.1 <> k) (pending c) in
    match r with
    | Some data => mkCards (expandedError c) (activeView c) data (next_req c) rest
    | None => mkCards (expandedError c) (activeView c) (detailedErrorData c) (next_req c) rest
    end
  else c.

Inductive event :=
| Toggle (errorId : js)
| Select (v : view)
| DetailSettle (k : nat) (r : option js).

#[global] Instance cards_step : Step cards event := fun c e =>
  match e with
  | Toggle id => toggleErrorDetails id c
  | Select v => setActiveView v c
  | DetailSettle k r => detail_settle k r c
  end.

(** ** The spec's card machine (spec 4.3, single slot) *)

Inductive card_state := Collapsed | Expanded (v : view).

(** A state of the abstract machine gives every card id its state. *)
Definition abs_state := js -> card_state.

Definition spec_toggle (id : js) (f : abs_state) : abs_state := fun x =>
  match f id with
  | Expanded _ => if strict_eq x id then Collapsed else f x
  | Collapsed => if strict_eq x id then Expanded Overview else Collapsed
  end.

Definition spec_select (v : view) (f : abs_state) : abs_state := fun x =>
  match f x with Expanded _ => Expanded v | Collapsed => Collapsed end.

(** The abstraction of the code's state: the card whose id is [===] to
    [expandedError] is expanded on [activeView]. *)
Definition abstraction (c : cards) : abs_state := fun x =>
  if strict_eq (expandedError c) x then Expanded (activeView c) else Collapsed.


Definition spec_step (e : event) (f : abs_state) : abs_state :=
  match e with
  | Toggle id => spec_toggle id f
  | Select v => spec_select v f
  | DetailSettle _ _ => f
  end.

Fixpoint spec_run (evs : list event) (f : abs_state) : abs_state :=
  match evs with
  | [] => f
  | e :: evs' => spec_run evs' (spec_step e f)
  end.

(** The events whose ids are card ids. *)
Definition event_ok (e : event) : Prop :=
  match e with Toggle id => is_card_id id = true | _ => True end.

(** ** Well-formedness: request numbers are fresh and distinct *)

Record cards_wf (c : cards) : Prop := {
  wf_below : Forall (fun p => (p.1 < next_req c)%nat) (pending c);
  wf_distinct : NoDup (map fst (pending c))
}.

Lemma detail_settle_pending (k : nat) (r : option js) (c : cards) :
  k ∈ map fst (pending c) ->
  pending (detail_settle k r c) = filter (fun p => p.1 <> k) (pending c).
Proof. intros Hk. unfold detail_settle. rewrite decide_True by done. by destruct r. Qed.

Lemma detail_settle_view (k : nat) (r : option js) (c : cards) :
  expandedError (detail_settle k r c) = expandedError c /\
  activeView (detail_settle k r c) = activeView c /\
  next_req (detail_settle k r c) = next_req c.
Proof. unfold detail_settle. case_decide; [destruct r|]; auto. Qed.

(** Every handler keeps the request bookkeeping well formed: the detail
    requests in flight carry distinct numbers below the next one, so an
    arriving response is matched to exactly one request. *)
Lemma cards_wf_step (c : cards) (e : event) : cards_wf c -> cards_wf (step c e).
Proof.
  intros [Hb Hd]. destruct e as [id|v|k r]; cbn [step cards_step].
  - unfold toggleErrorDetails. destruct (strict_eq _ _); constructor; simpl; auto.
    + apply Forall_app. split; [eapply Forall_impl; [exact Hb|]; simpl; lia|].
      repeat constructor; simpl; lia.
    + rewrite map_app. apply NoDup_app. split; [done|]. split; [|apply NoDup_singleton].
      intros x Hx ->%list_elem_of_singleton. simpl in Hx.
      apply list_elem_of_In, in_map_iff in Hx as ([j d] & Hj & Hin). simpl in Hj; subst.
      rewrite Forall_forall in Hb. apply list_elem_of_In in Hin. apply Hb in Hin. simpl in Hin. lia.
  - by constructor.
  - unfold detail_settle. case_decide; [|by constructor].
    destruct r; constructor; simpl; auto using Forall_filter_keep, NoDup_map_filter.
Qed.

(** ** Properties *)

(** C11 *)
(** Refinement: the code's [expandedError]/[activeView] pair implements
    the spec's per-card machine with a single expanded slot.  For every
    event whose id is a card id, the abstract state of every card after
    the code's handler is the abstract machine's successor state; so is
    every run of such events. *)
Theorem cards_refine (c : cards) (evs : list event) (x : js) :
  Forall event_ok evs -> is_card_id x = true ->
  abstraction (run c evs) x = spec_run evs (abstraction c) x.
Proof.
  intros Hevs Hx. revert c.
  cut (forall c, Forall event_ok evs -> forall f, (forall y, is_card_id y = true ->
         abstraction c y = f y) ->
       abstraction (run c evs) x = spec_run evs f x).
  { intros H c. apply H; auto. }
  clear Hevs. induction evs as [|e evs IH]; intros c Hevs f Hcf; simpl; [auto|].
  inversion Hevs as [|? ? He Hevs']; subst. apply IH; [done|].
  intros y Hy. clear IH.
  destruct e as [id|v|k r]; cbn [step cards_step spec_step].
  - simpl in He. unfold spec_toggle. rewrite <- (Hcf id He), <- (Hcf y Hy).
    unfold abstraction, toggleErrorDetails.
    destruct (strict_eq (expandedError c) id) eqn:E; cbn [expandedError activeView].
    + rewrite (strict_eq_null_id _ Hy), (strict_eq_congr _ _ _ E), (strict_eq_sym y id).
      by destruct (strict_eq id y).
    + by rewrite (strict_eq_sym y id).
  - unfold spec_select. rewrite <- (Hcf y Hy). unfold abstraction; simpl.
    by destruct (strict_eq _ _).
  - rewrite <- (Hcf y Hy). unfold abstraction.
    by destruct (detail_settle_view k r c) as (-> & -> & _).
Qed.

Lemma toggle_expand (c : cards) (id : js) :
  strict_eq (expandedError c) id = false ->
  toggleErrorDetails id c =
  mkCards id Overview (detailedErrorData c) (S (next_req c)) (pending c ++ [(next_req c, id)]).
Proof. unfold toggleErrorDetails. by intros ->. Qed.

Lemma toggle_collapse (c : cards) (id : js) :
  strict_eq (expandedError c) id = true ->
  toggleErrorDetails id c = mkCards JNull Overview (JObj []) (next_req c) (pending c).
Proof. unfold toggleErrorDetails. by intros ->. Qed.

Lemma detail_settle_some (k : nat) (data : js) (c : cards) :
  k ∈ map fst (pending c) ->
  detail_settle k (Some data) c =
  mkCards (expandedError c) (activeView c) data (next_req c)
          (filter (fun p => p.1 <> k) (pending c)).
Proof. intros Hk. unfold detail_settle. by rewrite decide_True. Qed.

(** Filtering out request numbers that are not in flight changes nothing. *)
Lemma filter_fresh (l : list (nat * js)) (k : nat) :
  Forall (fun p => (p.1 < k)%nat) l -> filter (fun p => p.1 <> k) l = l.
Proof.
  induction l as [|[j d] l IH]; intros Hl; [done|].
  inversion Hl; subst. rewrite filter_cons_True by (simpl in *; lia). f_equal. auto.
Qed.

#[local] Hint Resolve strict_eq_refl_id strict_eq_null_id : rca.

(** Expose the next event of a run. *)
Ltac next_event := rewrite run_cons; cbn [step cards_step].

(** Expanding a card, collapsing it and expanding it again issues
    exactly two detail requests for that card: the collapse discards
    the slot, so the second expansion fetches again. *)
Theorem expand_collapse_expand_two_fetches (c : cards) (id : js) :
  is_card_id id = true -> strict_eq (expandedError c) id = false ->
  pending (run c [Toggle id; Toggle id; Toggle id]) =
    pending c ++ [(next_req c, id); (S (next_req c), id)] /\
  next_req (run c [Toggle id; Toggle id; Toggle id]) = S (S (next_req c)) /\
  expandedError (run c [Toggle id; Toggle id; Toggle id]) = id.
Proof.
  intros Hid Hc.
  next_event. rewrite toggle_expand by done.
  next_event. rewrite toggle_collapse by (cbn [expandedError]; auto with rca).
  next_event. rewrite toggle_expand by (cbn [expandedError]; auto with rca).
  simpl. rewrite <- app_assoc. auto.
Qed.

(** C12 *)
(** Stale detail under a newly expanded card: after card [a]'s detail
    has arrived, expanding another card [b] keeps [a]'s detail in the
    slot while [b]'s request is in flight, so [b]'s sub-views render
    [a]'s traces, spans and logs. *)
Theorem expand_other_shows_previous_detail (c : cards) (a b da : js) :
  is_card_id a = true -> strict_eq (expandedError c) a = false -> strict_eq a b = false ->
  let c' := run c [Toggle a; DetailSettle (next_req c) (Some da); Toggle b] in
  expandedError c' = b /\ detailedErrorData c' = da /\ (S (next_req c), b) ∈ pending c'.
Proof.
  intros Ha Hc Hab.
  next_event. rewrite toggle_expand by done.
  next_event. rewrite detail_settle_some by apply elem_of_fst_app_last.
  next_event. rewrite toggle_expand by done. simpl.
  split; [done|]. split; [done|]. apply elem_of_app. right. set_solver.
Qed.

(** C13 *)
(** Out-of-order detail responses: expand [a], then [b]; when [b]'s
    response arrives before [a]'s, [a]'s overwrites it.  With no request
    left in flight, card [b] stays expanded showing [a]'s detail. *)
Theorem detail_responses_out_of_order (c : cards) (a b da db : js) :
  cards_wf c -> is_card_id a = true -> strict_eq (expandedError c) a = false ->
  strict_eq a b = false ->
  let c' := run c [Toggle a; Toggle b; DetailSettle (S (next_req c)) (Some db);
                   DetailSettle (next_req c) (Some da)] in
  expandedError c' = b /\ detailedErrorData c' = da /\ pending c' = pending c.
Proof.
  intros [Hb _] Ha Hc Hab.
  next_event. rewrite toggle_expand by done.
  next_event. rewrite toggle_expand by done.
  next_event. rewrite detail_settle_some by apply elem_of_fst_app_last.
  next_event. rewrite detail_settle_some.
  - simpl. split; [done|]. split; [done|].
    rewrite <- app_assoc, !filter_app.
    rewrite (filter_fresh (pending c) (S (next_req c)))
      by (eapply Forall_impl; [exact Hb|]; simpl; lia).
    rewrite (filter_fresh (pending c) (next_req c)) by exact Hb.
    repeat first [ rewrite filter_cons_True by (simpl; lia)
                 | rewrite filter_cons_False by (simpl; lia)
                 | rewrite filter_nil ].
    by rewrite !app_nil_r.
  - simpl. apply list_elem_of_In, in_map_iff. exists (next_req c, a). split; [done|].
    apply list_elem_of_In, list_elem_of_filter. split; [simpl; lia|].
    rewrite <- app_assoc. apply elem_of_app. right. set_solver.
Qed.

(** C14 *)
(** A late response for a collapsed card: collapsing clears the slot,
    but the collapsed card's request is not cancelled and its response
    still writes the slot, so a collapsed dashboard holds detail data. *)
Theorem late_detail_refills_collapsed (c : cards) (id data : js) :
  is_card_id id = true -> strict_eq (expandedError c) id = false ->
  let c' := run c [Toggle id; Toggle id; DetailSettle (next_req c) (Some data)] in
  expandedError c' = JNull /\ activeView c' = Overview /\ detailedErrorData c' = data.
Proof.
  intros Hid Hc.
  next_event. rewrite toggle_expand by done.
  next_event. rewrite toggle_collapse by (cbn [expandedError]; auto with rca).
  next_event. rewrite detail_settle_some by apply elem_of_fst_app_last. auto.
Qed.

(** ** Witnesses *)

Definition E1 : js := JStr "E1".
Definition E2 : js := JStr "E2".
Definition detail_of (id : js) : js := JObj [("error", JObj [("id", id)]); ("traces", JArr [])].

Lemma cards_refine_witness :
  Forall event_ok [Toggle E1; Select Traces; DetailSettle 0 None; Toggle E2] /\
  is_card_id E2 = true /\
  abstraction (run initial_cards [Toggle E1; Select Traces; DetailSettle 0 None; Toggle E2]) E2 =
  spec_run [Toggle E1; Select Traces; DetailSettle 0 None; Toggle E2] (abstraction initial_cards) E2.
Proof.
  assert (H : Forall event_ok [Toggle E1; Select Traces; DetailSettle 0 None; Toggle E2])
    by (repeat constructor).
  split; [exact H|]. split; [reflexivity|].
  exact (cards_refine initial_cards _ E2 H eq_refl).
Defined.

Lemma expand_collapse_expand_two_fetches_witness :
  is_card_id E1 = true /\ strict_eq (expandedError initial_cards) E1 = false /\
  pending (run initial_cards [Toggle E1; Toggle E1; Toggle E1]) = [(0%nat, E1); (1%nat, E1)].
Proof.
  split; [reflexivity|]. split; [reflexivity|].
  exact (proj1 (expand_collapse_expand_two_fetches initial_cards E1 eq_refl eq_refl)).
Defined.

Lemma expand_other_shows_previous_detail_witness :
  is_card_id E1 = true /\ strict_eq (expandedError initial_cards) E1 = false /\
  strict_eq E1 E2 = false /\
  detailedErrorData (run initial_cards [Toggle E1; DetailSettle 0 (Some (detail_of E1)); Toggle E2])
  = detail_of E1.
Proof.
  split; [reflexivity|]. split; [reflexivity|]. split; [reflexivity|].
  exact (proj1 (proj2 (expand_other_shows_previous_detail initial_cards E1 E2 (detail_of E1)
                         eq_refl eq_refl eq_refl))).
Defined.

Lemma detail_responses_out_of_order_witness :
  cards_wf initial_cards /\ is_card_id E1 = true /\
  strict_eq (expandedError initial_cards) E1 = false /\ strict_eq E1 E2 = false /\
  detailedErrorData (run initial_cards [Toggle E1; Toggle E2; DetailSettle 1 (Some (detail_of E2));
                                         DetailSettle 0 (Some (detail_of E1))])
  = detail_of E1.
Proof.
  assert (H : cards_wf initial_cards) by (constructor; constructor).
  split; [exact H|]. split; [reflexivity|]. split; [reflexivity|]. split; [reflexivity|].
  exact (proj1 (proj2 (detail_responses_out_of_order initial_cards E1 E2 (detail_of E1)
                         (detail_of E2) H eq_refl eq_refl eq_refl))).
Defined.

Lemma late_detail_refills_collapsed_witness :
  is_card_id E1 = true /\ strict_eq (expandedError initial_cards) E1 = false /\
  detailedErrorData (run initial_cards [Toggle E1; Toggle E1; DetailSettle 0 (Some (detail_of E1))])
  = detail_of E1.
Proof.
  split; [reflexivity|]. split; [reflexivity|].
  exact (proj2 (proj2 (late_detail_refills_collapsed initial_cards E1 (detail_of E1)
                         eq_refl eq_refl))).
Defined.

End Cards.
