(* ===== verification/Views.v ===== *)
(** * Views: the sub-views of an expanded error card

    Models the render functions of components/Dashboard.js that draw the
    content of an expanded card: [renderTracesView] (110-142),
    [renderSpansView] (144-198), [renderLogsView] (200-236),
    [renderCorrelationView] (238-274), [renderRCAView] (276-298), the
    inline overview (552-576) and the dispatch on [activeView] (577-581).
    All of them read the single detail slot [detailedErrorData]; only the
    overview reads the card's own list entry.

    A render function returns the [panel] it draws: an empty state with
    its message, a table with its header and one row of [cell]s per
    element, a list of labelled fields, or the RCA text.  A cell is what
    JSX is given: a value ([{v}]), a literal ('N/A'), a duration in
    milliseconds ([(d * 1000).toFixed(2)], kept as the exact product), a
    date ([new Date(v).toLocaleString()]) or the entries of a tags
    object.  [None] is a render that throws: a property read of [null] or
    [undefined], or [.map] on a value that is not an array.  Comparisons
    [x.length > 0] are numeric on numbers and booleans and false on
    [null]/[undefined]; a numeric string as a length is not modelled
    (treated as not positive).  Durations that are not numbers or
    booleans are not modelled ([None]). *)

From S2P Require Import Prelude JsValue Cards.
From Stdlib Require Import QArith.

Module Views.
Import JsValue Cards.

Inductive cell :=
| CVal (v : js)
| CText (s : string)
| CMs (q : Q)
| CDate (v : js)
| CTags (entries : list (string * js))
| CUnit (v : js) (unit : string).   (* [{v}ms]: the value as printed, then a unit *)

Inductive panel :=
| Empty (message : string)
| Table (header : list string) (rows : list (list cell))
| Fields (fields : list (string * list cell))
| RcaPanel (summary : js)
| NoRca.

(** [x > 0] for the values the code compares. *)
Definition js_gt0 (v : js) : bool :=
  match v with
  | JNum q => negb (Qle_bool q 0)
  | JBool b => b
  | _ => false
  end.

(** [coll && coll.length > 0] *)
Definition non_empty (coll : js) : option bool :=
  if truthy coll then (len ← get coll "length"; Some (js_gt0 len)) else Some false.

(** [coll.map(f)]: only arrays have [map]. *)
Definition js_map {B} (f : js -> option B) (coll : js) : option (list B) :=
  match coll with
  | JArr xs => mapM f xs
  | _ => None
  end.

(** The one-character strings of a string, as [Object.entries] lists them. *)
Fixpoint string_chars (s : string) : list js :=
  match s with
  | EmptyString => []
  | String a s' => JStr (String a EmptyString) :: string_chars s'
  end.

(** [Object.entries(v)] on the values JSON produces. *)
Definition object_entries (v : js) : list (string * js) :=
  match v with
  | JObj fs => fs
  | JArr xs => zip (map (fun n => pretty (Z.of_nat n)) (seq 0 (length xs))) xs
  | JStr s => zip (map (fun n => pretty (Z.of_nat n)) (seq 0 (String.length s)))
                  (string_chars s)
  | _ => []
  end.

(** A list-valued field of the detail with its [|| []] default. *)
Definition field_or_empty (d : js) (k : string) : option js :=
  v ← get d k; Some (js_or v (JArr [])).

(** Shared shape of the three table views: [coll && coll.length > 0 ?
    table : empty state]. *)
Definition table_or_empty (coll : js) (header : list string) (row : js -> option (list cell))
    (message : string) : option panel :=
  has_rows ← non_empty coll;
  if (has_rows : bool) then (rows ← js_map row coll; Some (Table header rows)) else Some (Empty message).

(** Dashboard.js 110-142. *)
Definition trace_row (trace : js) : option (list cell) :=
  hex ← get trace "trace_id_hex"; b64 ← get trace "trace_id_b64";
  Some [CVal hex; CVal b64].

Definition renderTracesView (detailedData : js) : option panel :=
  traces ← field_or_empty detailedData "traces";
  table_or_empty traces ["Trace ID (Hex)"; "Trace ID (Base64)"] trace_row "No traces found".

(** Dashboard.js 168: [span.duration ? (span.duration * 1000).toFixed(2) : 'N/A']. *)
Definition duration_cell (dur : js) : option cell :=
  if truthy dur then
    match dur with
    | JNum q => Some (CMs (q * 1000))
    | JBool _ => Some (CMs 1000)
    | _ => None
    end
  else Some (CText "N/A").

(** Dashboard.js 163-185. *)
Definition span_row (span : js) : option (list cell) :=
  hex ← get span "trace_id_hex"; sid ← get span "span_id";
  op ← get span "operation_name"; dur ← get span "duration";
  dcell ← duration_cell dur;
  st ← get span "start_time"; tags ← get span "tags";
  Some [CVal hex; CVal sid; CVal (js_or op (JStr "N/A")); dcell;
        if truthy st then CDate st else CText "N/A";
        if truthy tags then CTags (object_entries tags) else CText "N/A"].

Definition renderSpansView (detailedData : js) : option panel :=
  spans ← field_or_empty detailedData "spans";
  table_or_empty spans ["Trace ID"; "Span ID"; "Operation"; "Duration (ms)"; "Start Time"; "Tags"]
    span_row "No spans found".

(** Dashboard.js 217-223: [log.log_data?.level || 'N/A'] and so on. *)
Definition log_field (log_data : js) (k : string) : option cell :=
  v ← get_opt log_data k; Some (CVal (js_or v (JStr "N/A"))).

Definition log_row (log : js) : option (list cell) :=
  hex ← get log "trace_id_hex"; ld ← get log "log_data";
  lv ← log_field ld "level"; msg ← log_field ld "message"; ts ← log_field ld "timestamp";
  Some [CVal hex; lv; msg; ts].

Definition renderLogsView (detailedData : js) : option panel :=
  logs ← field_or_empty detailedData "logs";
  table_or_empty logs ["Trace ID"; "Log Level"; "Message"; "Timestamp"] log_row "No logs found".

(** Dashboard.js 238-274. *)
Definition renderCorrelationView (detailedData : js) : option panel :=
  e ← get detailedData "error"; let error := js_or e (JObj []) in
  traces ← field_or_empty detailedData "traces";
  spans ← field_or_empty detailedData "spans";
  logs ← field_or_empty detailedData "logs";
  env ← get error "env"; service ← get error "service"; kind ← get error "span_kind";
  code ← get error "http_code"; exc ← get error "exception"; root ← get error "root_name";
  count ← get error "count"; ws ← get error "window_start"; we ← get error "window_end";
  nt ← get traces "length"; ns ← get spans "length"; nl ← get logs "length";
  Some (Fields [("Environment", [CVal env]); ("Service", [CVal service]);
                ("Span Kind", [CVal kind]); ("HTTP Code", [CVal code]);
                ("Exception", [CVal exc]); ("Root Name", [CVal root]);
                ("Count", [CVal count]); ("Window", [CVal ws; CText " - "; CVal we]);
                ("Traces Found", [CVal nt]); ("Spans Found", [CVal ns]);
                ("Logs Found", [CVal nl])]).

(** Dashboard.js 276-298. *)
Definition renderRCAView (detailedData : js) : option panel :=
  rcaReport ← get detailedData "rca_report";
  if truthy rcaReport then (s ← get rcaReport "analysis_summary"; Some (RcaPanel s))
  else Some NoRca.

(** Dashboard.js 552-576: the overview shows the card's list entry. *)
Definition renderOverview (error : js) : option panel :=
  env ← get error "env"; service ← get error "service"; exc ← get error "exception";
  count ← get error "count"; ws ← get error "window_start"; we ← get error "window_end";
  Some (Fields [("Environment", [CVal env]); ("Service", [CVal service]);
                ("Exception", [CVal exc]); ("Count", [CVal count]);
                ("Start", [CVal ws]); ("End", [CVal we])]).

(** Dashboard.js 551-582: the content under the six buttons. *)
Definition renderActiveView (v : view) (error detailedData : js) : option panel :=
  match v with
  | Overview => renderOverview error
  | Traces => renderTracesView detailedData
  | Spans => renderSpansView detailedData
  | Logs => renderLogsView detailedData
  | Correlation => renderCorrelationView detailedData
  | Rca => renderRCAView detailedData
  end.

(** ** Well-formed detail payloads (spec 6, [GET errors/{id}]) *)

Definition is_obj (v : js) : bool := match v with JObj _ => true | _ => false end.

Definition is_arr_of (p : js -> bool) (v : js) : bool :=
  match v with JArr xs => forallb p xs | _ => false end.

(** A span's duration is a number of seconds (or absent). *)
Definition wf_span (sp : js) : bool :=
  is_obj sp && match get sp "duration" with
               | Some (JNum _) | Some JUndefined | Some JNull => true
               | _ => false
               end.

Definition wf_detail (d : js) : bool :=
  match d with
  | JObj fs =>
      is_obj (lookup_field "error" fs) &&
      is_arr_of is_obj (lookup_field "traces" fs) &&
      is_arr_of wf_span (lookup_field "spans" fs) &&
      is_arr_of is_obj (lookup_field "logs" fs) &&
      match lookup_field "rca_report" fs with JNull | JUndefined | JObj _ => true | _ => false end
  | _ => false
  end.

(** The row a trace object gets. *)
Definition trace_cells (trace : js) : list cell :=
  [CVal (default JUndefined (get trace "trace_id_hex"));
   CVal (default JUndefined (get trace "trace_id_b64"))].

(** ** Lemmas *)

Lemma get_obj_Some (v : js) (k : string) : is_obj v = true -> is_Some (get v k).
Proof. destruct v; simpl; try done; eauto. Qed.

Lemma get_opt_Some (v : js) (k : string) : is_Some (get_opt v k).
Proof. destruct v; simpl; eauto; destruct (String.eqb _ _); eauto. Qed.

Lemma js_map_arr_Some {B} (f : js -> option B) (p : js -> bool) (xs : list js) :
  (forall x, p x = true -> is_Some (f x)) -> forallb p xs = true ->
  is_Some (js_map f (JArr xs)).
Proof.
  intros Hf Hp. simpl. apply mapM_is_Some_2. apply Forall_forall.
  intros x Hx. apply Hf. exact (forallb_elem _ _ _ Hp Hx).
Qed.

(** On an array with the elements' property, a table view succeeds. *)
Lemma table_or_empty_Some (xs : list js) (p : js -> bool) header row message :
  (forall x, p x = true -> is_Some (row x)) -> forallb p xs = true ->
  is_Some (table_or_empty (JArr xs) header row message).
Proof.
  intros Hf Hp. unfold table_or_empty, non_empty. simpl.
  destruct (negb _); [|eauto].
  destruct (js_map_arr_Some row p xs Hf Hp) as [rows Hrows]. simpl in Hrows.
  rewrite Hrows. simpl. eauto.
Qed.

Lemma is_Some_bind {A B} (o : option A) (f : A -> option B) :
  is_Some o -> (forall a, o = Some a -> is_Some (f a)) -> is_Some (o ≫= f).
Proof. intros [a ->] Hf. simpl. by apply Hf. Qed.

(** Rows of every kind succeed on well-formed elements. *)
Lemma trace_row_Some (t : js) : is_obj t = true -> is_Some (trace_row t).
Proof. destruct t; try done; intros _; simpl; eauto. Qed.

Lemma log_row_Some (l : js) : is_obj l = true -> is_Some (log_row l).
Proof.
  destruct l as [| | | | | |fs]; try done; intros _. unfold log_row. simpl.
  unfold log_field.
  destruct (get_opt_Some (lookup_field "log_data" fs) "level") as [a ->].
  destruct (get_opt_Some (lookup_field "log_data" fs) "message") as [b ->].
  destruct (get_opt_Some (lookup_field "log_data" fs) "timestamp") as [c ->].
  simpl. eauto.
Qed.

Lemma span_row_Some (sp : js) : wf_span sp = true -> is_Some (span_row sp).
Proof.
  destruct sp as [| | | | | |fs]; try done. unfold wf_span. simpl. intros Hd.
  unfold span_row. simpl.
  destruct (lookup_field "duration" fs); try done; unfold duration_cell; simpl;
    try destruct (negb _); simpl; eauto.
Qed.

Ltac arr_field H :=
  match type of H with
  | is_arr_of _ ?v = true => destruct v; try discriminate H; simpl in H
  end.

(** ** Properties *)

(** The cleared or not-yet-filled detail slot [{}] (a collapse, or the
    first expansion before its response): every detail sub-view renders
    its explicit empty state instead of throwing, and the correlation
    view counts zero traces, spans and logs. *)
Example views_on_empty_slot :
  renderTracesView (JObj []) = Some (Empty "No traces found") /\
  renderSpansView (JObj []) = Some (Empty "No spans found") /\
  renderLogsView (JObj []) = Some (Empty "No logs found") /\
  renderRCAView (JObj []) = Some NoRca /\
  (exists fields, renderCorrelationView (JObj []) = Some (Fields fields) /\
     In ("Traces Found", [CVal (JNum 0)]) fields /\ In ("Spans Found", [CVal (JNum 0)]) fields /\
     In ("Logs Found", [CVal (JNum 0)]) fields).
Proof.
  repeat split; try reflexivity.
  eexists. split; [reflexivity|]. simpl. tauto.
Qed.

(** C15 *)
(** No sub-view throws on a well-formed detail payload: whichever of the
    six buttons is active, the expanded card renders a panel. *)
Theorem views_total_on_wf_detail (v : view) (error d : js) :
  is_obj error = true -> wf_detail d = true -> is_Some (renderActiveView v error d).
Proof.
  intros He Hd. destruct d as [| | | | | |fs]; try done. simpl in Hd.
  apply andb_prop in Hd as [Hd Hr]. apply andb_prop in Hd as [Hd Hl].
  apply andb_prop in Hd as [Hd Hs]. apply andb_prop in Hd as [Herr Ht].
  destruct v; simpl.
  - destruct error; done || (simpl; eauto).
  - unfold renderTracesView, field_or_empty. simpl.
    arr_field Ht. simpl. eapply table_or_empty_Some; [exact trace_row_Some | exact Ht].
  - unfold renderSpansView, field_or_empty. simpl.
    arr_field Hs. simpl. eapply table_or_empty_Some; [exact span_row_Some | exact Hs].
  - unfold renderLogsView, field_or_empty. simpl.
    arr_field Hl. simpl. eapply table_or_empty_Some; [exact log_row_Some | exact Hl].
  - unfold renderCorrelationView, field_or_empty. simpl.
    destruct (lookup_field "error" fs); try done.
    arr_field Ht. arr_field Hs. arr_field Hl. simpl. eauto.
  - unfold renderRCAView. simpl.
    destruct (lookup_field "rca_report" fs); try done; simpl; eauto.
Qed.

(** The traces table of a well-formed payload with at least one trace
    has exactly one row per trace, in order, showing its hex and
    base64 ids. *)
Theorem traces_table_rows (fs : list (string * js)) (xs : list js) :
  lookup_field "traces" fs = JArr xs -> xs <> [] -> forallb is_obj xs = true ->
  renderTracesView (JObj fs) =
  Some (Table ["Trace ID (Hex)"; "Trace ID (Base64)"] (map trace_cells xs)).
Proof.
  intros Htr Hne Hobj.
  assert (Hm : mapM trace_row xs = Some (map trace_cells xs)).
  { apply mapM_Some_2. apply Forall2_fmap_r. apply Forall_Forall2_diag.
    apply Forall_forall. intros t Ht. pose proof (forallb_elem _ _ _ Hobj Ht).
    destruct t; try done. }
  unfold renderTracesView, field_or_empty, table_or_empty, non_empty, js_map.
  cbn -[mapM]. rewrite Htr. cbn -[mapM].
  destruct xs as [|x xs']; [done|]. cbn -[mapM]. rewrite Hm. reflexivity.
Qed.

(** C16 *)
(** A span whose duration is 0 seconds renders "N/A" in the duration
    column: the code tests the duration for truthiness, not presence. *)
Theorem zero_duration_renders_na (fs : list (string * js)) (q : Q) :
  lookup_field "duration" fs = JNum q -> (q == 0)%Q ->
  exists cells, span_row (JObj fs) = Some cells /\ nth 3 cells (CText "") = CText "N/A".
Proof.
  intros Hd Hq. unfold span_row. simpl. rewrite Hd. unfold duration_cell. simpl.
  replace (Qeq_bool q 0) with true by (symmetry; by apply Qeq_bool_iff). simpl.
  eexists. split; reflexivity.
Qed.

(** ** Witnesses *)

Definition sample_trace : js :=
  JObj [("trace_id_hex", JStr "4bf92f35"); ("trace_id_b64", JStr "S/kvNQ==")].
Definition sample_span : js :=
  JObj [("trace_id_hex", JStr "4bf92f35"); ("span_id", JStr "00f067aa"); ("duration", JNum 0)].
Definition sample_error : js := JObj [("id", JStr "E1"); ("service", JStr "checkout")].
Definition sample_detail : js :=
  JObj [("error", sample_error); ("traces", JArr [sample_trace]); ("spans", JArr [sample_span]);
        ("logs", JArr []); ("rca_report", JNull)].

Lemma views_total_on_wf_detail_witness :
  is_obj sample_error = true /\ wf_detail sample_detail = true /\
  is_Some (renderActiveView Spans sample_error sample_detail).
Proof.
  split; [reflexivity|]. split; [reflexivity|].
  exact (views_total_on_wf_detail Spans sample_error sample_detail eq_refl eq_refl).
Defined.

Lemma traces_table_rows_witness :
  lookup_field "traces" [("traces", JArr [sample_trace])] = JArr [sample_trace] /\
  [sample_trace] <> [] /\ forallb is_obj [sample_trace] = true /\
  renderTracesView (JObj [("traces", JArr [sample_trace])]) =
  Some (Table ["Trace ID (Hex)"; "Trace ID (Base64)"] [trace_cells sample_trace]).
Proof.
  assert (Hne : [sample_trace] <> []) by discriminate.
  split; [reflexivity|]. split; [exact Hne|]. split; [reflexivity|].
  exact (traces_table_rows [("traces", JArr [sample_trace])] [sample_trace] eq_refl Hne eq_refl).
Defined.

Lemma zero_duration_renders_na_witness :
  lookup_field "duration" [("span_id", JStr "00f067aa"); ("duration", JNum 0)] = JNum 0 /\
  (0 == 0)%Q /\
  exists cells, span_row (JObj [("span_id", JStr "00f067aa"); ("duration", JNum 0)]) = Some cells /\
    nth 3 cells (CText "") = CText "N/A".
Proof.
  assert (Hq : (0 == 0)%Q) by reflexivity.
  split; [reflexivity|]. split; [exact Hq|].
  exact (zero_duration_renders_na [("span_id", JStr "00f067aa"); ("duration", JNum 0)] 0 eq_refl Hq).
Defined.

End Views.
