(* ===== verification/Highlight.v ===== *)
(** * Highlight: the deep link to an error card

    Models the deep-link path of components/Dashboard.js:
    - the share link of a card (463-471):
      [`${window.location.origin}/dashboard?highlight=${error.id}`], with
      the id inserted as is (no [encodeURIComponent]);
    - the browser turning that link into [window.location.search] when
      it is opened: the query is what follows the first [?] up to the
      first [#], with the bytes of the query percent-encode set encoded
      (URL standard, special-query set);
    - [new URLSearchParams(window.location.search).get('highlight')]
      (28-29), the application/x-www-form-urlencoded parser: drop a
      leading [?], split on [&], skip empty sequences, split each at its
      first [=], turn [+] into a space, percent-decode;
    - the emphasis of a card: the border when [highlightedError ===
      error.id] (420), and the ring classes the 1000 ms timer adds to
      [document.getElementById(`error-${highlight}`)] when that element
      exists (34-38), on a document given by the [id] attributes of its
      elements (which elements the dashboard commits, and that a render
      that throws commits none, is in Dashboard.v).

    Strings are byte strings; the UTF-8 decoding step of the parser is
    not modelled (ids are ASCII in the round-trip theorem). *)

From S2P Require Import Prelude JsValue Poll Views.
From Stdlib Require Import Ascii QArith.

Module Highlight.
Import JsValue Poll Views.

#[local] Arguments String.append : simpl nomatch.

(** ** Strings *)

Fixpoint split_on (c : ascii) (s : string) : list string :=
  match s with
  | EmptyString => [EmptyString]
  | String a s' =>
      if ascii_dec a c then EmptyString :: split_on c s'
      else match split_on c s' with
           | [] => [String a EmptyString]
           | w :: ws => String a w :: ws
           end
  end.

(** Split at the first [c]: the part before it and, if [c] occurs, the
    part after it. *)
Fixpoint split_first (c : ascii) (s : string) : string * option string :=
  match s with
  | EmptyString => (EmptyString, None)
  | String a s' =>
      if ascii_dec a c then (EmptyString, Some s')
      else let '(x, r) := split_first c s' in (String a x, r)
  end.

Fixpoint plus_to_space (s : string) : string :=
  match s with
  | EmptyString => EmptyString
  | String a s' => String (if ascii_dec a "+"%char then " "%char else a) (plus_to_space s')
  end.

Definition hex_val (a : ascii) : option nat :=
  let n := nat_of_ascii a in
  if (48 <=? n) && (n <=? 57) then Some (n - 48)%nat
  else if (65 <=? n) && (n <=? 70) then Some (n - 55)%nat
  else if (97 <=? n) && (n <=? 102) then Some (n - 87)%nat
  else None.

Definition hex_digit (n : nat) : ascii :=
  if (n <? 10)%nat then ascii_of_nat (48 + n) else ascii_of_nat (55 + n).

(** Percent-decoding: [%] followed by two hex digits is the byte they
    denote; any other [%] stays. *)
Fixpoint percent_decode (s : string) : string :=
  match s with
  | EmptyString => EmptyString
  | String a tl =>
      if ascii_dec a "%"%char then
        match tl with
        | String h1 (String h2 rest) =>
            match hex_val h1, hex_val h2 with
            | Some x, Some y => String (ascii_of_nat (x * 16 + y)) (percent_decode rest)
            | _, _ => String a (percent_decode tl)
            end
        | _ => String a (percent_decode tl)
        end
      else String a (percent_decode tl)
  end.

(** ** URLSearchParams *)

Definition strip_question (s : string) : string :=
  match s with
  | String a s' => if ascii_dec a "?"%char then s' else s
  | EmptyString => EmptyString
  end.

Definition parse_sequence (sq : string) : string * string :=
  let '(name, value) := split_first "="%char sq in
  (percent_decode (plus_to_space name), percent_decode (plus_to_space (default EmptyString value))).

(** The application/x-www-form-urlencoded parser. *)
Definition urlencoded_parse (input : string) : list (string * string) :=
  map parse_sequence (filter (fun sq => sq <> EmptyString) (split_on "&"%char input)).

Definition URLSearchParams (init : string) : list (string * string) :=
  urlencoded_parse (strip_question init).

(** [params.get(name)]: the first value with that name, or [null]. *)
Fixpoint params_get (ps : list (string * string)) (name : string) : option string :=
  match ps with
  | [] => None
  | (n, v) :: ps' => if String.eqb n name then Some v else params_get ps' name
  end.

(** Dashboard.js 28-29. *)
Definition highlight_param (search : string) : option string :=
  params_get (URLSearchParams search) "highlight".

(** ** The link and the location *)

(** The bytes the URL parser percent-encodes in the query of an http(s)
    URL: C0 controls, space, the double quote, [#], [<], [>], the single
    quote and non-ASCII bytes. *)
Definition query_encoded (a : ascii) : bool :=
  let n := nat_of_ascii a in
  (n <? 33)%nat || (126 <? n)%nat || (n =? 34)%nat || (n =? 35)%nat || (n =? 60)%nat ||
  (n =? 62)%nat || (n =? 39)%nat.

Fixpoint query_encode (s : string) : string :=
  match s with
  | EmptyString => EmptyString
  | String a s' =>
      if query_encoded a
      then String "%"%char (String (hex_digit (nat_of_ascii a / 16)) (String (hex_digit (nat_of_ascii a mod 16))
             (query_encode s')))
      else String a (query_encode s')
  end.

(** [location.search] of an opened link: [?] and the encoded query, or
    the empty string when the query is absent or empty. *)
Definition location_search (href : string) : string :=
  let '(before_hash, _) := split_first "#"%char href in
  match split_first "?"%char before_hash with
  | (_, Some q) => match query_encode q with EmptyString => EmptyString | q' => String "?"%char q' end
  | (_, None) => EmptyString
  end.

(** Dashboard.js 464. *)
Definition share_link (origin : string) (error : js) : option string :=
  id ← get error "id"; s ← to_string id;
  Some (origin +:+ "/dashboard?highlight=" +:+ s)%string.

(** ** Emphasis *)

(** [id={`error-${error.id}`}], Dashboard.js 418. *)
Definition card_dom_id (error : js) : option string :=
  id ← get error "id"; s ← to_string id; Some ("error-" +:+ s)%string.

(** [highlightedError === error.id], Dashboard.js 420. *)
Definition card_bordered (highlightedError : js) (error : js) : bool :=
  match get error "id" with Some id => strict_eq highlightedError id | None => false end.

(** [document.getElementById(target)] on a document whose elements
    carry the [id] attributes [doc]. *)
Definition getElementById (doc : list string) (target : string) : option string :=
  find (String.eqb target) doc.

(** Dashboard.js 33-39: the 1000 ms callback adds the ring to the
    element it finds; [rings] are the DOM ids that carry the ring
    classes. *)
Definition highlight_timeout (highlight : string) (doc : list string) (rings : list string) : list string :=
  match getElementById doc ("error-" +:+ highlight)%string with
  | Some _ => rings ++ [("error-" +:+ highlight)%string]
  | None => rings
  end.

(** ** String lemmas *)

Ltac char_side := first [reflexivity | discriminate | apply list_elem_of_In; simpl; tauto].

Fixpoint has_char (c : ascii) (s : string) : bool :=
  match s with
  | EmptyString => false
  | String a s' => if ascii_dec a c then true else has_char c s'
  end.

(** Ids that survive the link unchanged: no [&], [#], [+] or [%]. *)
Definition safe_id (s : string) : bool :=
  negb (has_char "&"%char s || has_char "#"%char s || has_char "+"%char s || has_char "%"%char s).

(** An origin has no query and no fragment. *)
Definition origin_ok (o : string) : bool :=
  negb (has_char "?"%char o || has_char "#"%char o).

Lemma append_empty_r (s : string) : s +:+ EmptyString = s.
Proof. induction s as [|a s IH]; cbn; [done|by rewrite IH]. Qed.

Lemma append_assoc (s1 s2 s3 : string) : s1 +:+ s2 +:+ s3 = (s1 +:+ s2) +:+ s3.
Proof. induction s1 as [|a s1 IH]; cbn; [done|by rewrite IH]. Qed.

Lemma append_nonempty_neq (p : string) (c : ascii) (r : string) : p <> p +:+ String c r.
Proof. induction p as [|a p IH]; cbn; [discriminate|]. intros E. injection E. exact IH. Qed.

Lemma has_char_app (c : ascii) (s1 s2 : string) :
  has_char c (s1 +:+ s2) = has_char c s1 || has_char c s2.
Proof. induction s1 as [|a s1 IH]; simpl; [done|]. destruct (ascii_dec a c); auto. Qed.

Lemma split_first_app (c : ascii) (s1 s2 : string) :
  has_char c s1 = false ->
  split_first c (s1 +:+ s2) = (s1 +:+ (split_first c s2).1, (split_first c s2).2).
Proof.
  induction s1 as [|a s1 IH]; cbn; intros H.
  - by destruct (split_first c s2).
  - destruct (ascii_dec a c); [done|]. rewrite (IH H). reflexivity.
Qed.

Lemma split_on_app_sep (c : ascii) (s1 s2 : string) :
  has_char c s1 = false -> split_on c (s1 +:+ String c s2) = s1 :: split_on c s2.
Proof.
  induction s1 as [|a s1 IH]; simpl.
  - intros _. by destruct (ascii_dec c c).
  - destruct (ascii_dec a c); [done|]. intros H. by rewrite (IH H).
Qed.

Lemma split_on_nohas (c : ascii) (s : string) : has_char c s = false -> split_on c s = [s].
Proof.
  induction s as [|a s IH]; simpl; [done|].
  destruct (ascii_dec a c); [done|]. intros H. by rewrite (IH H).
Qed.

Lemma plus_to_space_nohas (s : string) : has_char "+"%char s = false -> plus_to_space s = s.
Proof.
  induction s as [|a s IH]; simpl; [done|].
  destruct (ascii_dec a "+"%char); [done|]. intros H. by rewrite (IH H).
Qed.

Lemma query_encode_app (s1 s2 : string) :
  query_encode (s1 +:+ s2) = query_encode s1 +:+ query_encode s2.
Proof. induction s1 as [|a s1 IH]; simpl; [done|]. rewrite IH. by destruct (query_encoded a). Qed.

Lemma hex_val_digit (n : nat) : (n < 16)%nat -> hex_val (hex_digit n) = Some n.
Proof. intros Hn. do 16 (destruct n as [|n]; [reflexivity|]). lia. Qed.

(** The hex digits are none of the characters the parser treats
    specially. *)
Lemma hex_digit_plain (n : nat) (c : ascii) :
  (n < 16)%nat -> c ∈ ["&"; "#"; "+"; "%"; "="]%char -> hex_digit n <> c.
Proof.
  intros Hn Hc. apply list_elem_of_In in Hc.
  do 16 (destruct n as [|n]; [simpl in Hc; intuition (subst; discriminate)|]). lia.
Qed.

Lemma has_char_cons (c a : ascii) (s : string) :
  has_char c (String a s) = if ascii_dec a c then true else has_char c s.
Proof. reflexivity. Qed.

Lemma query_encode_cons (a : ascii) (s : string) :
  query_encode (String a s) =
  if query_encoded a
  then String "%"%char (String (hex_digit (nat_of_ascii a / 16))
         (String (hex_digit (nat_of_ascii a mod 16)) (query_encode s)))
  else String a (query_encode s).
Proof. reflexivity. Qed.

Lemma percent_decode_pct (h1 h2 : ascii) (rest : string) (x y : nat) :
  hex_val h1 = Some x -> hex_val h2 = Some y ->
  percent_decode (String "%"%char (String h1 (String h2 rest))) =
  String (ascii_of_nat (x * 16 + y)) (percent_decode rest).
Proof. intros H1 H2. cbn [percent_decode]. by rewrite H1, H2. Qed.

Lemma percent_decode_other (a : ascii) (s : string) :
  a <> "%"%char -> percent_decode (String a s) = String a (percent_decode s).
Proof. intros Ha. cbn [percent_decode]. by destruct (ascii_dec a "%"%char). Qed.

Lemma hex_digits_bounded (a : ascii) :
  (nat_of_ascii a / 16 < 16)%nat /\ (nat_of_ascii a mod 16 < 16)%nat.
Proof.
  pose proof (nat_ascii_bounded a). split.
  - apply Nat.Div0.div_lt_upper_bound. lia.
  - apply Nat.mod_upper_bound. lia.
Qed.

Lemma has_char_query_encode (c : ascii) (s : string) :
  c ∈ ["&"; "#"; "+"; "%"; "="]%char -> query_encoded c = false ->
  c <> "%"%char -> has_char c (query_encode s) = has_char c s.
Proof.
  intros Hc Henc Hpct. induction s as [|a s IH]; [done|].
  destruct (hex_digits_bounded a) as [Hd1 Hd2].
  rewrite query_encode_cons, (has_char_cons c a s).
  destruct (query_encoded a) eqn:Ea; rewrite !has_char_cons.
  - destruct (ascii_dec "%"%char c) as [E|]; [by subst|].
    destruct (ascii_dec (hex_digit _) c) as [E|]; [by apply (hex_digit_plain _ c Hd1) in Hc|].
    destruct (ascii_dec (hex_digit _) c) as [E|]; [by apply (hex_digit_plain _ c Hd2) in Hc|].
    destruct (ascii_dec a c); [subst; congruence|]. exact IH.
  - destruct (ascii_dec a c); [done|exact IH].
Qed.

Lemma percent_decode_query_encode (s : string) :
  has_char "%"%char s = false -> percent_decode (query_encode s) = s.
Proof.
  induction s as [|a s IH]; [done|]. rewrite has_char_cons.
  destruct (ascii_dec a "%"%char) as [E|Ha]; [done|]. intros Hs.
  destruct (hex_digits_bounded a) as [Hd1 Hd2].
  rewrite query_encode_cons. destruct (query_encoded a).
  - rewrite (percent_decode_pct _ _ _ _ _ (hex_val_digit _ Hd1) (hex_val_digit _ Hd2)), IH by done.
    f_equal. rewrite Nat.mul_comm, <- Nat.div_mod_eq. apply ascii_nat_embedding.
  - rewrite percent_decode_other by done. by rewrite IH.
Qed.

(** The parameter read from an opened link whose query is
    [highlight=] followed by [p] and then nothing or [&...]. *)
Lemma highlight_of_link (origin p r : string) :
  origin_ok origin = true -> safe_id p = true ->
  (r = EmptyString \/ exists r', r = String "&"%char r') ->
  highlight_param (location_search (origin +:+ "/dashboard?highlight=" +:+ p +:+ r)) = Some p.
Proof.
  unfold origin_ok, safe_id. intros Ho Hp Hr.
  apply negb_true_iff, orb_false_iff in Ho as [Hoq Hoh].
  apply negb_true_iff in Hp. repeat rewrite orb_false_iff in Hp.
  destruct Hp as [[[Hpa Hph] Hpp] Hpc].
  set (r0 := (split_first "#"%char r).1).
  assert (Hr0 : r0 = EmptyString \/ exists x, r0 = String "&"%char x).
  { subst r0. destruct Hr as [-> | [r' ->]]; [by left|]. right. cbn [split_first].
    destruct (ascii_dec _ _); [discriminate|]. destruct (split_first _ r'). eauto. }
  assert (Hsearch : location_search (origin +:+ "/dashboard?highlight=" +:+ p +:+ r) =
                    String "?"%char ("highlight=" +:+ query_encode p +:+ query_encode r0)).
  { unfold location_search.
    rewrite (split_first_app _ origin), (split_first_app _ "/dashboard?highlight="),
      (split_first_app _ p) by done.
    cbn [fst snd]. fold r0. rewrite (split_first_app _ origin) by done.
    change (split_first "?"%char ("/dashboard?highlight=" +:+ p +:+ r0))
      with ("/dashboard"%string, Some ("highlight=" +:+ p +:+ r0)).
    cbn [fst snd]. rewrite !query_encode_app. reflexivity. }
  unfold highlight_param, URLSearchParams. rewrite Hsearch. cbn [strip_question].
  destruct (ascii_dec "?"%char "?"%char); [|done].
  assert (Hsplit : exists rest, split_on "&"%char ("highlight=" +:+ query_encode p +:+ query_encode r0)
                   = ("highlight=" +:+ query_encode p) :: rest).
  { destruct Hr0 as [-> | [x ->]].
    - exists []. rewrite append_empty_r. apply split_on_nohas.
      rewrite has_char_app, has_char_query_encode by char_side. done.
    - rewrite query_encode_cons. simpl query_encoded. cbv iota.
      rewrite append_assoc. eexists. apply split_on_app_sep.
      rewrite has_char_app, has_char_query_encode by char_side. done. }
  unfold urlencoded_parse. destruct Hsplit as [rest ->].
  rewrite filter_cons_True by (simpl; discriminate). cbn -[percent_decode plus_to_space].
  rewrite (plus_to_space_nohas (query_encode p)) by (rewrite has_char_query_encode by char_side; done).
  rewrite percent_decode_query_encode by done. reflexivity.
Qed.

(** ** Emphasis lemmas *)

Lemma card_dom_id_str (error : js) (s : string) :
  get error "id" = Some (JStr s) -> card_dom_id error = Some ("error-" +:+ s)%string.
Proof. unfold card_dom_id. by intros ->. Qed.

Lemma highlight_timeout_found (h : string) (doc rings : list string) :
  ("error-" +:+ h)%string ∈ doc -> highlight_timeout h doc rings = rings ++ [("error-" +:+ h)%string].
Proof.
  intros Hin. unfold highlight_timeout, getElementById.
  destruct (find_elem (String.eqb ("error-" +:+ h)) _ _ Hin) as [y [-> _]]; [apply String.eqb_refl|done].
Qed.

Lemma highlight_timeout_missing (h : string) (doc rings : list string) :
  ("error-" +:+ h)%string ∉ doc -> highlight_timeout h doc rings = rings.
Proof.
  intros Hn. unfold highlight_timeout, getElementById.
  destruct (find _ _) as [y|] eqn:Hf; [|done].
  apply find_some in Hf as [Hy%list_elem_of_In Hb]. apply String.eqb_eq in Hb as <-. done.
Qed.

Lemma highlight_of_safe_link (origin s : string) :
  origin_ok origin = true -> safe_id s = true ->
  highlight_param (location_search (origin +:+ "/dashboard?highlight=" +:+ s)) = Some s.
Proof.
  intros Ho Hs. pose proof (highlight_of_link origin s EmptyString Ho Hs (or_introl eq_refl)) as H.
  by rewrite append_empty_r in H.
Qed.

Lemma share_link_str (origin s : string) (error : js) :
  get error "id" = Some (JStr s) -> share_link origin error = Some (origin +:+ "/dashboard?highlight=" +:+ s)%string.
Proof. unfold share_link. by intros ->. Qed.

(** ** Properties *)

(** C17 *)
(** Round trip of the share link: opening the link of a card whose id
    is a string without [&], [#], [+] or [%] (on an origin without query
    or fragment) gives back exactly that id as the [highlight]
    parameter. *)
Theorem share_link_roundtrip (origin s : string) (error : js) :
  origin_ok origin = true -> safe_id s = true -> get error "id" = Some (JStr s) ->
  exists link, share_link origin error = Some link /\
               highlight_param (location_search link) = Some s.
Proof.
  intros Ho Hs Hid. eexists. split; [by apply share_link_str|]. by apply highlight_of_safe_link.
Qed.

(** C19 *)
(** The id is put in the link without [encodeURIComponent]: for an id
    [p&r] the opened link's [highlight] parameter is [p], another id, so
    the shared card is not the one the page looks for. *)
Theorem ampersand_id_highlights_prefix (origin p r : string) (error : js) :
  origin_ok origin = true -> safe_id p = true ->
  get error "id" = Some (JStr (p +:+ String "&"%char r)) ->
  exists link, share_link origin error = Some link /\
    highlight_param (location_search link) = Some p /\ p <> (p +:+ String "&"%char r)%string.
Proof.
  intros Ho Hp Hid. eexists. split; [by apply share_link_str|]. split.
  - apply highlight_of_link; eauto.
  - apply append_nonempty_neq.
Qed.

(** ** Witnesses *)

Definition sample_origin : string := "http://localhost:3000".
Definition card_E1 : js := JObj [("id"%string, JStr "E1")].

Lemma share_link_roundtrip_witness :
  origin_ok sample_origin = true /\ safe_id "E1" = true /\ get card_E1 "id" = Some (JStr "E1") /\
  exists link, share_link sample_origin card_E1 = Some link /\
               highlight_param (location_search link) = Some "E1"%string.
Proof.
  do 3 (split; [reflexivity|]).
  exact (share_link_roundtrip sample_origin "E1" card_E1 eq_refl eq_refl eq_refl).
Defined.

Definition card_amp : js := JObj [("id"%string, JStr "a&b")].

Lemma ampersand_id_highlights_prefix_witness :
  get card_amp "id" = Some (JStr ("a" +:+ String "&"%char "b")) /\
  exists link, share_link sample_origin card_amp = Some link /\
    highlight_param (location_search link) = Some "a"%string /\ "a"%string <> ("a" +:+ String "&"%char "b")%string.
Proof.
  split; [reflexivity|].
  exact (ampersand_id_highlights_prefix sample_origin "a" "b" card_amp eq_refl eq_refl eq_refl).
Defined.

Definition card_42 : js := JObj [("id"%string, JNum (inject_Z 42))].

(** The numeric id's link is [highlight=42] and the parameter read back
    is the string [42]. *)
Example numeric_id_link :
  option_map (fun l => highlight_param (location_search l)) (share_link sample_origin card_42)
  = Some (Some "42"%string).
Proof. vm_compute. reflexivity. Qed.

End Highlight.
