(* ===== verification/Dashboard.v ===== *)
(** * Dashboard: the component assembled

    Puts the parts of components/Dashboard.js together:
    - the state of one mounted instance ([dash]): the poll data and the
      polls in flight (Poll), the card state (Cards), [highlightedError]
      ([useState(null)], line 24) and the ring classes the highlight
      timer added to the DOM (Highlight);
    - the page's instances as a finite map from instance number to
      state: an instance not in the map has the initial state of its
      [useState] calls, so a remounted Dashboard starts afresh;
    - the implementation of the Lifecycle interface [DashboardHooks] on
      that map: [fetchData] starts a poll of the instance whose closure
      calls it and records the request, [setHighlightedError] stores
      the highlight; the highlight timer runs [highlight_timeout] on
      the document of the instance shown ([document.getElementById] is
      global), whichever instance armed it;
    - which instance the document shows ([shown]): the mounted one,
      updated after every Lifecycle event ([sync_shown]);
    - the whole system: the Lifecycle events, the settling of a poll and
      the card events; React drops state updates of an unmounted
      instance, so those apply to the mounted instance only;
    - the render (300-598): the spinner while loading, the four stats
      numbers with their [|| 0] defaults, the data of the two charts and
      the pie's cell colours [COLORS[index % COLORS.length]] (358-400),
      one card per list entry
      (header, border, Hide/View Details, the active sub-view when
      expanded) and the empty state.  [None] is a [TypeError] thrown
      during render;
    - the document of the shown instance: the cards of its render when
      that render returns, none when it throws (React commits nothing
      and, with no error boundary, removes the tree); at this level the
      instance stays mounted after a throw, and App.v adds the removal
      of the whole tree.

    Theorems: a poll keeps every card's expanded state and sub-view,
    keyed by id; a card that leaves the list and comes back is still
    expanded; when the highlight timer fires before the first poll has
    settled, the card never gets the ring (proved with the invariant
    [dom_inv]: pending highlight timers belong to instances created no
    later than the shown one); a [null] stats body crashes the page at
    the next render; on a page that renders, a deep link emphasises
    its card end to end, an unknown id emphasises nothing and a numeric
    id gets the ring without the border; the highlight timer outlives
    the unmount of its dashboard and rings a card of the next one;
    the pie's colours stay in the palette and repeat every six services.
    The lemmas [lifecycle_inv_dash_step], [alive_dash_step] and
    [mounted_dash_step] carry the Lifecycle facts to the dashboard's
    events, for the App model. *)

From S2P Require Import Prelude JsValue SyncTiming Timers Lifecycle Poll Cards Views Highlight.
From stdpp Require Import gmap.

Module Dashboard.
Import JsValue SyncTiming Timers Lifecycle Poll Cards Views Highlight.

(** ** The state of an instance *)

Record dash := mkDash {
  poll_of : poller;
  cards_of : cards;
  highlightedError : js;
  rings : list string
}.

Definition initial_dash : dash := mkDash initial_poller initial_cards JNull [].

Record app_state := mkApp {
  insts : gmap nat dash;
  requests : list (nat * Z);   (* [fetchData] calls: instance, time *)
  shown : option nat           (* the instance whose DOM is in the document *)
}.

Definition initial_app : app_state := mkApp ∅ [] None.

Definition inst (i : nat) (s : app_state) : dash := default initial_dash (insts s !! i).

Definition on_inst (i : nat) (f : dash -> dash) (s : app_state) : app_state :=
  mkApp (<[i := f (inst i s)]> (insts s)) (requests s) (shown s).

(** ** The render *)

(** The four stats numbers, Dashboard.js 320-356, with their [|| 0]
    defaults. *)
Definition stats_summary (stats : js) : option (list js) :=
  l24 ← get stats "last_24_hours";
  td ← get stats "total_data";
  te ← get_opt l24 "total_errors";
  ts ← get_opt l24 "top_services";
  tsl ← get_opt ts "length";
  tr ← get_opt td "traces";
  lg ← get_opt td "logs";
  Some [js_or te (num 0); js_or tsl (num 0); js_or tr (num 0); js_or lg (num 0)].

(** Dashboard.js 108. *)
Definition COLORS : list string :=
  ["#0088FE"; "#00C49F"; "#FFBB28"; "#FF8042"; "#8884D8"; "#82CA9D"]%string.

Record chart_view := mkCharts {
  bar_data : js;                    (* <BarChart data=...>, 364 *)
  pie_data : js;                    (* <Pie data=...>, 378 *)
  pie_fills : option (list string)  (* the <Cell fill=...> children, 386-388 *)
}.

(** The two charts, Dashboard.js 358-400: the bar chart of
    [environments], the pie of [top_services] with one cell per service
    coloured [COLORS[index % COLORS.length]]; [top_services?.map]
    throws on a value that is neither nullish nor an array. *)
Definition charts (stats : js) : option chart_view :=
  l24 ← get stats "last_24_hours";
  envs ← get_opt l24 "environments";
  ts ← get_opt l24 "top_services";
  fills ← match ts with
          | JUndefined | JNull => Some None
          | JArr xs => Some (Some (imap (fun i _ => nth (i mod length COLORS) COLORS ""%string) xs))
          | _ => None
          end;
  Some (mkCharts (js_or envs (JArr [])) (js_or ts (JArr [])) fills).

(** No service data: empty charts without cells. *)
Definition no_charts : chart_view := mkCharts (JArr []) (JArr []) None.

(** The header of a card, Dashboard.js 428-461. *)
Definition card_header (error : js) : option (list cell) :=
  service ← get error "service"; exc ← get error "exception";
  root ← get error "root_name"; env ← get error "env";
  http ← get error "http_code"; kind ← get error "span_kind";
  count ← get error "count"; ws ← get error "window_start"; we ← get error "window_end";
  Some [CVal service; CVal exc; if truthy root then CVal root else CText "N/A";
        CVal env; CVal http; CVal kind; CVal count; CVal ws; CVal we].

Record card_view := mkCardView {
  cv_key : js;                 (* key={error.id} *)
  cv_dom_id : string;
  cv_bordered : bool;
  cv_expanded : bool;          (* Hide Details, and the sub-view below *)
  cv_header : list cell;
  cv_view : option (view * panel)
}.

(** One card, Dashboard.js 416-594. *)
Definition render_card (c : cards) (highlighted : js) (error : js) : option card_view :=
  id ← get error "id";
  dom ← card_dom_id error;
  hdr ← card_header error;
  let expanded := strict_eq (expandedError c) id in
  body ← (if expanded
          then option_map (fun p => Some (activeView c, p))
                 (renderActiveView (activeView c) error (detailedErrorData c))
          else Some None);
  Some (mkCardView id dom (card_bordered highlighted error) expanded hdr body).

Inductive screen :=
| Spinner                                     (* 300-309 *)
| Page (summary : list js) (charts : chart_view) (cards : list card_view) (empty_state : bool).

(** [(!errors || errors.length === 0)], Dashboard.js 587. *)
Definition empty_state (errors : js) : option bool :=
  if truthy errors then option_map (fun n => strict_eq n (num 0)) (get errors "length")
  else Some true.

Definition render (d : dash) : option screen :=
  let dt := data_of (poll_of d) in
  if loading dt then Some Spinner
  else
    summary ← stats_summary (stats dt);
    ch ← charts (stats dt);
    cs ← match js_or (errors dt) (JArr []) with
         | JArr xs => mapM (render_card (cards_of d) (highlightedError d)) xs
         | _ => None
         end;
    empty ← empty_state (errors dt);
    Some (Page summary ch cs empty).

(** The error list of the data, past loading: [(errors || []).map]
    (Dashboard.js 414-415), [[]] when it is not an array (the render
    then throws). *)
Definition listed_errors (dt : data) : list js :=
  if loading dt then [] else match js_or (errors dt) (JArr []) with JArr xs => xs | _ => [] end.

(** The cards React commits to the document while [d] is shown: those
    of a render that returns.  A render that throws commits nothing, and
    with no error boundary React removes the tree, so the document then
    holds no card. *)
Definition page_cards (d : dash) : list card_view :=
  match render d with Some (Page _ _ cs _) => cs | _ => [] end.

(** The [id] attributes of that document: [error-<id>] on each card
    (Dashboard.js 418); no other element of the page carries one. *)
Definition document_ids (d : dash) : list string := map cv_dom_id (page_cards d).

(** ** The hooks *)

(** [fetchData()]: the two requests go out ([Poll.start]). *)
Definition dash_fetch (d : dash) : dash :=
  mkDash (start (poll_of d)) (cards_of d) (highlightedError d) (rings d).

(** [setHighlightedError(highlight)], Dashboard.js 31. *)
Definition dash_set_highlight (h : string) (d : dash) : dash :=
  mkDash (poll_of d) (cards_of d) (JStr h) (rings d).

(** The 1000 ms callback, Dashboard.js 34-39, on the document of [d]. *)
Definition dash_scroll (h : string) (d : dash) : dash :=
  mkDash (poll_of d) (cards_of d) (highlightedError d)
         (highlight_timeout h (document_ids d) (rings d)).

(** [document.getElementById] searches the document, which holds the
    DOM of the instance mounted when the callback runs (whichever
    instance armed the timer), or no card when none is. *)
Definition scroll_shown (h : string) (s : app_state) : app_state :=
  match shown s with
  | Some j => on_inst j (dash_scroll h) s
  | None => s
  end.

#[export] Instance dashboard_hooks : DashboardHooks app_state := {|
  fetchData i t s := mkApp (insts (on_inst i dash_fetch s)) (requests s ++ [(i, t)]) (shown s);
  setHighlightedError i h s := on_inst i (dash_set_highlight h) s;
  highlightScroll _ h _ s := scroll_shown h s
|}.

(** ** The system *)

Abbreviation world := (Lifecycle.world (A := app_state)).

Inductive event :=
| Life (e : Lifecycle.event)
| PollSettle (k : nat) (er sr : fetch_result)
| CardEvent (e : Cards.event).

(** A state update of the mounted instance. *)
Definition on_mounted (f : dash -> dash) (w : world) : world :=
  match mounted w with
  | Some (i, _) => mkWorld (timers_of w) (instances w) (mounted w) (on_inst i f (app w))
  | None => w
  end.

Definition dash_settle (k : nat) (er sr : fetch_result) (d : dash) : dash :=
  mkDash (settle k er sr (poll_of d)) (cards_of d) (highlightedError d) (rings d).

Definition dash_card (e : Cards.event) (d : dash) : dash :=
  mkDash (poll_of d) (step (cards_of d) e) (highlightedError d) (rings d).

(** React commits the DOM of the mounted instance. *)
Definition sync_shown (w : world) : world :=
  mkWorld (timers_of w) (instances w) (mounted w)
          (mkApp (insts (app w)) (requests (app w)) (option_map fst (mounted w))).

#[global] Instance dashboard_step : Step world event := fun w e =>
  match e with
  | Life e => sync_shown (step w e)
  | PollSettle k er sr => on_mounted (dash_settle k er sr) w
  | CardEvent e => on_mounted (dash_card e) w
  end.

(** Opening a link at the dashboard route mounts the component with the
    link's [highlight] parameter. *)
Definition open_link (href : string) : event :=
  Life (Mount (highlight_param (location_search href))).

(** The screen of a world: the mounted instance's render. *)
Definition screen_of (w : world) : option (option screen) :=
  match mounted w with
  | Some (i, _) => Some (render (inst i (app w)))
  | None => None
  end.

(** ** Frame lemmas

    What every hook and event does to an instance, stated once for any
    preorder [R] on instance states that the three hooks respect. *)

Lemma inst_on_inst (i j : nat) (f : dash -> dash) (s : app_state) :
  inst j (on_inst i f s) = if decide (i = j) then f (inst i s) else inst j s.
Proof.
  unfold inst, on_inst. simpl. case_decide as E.
  - subst. by rewrite lookup_insert_eq.
  - by rewrite lookup_insert_ne.
Qed.

Section Frame.
#[local] Set Default Proof Using "All".
Context (R : relation dash) {R_preorder : PreOrder R}.
Hypothesis R_fetch : forall d, R d (dash_fetch d).
Hypothesis R_set_highlight : forall h d, R d (dash_set_highlight h d).
Hypothesis R_scroll : forall h d, R d (dash_scroll h d).

Definition app_R (s s' : app_state) : Prop := forall j, R (inst j s) (inst j s').

#[local] Instance app_R_preorder : PreOrder app_R.
Proof using R_preorder. split; [intros s j; reflexivity|intros s1 s2 s3 H1 H2 j; by transitivity (inst j s2)]. Qed.

Lemma on_inst_R (i : nat) (f : dash -> dash) (s : app_state) :
  (forall d, R d (f d)) -> app_R s (on_inst i f s).
Proof using R_preorder. intros Hf j. rewrite inst_on_inst. case_decide; subst; [apply Hf|reflexivity]. Qed.

Lemma fetchData_R (i : nat) (t : Z) (s : app_state) : app_R s (fetchData i t s).
Proof. intros j. apply (on_inst_R i dash_fetch s R_fetch j). Qed.

Lemma set_highlight_R (i : nat) (h : string) (s : app_state) :
  app_R s (setHighlightedError i h s).
Proof. by apply on_inst_R. Qed.

Lemma scroll_R (i : nat) (h : string) (t : Z) (s : app_state) : app_R s (highlightScroll i h t s).
Proof. cbn. unfold scroll_shown. destruct (shown s); [by apply on_inst_R|reflexivity]. Qed.

Ltac hook_R := first [apply fetchData_R | apply set_highlight_R | apply scroll_R].

Lemma run_closure_R (c : closure) (T : timers closure) (a : app_state) :
  app_R a (run_closure c T a).2.
Proof.
  destruct c as [i h|i|i]; cbn [run_closure]; try destruct (setInterval _ _ _);
    first [apply scroll_R | apply fetchData_R | intros j; reflexivity].
Qed.

Lemma highlight_effect_R (i : nat) (h : option string) (w : world) :
  app_R (app w) (app (highlight_effect i h w)).
Proof.
  unfold highlight_effect. destruct h as [h|]; [case_decide|]; try reflexivity.
  destruct (setTimeout _ _ _). apply set_highlight_R.
Qed.

Lemma sync_effect_R (i : nat) (w : world) : app_R (app w) (app (sync_effect i w).1).
Proof. unfold sync_effect. destruct (setTimeout _ _ _). apply fetchData_R. Qed.

Lemma life_R (w : world) (e : Lifecycle.event) : app_R (app w) (app (step w e)).
Proof.
  destruct e as [h| | | |t]; cbn [step lifecycle_step].
  - unfold mount. destruct (mounted w) as [[]|]; [reflexivity|].
    pose proof (highlight_effect_R (instances w) h w).
    pose proof (sync_effect_R (instances w) (highlight_effect (instances w) h w)).
    destruct (sync_effect _ _) as [w2 id]. simpl in *. by etransitivity.
  - unfold unmount. destruct (mounted w) as [[]|]; reflexivity.
  - unfold fire. destruct (take_next _) as [[tm T']|]; [|reflexivity].
    pose proof (run_closure_R (t_cb tm) T' (app w)).
    destruct (run_closure _ _ _). done.
  - unfold refresh. destruct (mounted w) as [[]|]; [hook_R|reflexivity].
  - unfold advance. destruct (_ && _); reflexivity.
Qed.

Lemma sync_shown_R (w w' : world) : app_R (app w) (app w') -> app_R (app w) (app (sync_shown w')).
Proof. intros H j. exact (H j). Qed.

Lemma on_mounted_R (f : dash -> dash) (w : world) :
  (forall d, R d (f d)) -> app_R (app w) (app (on_mounted f w)).
Proof using R_preorder. intros Hf. unfold on_mounted. destruct (mounted w) as [[]|]; [by apply on_inst_R|reflexivity]. Qed.

(** A relation every allowed event respects holds along a run. *)
Lemma run_R (Q : event -> Prop) :
  (forall w e, Q e -> app_R (app w) (app (step w e))) ->
  forall w evs, Forall Q evs -> app_R (app w) (app (run w evs)).
Proof using R_preorder.
  intros Hstep w evs. revert w. induction evs as [|e evs IH]; intros w Hevs; [reflexivity|].
  apply Forall_cons in Hevs as [He Hevs]. rewrite run_cons.
  transitivity (app (step w e)); auto.
Qed.

End Frame.

(** ** Mounting *)

(** What the mount effects leave in the new instance's state. *)
Definition mount_highlight (h : option string) (d : dash) : dash :=
  match h with
  | Some h' => if decide (h' = ""%string) then d else dash_set_highlight h' d
  | None => d
  end.

Lemma inst_mkApp (j : nat) (s : app_state) (r : list (nat * Z)) (sh : option nat) :
  inst j (mkApp (insts s) r sh) = inst j s.
Proof. reflexivity. Qed.

Lemma inst_fetchData (i j : nat) (t : Z) (s : app_state) :
  inst j (fetchData i t s) = if decide (i = j) then dash_fetch (inst i s) else inst j s.
Proof. apply inst_on_inst. Qed.

Lemma inst_setHighlightedError (i j : nat) (h : string) (s : app_state) :
  inst j (setHighlightedError i h s) =
  if decide (i = j) then dash_set_highlight h (inst i s) else inst j s.
Proof. apply inst_on_inst. Qed.

Lemma mount_inst (h : option string) (w : world) :
  mounted w = None ->
  (exists id, mounted (mount h w) = Some (instances w, id)) /\
  instances (mount h w) = S (instances w) /\
  forall j, inst j (app (mount h w)) =
    if decide (instances w = j) then dash_fetch (mount_highlight h (inst j (app w)))
    else inst j (app w).
Proof.
  intros Hm. unfold mount. rewrite Hm.
  unfold sync_effect, highlight_effect, mount_highlight.
  destruct h as [h|]; [case_decide|];
    repeat match goal with |- context [setTimeout ?a ?b ?c] => destruct (setTimeout a b c) end;
    cbn [app instances mounted timers_of];
    (split; [eauto|split; [done|]]); intros j;
    rewrite ?inst_fetchData, ?inst_setHighlightedError; repeat case_decide; subst; done.
Qed.

Lemma inst_sync_shown (j : nat) (w : world) : inst j (app (sync_shown w)) = inst j (app w).
Proof. reflexivity. Qed.

Lemma on_mounted_inst (f : dash -> dash) (w : world) (i id j : nat) :
  mounted w = Some (i, id) ->
  mounted (on_mounted f w) = Some (i, id) /\
  inst j (app (on_mounted f w)) = if decide (i = j) then f (inst i (app w)) else inst j (app w).
Proof. intros Hm. unfold on_mounted. rewrite Hm. split; [done|apply inst_on_inst]. Qed.

Lemma poll_of_mount_highlight (h : option string) (d : dash) :
  poll_of (mount_highlight h d) = poll_of d.
Proof. destruct h as [h|]; simpl; [case_decide|]; done. Qed.

Lemma rings_mount_highlight (h : option string) (d : dash) :
  rings (mount_highlight h d) = rings d.
Proof. destruct h as [h|]; simpl; [case_decide|]; done. Qed.

(** The page of an instance whose list and stats are empty. *)
Lemma render_empty (d : dash) :
  data_of (poll_of d) = mkData (JArr []) (JObj []) false ->
  render d = Some (Page [num 0; num 0; num 0; num 0] no_charts [] true).
Proof. intros Hd. unfold render. rewrite Hd. reflexivity. Qed.

(** The timers the mount effects arm. *)
Lemma mount_has_cb (p : closure -> bool) (h : option string) (w : world) :
  mounted w = None ->
  has_cb p (timers_of (mount h w)) =
  has_cb p (timers_of w) ||
  match h with
  | Some h' => if decide (h' = ""%string) then false else p (HighlightTimeout (instances w) h')
  | None => false
  end || p (InitialSync (instances w)).
Proof.
  intros Hm. unfold mount. rewrite Hm. unfold sync_effect, highlight_effect, setTimeout.
  destruct h as [h|]; [case_decide|]; cbn; unfold has_cb; cbn; rewrite ?existsb_app; cbn;
    rewrite ?orb_false_r; try done; by rewrite orb_assoc.
Qed.

Lemma instances_step (w : world) (e : event) : (instances w <= instances (step w e))%nat.
Proof.
  destruct e as [[h| | | |t]|k er sr|ce]; cbn [step dashboard_step lifecycle_step sync_shown instances].
  - destruct (mounted w) eqn:Hm; [unfold mount; rewrite Hm; lia|].
    destruct (mount_inst h w Hm) as [_ [-> _]]. lia.
  - unfold unmount. destruct (mounted w) as [[]|]; simpl; lia.
  - unfold fire. destruct (take_next _) as [[tm T']|]; [|lia].
    destruct (run_closure _ _ _). simpl. lia.
  - unfold refresh. destruct (mounted w) as [[]|]; simpl; lia.
  - unfold advance. destruct (_ && _); simpl; lia.
  - unfold on_mounted. destruct (mounted w) as [[]|]; simpl; lia.
  - unfold on_mounted. destruct (mounted w) as [[]|]; simpl; lia.
Qed.

(** The page's timers and the mounted instance change only through the
    Lifecycle events, so the bookkeeping invariant of Lifecycle holds
    for the dashboard and a running interval stays. *)
Lemma lifecycle_inv_dash_step (w : world) (e : event) : lifecycle_inv w -> lifecycle_inv (step w e).
Proof.
  intros Hinv. destruct e as [e|k er sr|ce]; cbn [step dashboard_step].
  - destruct (lifecycle_inv_step w e Hinv). by constructor.
  - unfold on_mounted. destruct (mounted w) as [[]|] eqn:Hm; [|done]. rewrite <- Hm. destruct Hinv. by constructor.
  - unfold on_mounted. destruct (mounted w) as [[]|] eqn:Hm; [|done]. rewrite <- Hm. destruct Hinv. by constructor.
Qed.

Lemma alive_dash_step (w : world) (e : event) (id : nat) (c : closure) :
  lifecycle_inv w -> is_sync_interval c = true ->
  alive id c (active (timers_of w)) -> alive id c (active (timers_of (step w e))).
Proof.
  intros Hinv Hc Hal. destruct e as [e|k er sr|ce]; cbn [step dashboard_step sync_shown timers_of].
  - by apply alive_step.
  - unfold on_mounted. destruct (mounted w) as [[]|]; done.
  - unfold on_mounted. destruct (mounted w) as [[]|]; done.
Qed.

(** The events the router owns: mounting and unmounting the component. *)
Definition lifecycle_owned (e : event) : bool :=
  match e with Life (Mount _) | Life Unmount => true | _ => false end.

Lemma mounted_dash_step (w : world) (e : event) :
  lifecycle_owned e = false -> mounted (step w e) = mounted w /\ instances (step w e) = instances w.
Proof.
  destruct e as [[h| | | |t]|k er sr|ce];
    cbn [step dashboard_step lifecycle_step sync_shown mounted instances lifecycle_owned];
    intros Hown; try discriminate.
  - unfold fire. destruct (take_next _) as [[tm T']|]; [|done]. by destruct (run_closure _ _ _).
  - unfold refresh. by destruct (mounted w) as [[]|] eqn:Hm.
  - unfold advance. by destruct (_ && _).
  - unfold on_mounted. by destruct (mounted w) as [[]|] eqn:Hm.
  - unfold on_mounted. by destruct (mounted w) as [[]|] eqn:Hm.
Qed.

(** ** The highlight timer and the first poll *)

Definition highlight_of (i : nat) (c : closure) : bool :=
  match c with HighlightTimeout j _ => Nat.eqb i j | _ => false end.

(** The highlight timer of instance [i] has not fired yet. *)
Definition highlight_pending (i : nat) (w : world) : bool :=
  has_cb (highlight_of i) (timers_of w).

Definition poll_settle (e : event) : bool :=
  match e with PollSettle _ _ _ => true | _ => false end.

(** While loading, the document is the spinner: no card to find. *)
Lemma document_ids_loading (d : dash) : loading (data_of (poll_of d)) = true -> document_ids d = [].
Proof. intros Hl. unfold document_ids, page_cards, render. by rewrite Hl. Qed.

(** Before the first poll has settled: still loading, no ring. *)
Definition unloaded (d : dash) : Prop :=
  loading (data_of (poll_of d)) = true /\ rings d = [].

Definition keeps_unloaded (d d' : dash) : Prop := unloaded d -> unloaded d'.

#[local] Instance keeps_unloaded_preorder : PreOrder keeps_unloaded.
Proof. split; [intros d H; exact H|intros d1 d2 d3 H1 H2 H; auto]. Qed.

Lemma step_keeps_unloaded (w : world) (e : event) :
  poll_settle e = false -> app_R keeps_unloaded (app w) (app (step w e)).
Proof.
  destruct e as [e|k er sr|ce]; try discriminate; intros _; cbn [step dashboard_step].
  - apply life_R; [apply _|by intros d H|by intros h d H|].
    intros h d [Hl Hr]. split; [exact Hl|]. cbn [dash_scroll rings]. by rewrite document_ids_loading, Hr.
  - apply on_mounted_R; [apply _|]. by intros d H.
Qed.

(** ** The document and the highlight timers

    The document shows the mounted instance; a highlight timer still
    pending belongs to an instance created so far, and to no instance
    created after the mounted one. *)
Definition dom_inv (w : world) : Prop :=
  shown (app w) = option_map fst (mounted w) /\
  forall j, highlight_pending j w = true ->
    (j < instances w)%nat /\ forall i id, mounted w = Some (i, id) -> (j <= i)%nat.

Lemma run_closure_pending (j : nat) (c : closure) (T : timers closure) (a : app_state) :
  has_cb (highlight_of j) (run_closure c T a).1 = has_cb (highlight_of j) T.
Proof.
  destruct c as [i h|i|i]; [done| |done]. cbn [run_closure]. unfold setInterval, arm.
  cbn [fst]. unfold has_cb. cbn [active]. rewrite existsb_app. cbn. by rewrite orb_false_r.
Qed.

(** Only a mount arms a highlight timer, for the new instance. *)
Lemma pending_step (j : nat) (w : world) (e : event) :
  highlight_pending j (step w e) = true ->
  highlight_pending j w = true \/
  (mounted w = None /\ j = instances w /\ instances (step w e) = S (instances w) /\
   exists id, mounted (step w e) = Some (instances w, id)).
Proof.
  unfold highlight_pending. intros Hj.
  destruct (has_cb (highlight_of j) (timers_of w)) eqn:Hp; [by left|right].
  destruct e as [[h| | | |t]|k er sr|ce]; cbn [step dashboard_step lifecycle_step sync_shown timers_of instances mounted] in *.
  - destruct (mounted w) eqn:Hm; [unfold mount in Hj; rewrite Hm in Hj; congruence|].
    destruct (mount_inst h w Hm) as [[id Hid] [Hi _]].
    rewrite mount_has_cb, Hp in Hj by done. split_and!; eauto.
    destruct h as [h|]; [case_decide|]; cbn in Hj; try discriminate.
    apply orb_true_iff in Hj as [Hj|]; [|done]. by apply Nat.eqb_eq in Hj.
  - unfold unmount in Hj. destruct (mounted w) as [[n n0]|]; [|congruence].
    cbn [timers_of] in Hj. unfold clearTimeout in Hj. first [congruence | by rewrite has_cb_clear in Hj].
  - unfold fire in Hj. destruct (take_next _) as [[tm T']|] eqn:Ht; [|congruence].
    destruct (has_cb_take_next _ _ _ _ Ht Hp) as [_ HT'].
    pose proof (run_closure_pending j (t_cb tm) T' (app w)) as Hc.
    destruct (run_closure _ _ _). cbn in *. congruence.
  - unfold refresh in Hj. destruct (mounted w) as [[]|]; cbn in Hj; congruence.
  - unfold advance in Hj. destruct (_ && _); cbn in Hj; unfold has_cb in *; cbn in Hj; congruence.
  - unfold on_mounted in Hj. destruct (mounted w) as [[]|]; cbn in Hj; congruence.
  - unfold on_mounted in Hj. destruct (mounted w) as [[]|]; cbn in Hj; congruence.
Qed.

(** A step keeps the mounted instance, unmounts it, or mounts a new one. *)
Lemma mounted_step (w : world) (e : event) :
  mounted (step w e) = mounted w \/ mounted (step w e) = None \/
  (mounted w = None /\ exists id, mounted (step w e) = Some (instances w, id)).
Proof.
  destruct e as [[h| | | |t]|k er sr|ce]; cbn [step dashboard_step lifecycle_step sync_shown mounted].
  - destruct (mounted w) eqn:Hm; [unfold mount; rewrite Hm; by left|].
    destruct (mount_inst h w Hm) as [Hid _]. by right; right.
  - unfold unmount. destruct (mounted w) as [[]|] eqn:Hm; cbn; auto.
  - unfold fire. destruct (take_next _) as [[tm T']|]; [|auto]. destruct (run_closure _ _ _). by left.
  - unfold refresh. destruct (mounted w) as [[]|] eqn:Hm; cbn; auto.
  - unfold advance. destruct (_ && _); by left.
  - unfold on_mounted. destruct (mounted w) as [[]|] eqn:Hm; cbn; auto.
  - unfold on_mounted. destruct (mounted w) as [[]|] eqn:Hm; cbn; auto.
Qed.

Lemma shown_step (w : world) (e : event) :
  shown (app w) = option_map fst (mounted w) ->
  shown (app (step w e)) = option_map fst (mounted (step w e)).
Proof.
  intros Hs. destruct e as [e|k er sr|ce]; cbn [step dashboard_step]; [done| |];
    unfold on_mounted; destruct (mounted w) as [[]|] eqn:Hm; cbn; rewrite ?Hm; done.
Qed.

Lemma dom_inv_page (t : Z) : dom_inv (page t initial_app).
Proof. split; [done|]. intros j Hj. discriminate. Qed.

Lemma dom_inv_step (w : world) (e : event) : dom_inv w -> dom_inv (step w e).
Proof.
  intros [Hs Hp]. split; [by apply shown_step|]. intros j Hj.
  pose proof (instances_step w e) as Hmono.
  destruct (pending_step j w e Hj) as [Hb | (Hm & -> & Hi & id & Hid)].
  - destruct (Hp j Hb) as [Hlt Hle]. split; [lia|]. intros i id Hid.
    destruct (mounted_step w e) as [Heq | [Hn | (Hm & id' & Hid')]]; [rewrite Heq in Hid; eauto|congruence|].
    rewrite Hid in Hid'. injection Hid' as -> _. lia.
  - split; [lia|]. intros i id' Hid'. rewrite Hid in Hid'. injection Hid' as -> _. lia.
Qed.

(** The rings of instance 0 change only when its DOM is shown. *)
Lemma rings0_run_closure (c : closure) (T : timers closure) (a : app_state) :
  (forall j h, c = HighlightTimeout j h -> shown a <> Some 0%nat) ->
  rings (inst 0 (run_closure c T a).2) = rings (inst 0 a).
Proof.
  destruct c as [j h|i|i]; intros Hc; cbn [run_closure snd].
  - cbn [highlightScroll dashboard_hooks]. unfold scroll_shown.
    destruct (shown a) as [j'|] eqn:Hsh; [|done]. rewrite inst_on_inst.
    case_decide; [subst; by destruct (Hc j h eq_refl)|done].
  - unfold setInterval, arm. cbn [snd]. rewrite ?inst_fetchData. try case_decide; subst; done.
  - rewrite ?inst_fetchData. try case_decide; subst; done.
Qed.

Lemma rings0_step (w : world) (e : event) :
  dom_inv w -> highlight_pending 0 w = false -> (1 <= instances w)%nat ->
  rings (inst 0 (app (step w e))) = rings (inst 0 (app w)).
Proof.
  intros [Hs Hdom] Hp Hi.
  destruct e as [[h| | | |t]|k er sr|ce]; cbn [step dashboard_step lifecycle_step sync_shown app]; try rewrite inst_mkApp.
  - destruct (mounted w) eqn:Hm; [unfold mount; rewrite Hm; done|].
    destruct (mount_inst h w Hm) as [_ [_ Hinst]]. rewrite Hinst, decide_False by lia. done.
  - unfold unmount. destruct (mounted w) as [[]|]; done.
  - unfold fire. destruct (take_next _) as [[tm T']|] eqn:Ht; [|done].
    destruct (has_cb_take_next _ _ _ _ Ht Hp) as [Hc _].
    assert (Hsh : forall j h, t_cb tm = HighlightTimeout j h -> shown (app w) <> Some 0%nat).
    { intros j h Htm Hs0. rewrite Htm in Hc. cbn in Hc.
      assert (Hpj : highlight_pending j w = true).
      { unfold highlight_pending, has_cb. apply existsb_exists. exists tm.
        split; [apply list_elem_of_In; exact (take_next_In _ _ _ Ht)|]. rewrite Htm. cbn. apply Nat.eqb_refl. }
      destruct (Hdom j Hpj) as [_ Hle]. rewrite Hs0 in Hs.
      destruct (mounted w) as [[i0 id0]|] eqn:Hm; cbn in Hs; [|discriminate].
      injection Hs as <-. specialize (Hle 0%nat id0 eq_refl).
      destruct j; [discriminate|lia]. }
    pose proof (rings0_run_closure (t_cb tm) T' (app w) Hsh) as Hr.
    destruct (run_closure _ _ _). exact Hr.
  - unfold refresh. destruct (mounted w) as [[i0 ?]|]; [|done].
    cbn [app]. rewrite inst_fetchData. case_decide; subst; done.
  - unfold advance. destruct (_ && _); done.
  - unfold on_mounted. destruct (mounted w) as [[i0 ?]|]; [|done].
    cbn [app]. rewrite inst_on_inst. case_decide; subst; done.
  - unfold on_mounted. destruct (mounted w) as [[i0 ?]|]; [|done].
    cbn [app]. rewrite inst_on_inst. case_decide; subst; done.
Qed.

(** After the highlight timer of instance 0 has fired: it is not armed
    again, and the ring list of instance 0 stays empty. *)
Definition ring_settled (w : world) : Prop :=
  highlight_pending 0 w = false /\ rings (inst 0 (app w)) = [] /\ (1 <= instances w)%nat /\ dom_inv w.

Lemma step_ring_settled (w : world) (e : event) : ring_settled w -> ring_settled (step w e).
Proof.
  intros (Hp & Hr & Hi & Hd). pose proof (instances_step w e) as Hmono. split_and!.
  - destruct (highlight_pending 0 (step w e)) eqn:E; [|done].
    destruct (pending_step 0 w e E) as [H|(_ & H & _)]; [congruence|lia].
  - by rewrite rings0_step.
  - lia.
  - by apply dom_inv_step.
Qed.

Lemma run_instances (w : world) (evs : list event) : (instances w <= instances (run w evs))%nat.
Proof.
  revert w. induction evs as [|e evs IH]; intros w; [done|].
  rewrite run_cons. etransitivity; [apply instances_step|apply IH].
Qed.

(** Opening the dashboard: instance 0, loading, no ring yet. *)
Lemma open_link_fresh (t : Z) (href : string) :
  let w := step (page t initial_app) (open_link href) in
  (exists id, mounted w = Some (0%nat, id)) /\ instances w = 1%nat /\
  inst 0 (app w) = dash_fetch (mount_highlight (highlight_param (location_search href)) initial_dash).
Proof.
  destruct (mount_inst (highlight_param (location_search href)) (page t initial_app) eq_refl)
    as [Hm [Hi Hinst]].
  cbv zeta. cbn [step dashboard_step open_link lifecycle_step sync_shown app mounted instances].
  rewrite inst_mkApp. split_and!; [exact Hm|exact Hi|]. rewrite Hinst. by rewrite decide_True.
Qed.

(** The timers a highlighted mount arms: the 1000 ms highlight timer,
    then the one-shot sync timer. *)
Lemma open_link_timers (t : Z) (href h : string) :
  highlight_param (location_search href) = Some h -> h <> ""%string ->
  timers_of (step (page t initial_app) (open_link href)) =
  mkTimers t 3 [mkTimer 1 (t + 1000) None (HighlightTimeout 0 h);
                mkTimer 2 (t + getTimeUntilNextSync t) None (InitialSync 0)].
Proof.
  intros Hh Hne. pose proof (getTimeUntilNextSync_nonneg t).
  cbn [step dashboard_step open_link lifecycle_step]. rewrite Hh.
  unfold mount, highlight_effect, sync_effect. cbn. rewrite decide_False by done. cbn.
  rewrite !clamp_nonneg by lia. reflexivity.
Qed.

(** Firing when the highlight timer is due first. *)
Lemma fire_highlight_first (w : world) (t d : Z) (h : string) :
  (1000 <= d)%Z ->
  timers_of w = mkTimers t 3 [mkTimer 1 (t + 1000) None (HighlightTimeout 0 h);
                             mkTimer 2 (t + d) None (InitialSync 0)] ->
  app (fire w) = highlightScroll 0 h (t + 1000) (app w).
Proof.
  intros Hd HT. unfold fire. rewrite HT. unfold take_next. cbn [active earliest t_due].
  rewrite (proj2 (Z.ltb_ge _ _)) by lia. reflexivity.
Qed.

(** ** The card state, keyed by id *)

(** User clicks on a card: Hide/View Details and the sub-view buttons. *)
Definition card_click (e : event) : bool :=
  match e with CardEvent (Toggle _) | CardEvent (Select _) => true | _ => false end.

(** What a rendered card shows of the spec's card state. *)
Definition card_shows (cv : card_view) (st : card_state) : Prop :=
  match st with
  | Collapsed => cv_expanded cv = false /\ cv_view cv = None
  | Expanded v => cv_expanded cv = true /\ option_map fst (cv_view cv) = Some v
  end.

Definition same_card_state (d d' : dash) : Prop :=
  forall x, abstraction (cards_of d') x = abstraction (cards_of d) x.

#[local] Instance same_card_state_preorder : PreOrder same_card_state.
Proof. split; [by intros d x|intros d1 d2 d3 H1 H2 x; by rewrite H2, H1]. Qed.

Lemma step_same_card_state (w : world) (e : event) :
  card_click e = false -> app_R same_card_state (app w) (app (step w e)).
Proof.
  destruct e as [e|k er sr|[id|v|k r]]; try discriminate; intros _; cbn [step dashboard_step].
  - apply sync_shown_R, life_R; try apply _; by intros.
  - apply on_mounted_R; [apply _|]. by intros d x.
  - apply on_mounted_R; [apply _|]. intros d x. unfold abstraction; cbn.
    by destruct (detail_settle_view k r (cards_of d)) as [-> [-> _]].
Qed.

Lemma run_same_card_state (w : world) (evs : list event) (j : nat) :
  Forall (fun e => card_click e = false) evs ->
  same_card_state (inst j (app w)) (inst j (app (run w evs))).
Proof. intros Hevs. exact (run_R _ _ step_same_card_state w evs Hevs j). Qed.

Lemma render_card_shows (c : cards) (h error : js) (cv : card_view) :
  render_card c h error = Some cv -> card_shows cv (abstraction c (cv_key cv)).
Proof.
  unfold render_card, abstraction.
  destruct (get error "id") as [id|]; simpl; [|done].
  destruct (card_dom_id error); simpl; [|done].
  destruct (card_header error); simpl; [|done].
  destruct (strict_eq (expandedError c) id) eqn:E; simpl.
  - destruct (renderActiveView _ _ _); simpl; [|done]. intros [= <-]. simpl. by rewrite E.
  - intros [= <-]. simpl. by rewrite E.
Qed.

Lemma render_page_card (d : dash) (summary : list js) (ch : chart_view) (cs : list card_view) (empty : bool)
    (cv : card_view) :
  render d = Some (Page summary ch cs empty) -> cv ∈ cs ->
  exists error, render_card (cards_of d) (highlightedError d) error = Some cv.
Proof.
  unfold render. destruct (loading _); [done|].
  destruct (stats_summary _); simpl; [|done].
  destruct (charts _); simpl; [|done].
  destruct (js_or _ _) as [| | | | |xs|]; simpl; try done.
  destruct (mapM _ xs) as [cs'|] eqn:Hm; simpl; [|done].
  destruct (empty_state _); simpl; [|done]. intros [= _ _ <- _] Hcv.
  destruct (mapM_elem_of _ _ _ _ Hm Hcv) as (x & _ & Hx). eauto.
Qed.

(** What a card shows of its list entry: [key], DOM id and border. *)
Lemma render_card_fields (c : cards) (h error : js) (cv : card_view) :
  render_card c h error = Some cv ->
  get error "id" = Some (cv_key cv) /\ card_dom_id error = Some (cv_dom_id cv) /\
  cv_bordered cv = card_bordered h error.
Proof.
  unfold render_card.
  destruct (get error "id") as [id|]; simpl; [|done].
  destruct (card_dom_id error); simpl; [|done].
  destruct (card_header error); simpl; [|done].
  destruct (strict_eq (expandedError c) id); [destruct (renderActiveView _ _ _)|]; simpl;
    try done; intros [= <-]; auto.
Qed.

Lemma page_cards_render (d : dash) (cv : card_view) :
  cv ∈ page_cards d -> exists error, render_card (cards_of d) (highlightedError d) error = Some cv.
Proof.
  unfold page_cards. destruct (render d) as [[|sm ch cs em]|] eqn:Hr;
    [by intros ?%elem_of_nil|eauto using render_page_card|by intros ?%elem_of_nil].
Qed.

(** A page that renders has a card for every entry of the list. *)
Lemma listed_page_card (d : dash) (error : js) :
  is_Some (render d) -> error ∈ listed_errors (data_of (poll_of d)) ->
  exists cv, cv ∈ page_cards d /\ render_card (cards_of d) (highlightedError d) error = Some cv.
Proof.
  intros [sc Hr] Hin. unfold page_cards. rewrite Hr. unfold listed_errors in Hin. unfold render in Hr.
  destruct (loading _); [by apply elem_of_nil in Hin|].
  destruct (stats_summary _); simpl in Hr; [|done].
  destruct (charts _); simpl in Hr; [|done].
  destruct (js_or _ _) as [| | | | |xs|]; simpl in Hr; try done.
  destruct (mapM _ xs) as [cs|] eqn:Hm; simpl in Hr; [|done].
  destruct (empty_state _); simpl in Hr; [|done]. injection Hr as <-.
  exact (mapM_elem_of_l _ _ _ _ Hm Hin).
Qed.

(** The callback rings exactly the DOM ids the document holds. *)
Lemma dash_scroll_found (h : string) (d : dash) (cv : card_view) :
  cv ∈ page_cards d -> cv_dom_id cv = ("error-" +:+ h)%string ->
  rings (dash_scroll h d) = rings d ++ [("error-" +:+ h)%string].
Proof.
  intros Hcv Hid. apply highlight_timeout_found. rewrite <- Hid.
  apply list_elem_of_In, in_map, list_elem_of_In, Hcv.
Qed.

(** The ring classes do not change what React renders. *)
Lemma page_cards_scroll (h : string) (d : dash) : page_cards (dash_scroll h d) = page_cards d.
Proof. reflexivity. Qed.

Lemma dash_scroll_missing (h : string) (d : dash) :
  (forall cv, cv ∈ page_cards d -> cv_dom_id cv <> ("error-" +:+ h)%string) ->
  rings (dash_scroll h d) = rings d.
Proof.
  intros Hn. apply highlight_timeout_missing. intros Hin%list_elem_of_In.
  apply in_map_iff in Hin as (cv & Heq & Hcv). apply (Hn cv); [by apply list_elem_of_In|done].
Qed.

(** A poll settling with a JSON [null] stats body leaves the mounted
    instance with a render that throws. *)
Lemma null_stats_settle_throws (w : world) (i id k : nat) (fs : list (string * js)) (st1 st2 : Z) :
  mounted w = Some (i, id) -> k ∈ inflight (poll_of (inst i (app w))) ->
  screen_of (step w (PollSettle k (Response (mkResponse st1 (Some (JObj fs))))
                                  (Response (mkResponse st2 (Some JNull))))) = Some None.
Proof.
  intros Hm Hk. cbn [step dashboard_step]. unfold screen_of.
  destruct (on_mounted_inst (dash_settle k (Response (mkResponse st1 (Some (JObj fs))))
            (Response (mkResponse st2 (Some JNull)))) w i id i Hm) as [-> ->].
  rewrite decide_True by done. unfold render, dash_settle. cbn [poll_of].
  rewrite (settle_inflight _ _ _ _ Hk). reflexivity.
Qed.

(** ** Properties *)

(** C21 *)
(** Card state is kept by id across polls: after any events other than
    clicks on a card (polls settling, timer firings, refreshes, detail
    responses), every card an instance renders shows the expanded state
    and sub-view its id had before, whatever the new list is; a card
    that left the list and came back is as it was. *)
Theorem card_state_kept_across_polls (w : world) (evs : list event) (i : nat)
    (summary : list js) (ch : chart_view) (cs : list card_view) (empty : bool) (cv : card_view) :
  Forall (fun e => card_click e = false) evs ->
  render (inst i (app (run w evs))) = Some (Page summary ch cs empty) -> cv ∈ cs ->
  card_shows cv (abstraction (cards_of (inst i (app w))) (cv_key cv)).
Proof.
  intros Hevs Hr Hcv. destruct (render_page_card _ _ _ _ _ _ Hr Hcv) as [error He].
  rewrite <- (run_same_card_state w evs i Hevs (cv_key cv)). exact (render_card_shows _ _ _ _ He).
Qed.

(** C22 *)
(** A failed first poll: when the first [fetchData] of a freshly opened
    dashboard fails in transport or gets a body that is not JSON, the
    spinner gives way to a page with the four counters at [0], no card
    and the No errors found state. *)
Theorem failed_first_poll_shows_empty_page (t : Z) (href : string) (er sr : fetch_result) :
  transport_or_parse_failure er sr ->
  screen_of (run (page t initial_app) [open_link href; PollSettle 0 er sr]) =
  Some (Some (Page [num 0; num 0; num 0; num 0] no_charts [] true)).
Proof.
  intros Hf. rewrite !run_cons, run_nil. cbn [step dashboard_step open_link lifecycle_step].
  destruct (mount_inst (highlight_param (location_search href)) (page t initial_app) eq_refl)
    as [[id Hm] [_ Hi]].
  unfold screen_of. destruct (on_mounted_inst (dash_settle 0 er sr) (sync_shown (mount (highlight_param (location_search href)) (page t initial_app))) 0 id 0 Hm) as [-> ->].
  rewrite decide_True, inst_sync_shown, Hi, decide_True by done. f_equal. apply render_empty.
  cbn [dash_settle dash_fetch poll_of]. rewrite poll_of_mount_highlight.
  change (poll_of (inst 0 (app (page t initial_app)))) with initial_poller.
  rewrite (settle_inflight 0 er sr (start initial_poller)) by (simpl; set_solver).
  apply settle_failure_caught, Hf.
Qed.

(** C23 *)
(** A JSON [null] stats body is not caught: [fetchData] stores it in
    [stats], and the next render throws a [TypeError] at
    [stats.last_24_hours], taking the page down, whatever the list. *)
Theorem null_stats_body_crashes_render (w : world) (i id k : nat) (fs : list (string * js))
    (st1 st2 : Z) :
  mounted w = Some (i, id) -> k ∈ inflight (poll_of (inst i (app w))) ->
  screen_of (step w (PollSettle k (Response (mkResponse st1 (Some (JObj fs))))
                                  (Response (mkResponse st2 (Some JNull))))) = Some None.
Proof. apply null_stats_settle_throws. Qed.

(** C24 *)
(** The highlight race: the ring is tried once, 1000 ms after mount.
    When that timer has fired before the first poll settled (the list
    was still loading), the card of the link never gets the ring, for
    the rest of the page's life, whatever happens next. *)
Theorem highlight_before_first_poll_never_rings (t : Z) (href : string) (evs1 evs2 : list event) :
  Forall (fun e => poll_settle e = false) evs1 ->
  highlight_pending 0 (run (page t initial_app) (open_link href :: evs1)) = false ->
  rings (inst 0 (app (run (page t initial_app) (open_link href :: evs1 ++ evs2)))) = [].
Proof.
  intros H1 Hp. rewrite app_comm_cons, run_app.
  assert (Hw1 : ring_settled (run (page t initial_app) (open_link href :: evs1))).
  { destruct (open_link_fresh t href) as (_ & Hi & Hinst). rewrite run_cons.
    split_and!; [exact Hp| | |].
    - apply (run_R keeps_unloaded _ step_keeps_unloaded _ evs1 H1 0).
      rewrite Hinst. split; cbn; [by rewrite poll_of_mount_highlight|by rewrite rings_mount_highlight].
    - rewrite <- Hi. apply run_instances.
    - rewrite <- run_cons. apply run_preserves; [apply dom_inv_step|apply dom_inv_page]. }
  exact (proj1 (proj2 (run_preserves ring_settled step_ring_settled _ evs2 Hw1))).
Qed.

(** The deep link's first poll and tick: after the poll settles, the
    mounted instance 0 holds the link's highlight and the poll's data,
    and the 1000 ms tick (due before the one-shot sync) runs the
    callback on its document. *)
Lemma deep_link_tick (t : Z) (href s : string) (er sr : fetch_result) :
  highlight_param (location_search href) = Some s -> s <> ""%string ->
  (1000 <= getTimeUntilNextSync t)%Z ->
  let w1 := run (page t initial_app) [open_link href; PollSettle 0 er sr] in
  highlightedError (inst 0 (app w1)) = JStr s /\ rings (inst 0 (app w1)) = [] /\
  data_of (poll_of (inst 0 (app w1))) = fetchData_settle er sr (data_of (start initial_poller)) /\
  inst 0 (app (step w1 (Life Fire))) = dash_scroll s (inst 0 (app w1)).
Proof.
  intros Hh Hne Hd w1. subst w1.
  destruct (open_link_fresh t href) as ([id Hm] & _ & Hinst).
  pose proof (open_link_timers t href s Hh Hne) as HT.
  rewrite !run_cons, run_nil. cbn [step dashboard_step lifecycle_step open_link] in *.
  set (w1 := sync_shown (mount (highlight_param (location_search href)) (page t initial_app))) in *.
  set (f := dash_settle 0 er sr).
  destruct (on_mounted_inst f w1 0 id 0 Hm) as [_ Hi2].
  assert (HT2 : timers_of (on_mounted f w1) = timers_of w1) by (unfold on_mounted; by rewrite Hm).
  assert (Hsh : shown (app (on_mounted f w1)) = Some 0%nat) by (unfold on_mounted; by rewrite Hm).
  rewrite HT in HT2. rewrite inst_sync_shown, (fire_highlight_first _ t _ s Hd HT2).
  cbn [highlightScroll dashboard_hooks]. unfold scroll_shown. rewrite Hsh, inst_on_inst, decide_True by done.
  rewrite Hi2, decide_True, Hinst, Hh by done. cbn [mount_highlight]. rewrite decide_False by done.
  unfold f, dash_settle, dash_fetch, dash_set_highlight. cbn [poll_of rings highlightedError].
  rewrite (settle_inflight 0 _ _ (start (poll_of initial_dash))) by (simpl; set_solver).
  split_and!; reflexivity.
Qed.

(** C25 *)
(** The deep link end to end: opening the share link of a card whose id
    is a plain non-empty string, when the first poll returns a list with
    that card before the 1000 ms tick (the one-shot sync is due no
    sooner) and the page renders it, leaves the card in the document
    with the ring classes and the border. *)
Theorem deep_link_emphasis_end_to_end (t : Z) (origin s : string) (error ej : js) (xs : list js)
    (e sr : response) :
  origin_ok origin = true -> safe_id s = true -> s <> ""%string ->
  get error "id" = Some (JStr s) -> error ∈ xs ->
  body e = Some ej -> get ej "errors" = Some (JArr xs) -> is_Some (body sr) ->
  (1000 <= getTimeUntilNextSync t)%Z ->
  let w1 := run (page t initial_app)
              [open_link (origin +:+ "/dashboard?highlight=" +:+ s);
               PollSettle 0 (Response e) (Response sr)] in
  is_Some (render (inst 0 (app w1))) ->
  let w := step w1 (Life Fire) in
  rings (inst 0 (app w)) = [("error-" +:+ s)%string] /\
  exists cv, cv ∈ page_cards (inst 0 (app w)) /\ cv_key cv = JStr s /\ cv_bordered cv = true.
Proof.
  intros Ho Hs Hne Hid Hin He Hej [sj Hsr] Hd w1 Hr w. subst w w1.
  destruct (deep_link_tick t _ s (Response e) (Response sr) (highlight_of_safe_link _ _ Ho Hs) Hne Hd)
    as (Hhl & Hr0 & Hdata & ->).
  assert (Hl : error ∈ listed_errors (data_of (poll_of (inst 0 (app (run (page t initial_app)
              [open_link (origin +:+ "/dashboard?highlight=" +:+ s); PollSettle 0 (Response e) (Response sr)])))))).
  { rewrite Hdata. unfold fetchData_settle. cbn [body]. by rewrite He, Hsr, Hej. }
  destruct (listed_page_card _ _ Hr Hl) as (cv & Hcv & Hrc).
  destruct (render_card_fields _ _ _ _ Hrc) as (Hk & Hdom & Hb).
  rewrite (card_dom_id_str _ _ Hid) in Hdom.
  split; [rewrite (dash_scroll_found _ _ cv Hcv) by congruence; by rewrite Hr0|].
  exists cv. rewrite page_cards_scroll. split_and!; [exact Hcv|congruence|].
  rewrite Hb, Hhl. unfold card_bordered. rewrite Hid. apply String.eqb_refl.
Qed.

(** C18 *)
(** An unknown id has no effect: when no card in the document has the
    DOM id [error-h] (in particular when no listed card has the string
    id [h]), the timer adds no ring and, with the stored highlight [h],
    no card is bordered; nothing fails. *)
Theorem unknown_highlight_no_emphasis (d : dash) (h : string) :
  (forall cv, cv ∈ page_cards d -> cv_dom_id cv <> ("error-" +:+ h)%string) ->
  rings (dash_scroll h d) = rings d /\
  (highlightedError d = JStr h -> forall cv, cv ∈ page_cards d -> cv_bordered cv = false).
Proof.
  intros Hn. split; [by apply dash_scroll_missing|]. intros Hh cv Hcv.
  destruct (page_cards_render _ _ Hcv) as [error He].
  destruct (render_card_fields _ _ _ _ He) as (Hk & Hdom & ->). rewrite Hh.
  unfold card_bordered. rewrite Hk. destruct (cv_key cv) as [| | | |k| |] eqn:Hkey; try done.
  destruct (strict_eq (JStr h) (JStr k)) eqn:E; [|done].
  apply strict_eq_str in E as <-. rewrite (card_dom_id_str _ _ Hk) in Hdom.
  destruct (Hn cv Hcv). congruence.
Qed.

(** C20 *)
(** A card whose id is a JSON number, on a page that renders, gets the
    ring (its DOM id is [error-] and the number printed in decimal,
    which is what the timer looks up) but never the border: the stored
    highlight is a string and [===] never equates a string with a
    number. *)
Theorem numeric_id_ring_without_border (d : dash) (error : js) (q : QArith_base.Q) (z : Z) :
  is_Some (render d) -> error ∈ listed_errors (data_of (poll_of d)) ->
  get error "id" = Some (JNum q) -> js_int (JNum q) = Some z ->
  rings (dash_scroll (pretty z) d) = rings d ++ [("error-" +:+ pretty z)%string] /\
  exists cv, cv ∈ page_cards d /\ cv_key cv = JNum q /\
    forall h, highlightedError d = JStr h -> cv_bordered cv = false.
Proof.
  intros Hr Hin Hid Hz. destruct (listed_page_card _ _ Hr Hin) as (cv & Hcv & He).
  destruct (render_card_fields _ _ _ _ He) as (Hk & Hdom & Hb).
  assert (Hd : card_dom_id error = Some ("error-" +:+ pretty z)%string).
  { unfold card_dom_id. rewrite Hid. cbn [mbind option_bind].
    change (to_string (JNum q)) with (option_map (fun z => pretty z) (js_int (JNum q))). by rewrite Hz. }
  split; [apply (dash_scroll_found _ _ cv Hcv); congruence|].
  exists cv. split_and!; [done|congruence|]. intros h Hh. rewrite Hb, Hh. unfold card_bordered. by rewrite Hid.
Qed.

(** The pie's cells come from the list of services, one per entry. *)
Lemma charts_fills (stats : js) (ch : chart_view) (fs : list string) :
  charts stats = Some ch -> pie_fills ch = Some fs ->
  exists xs : list js, fs = imap (fun i _ => nth (i mod length COLORS) COLORS ""%string) xs.
Proof.
  unfold charts. intros Hc Hf.
  destruct (get stats _) as [l24|]; simpl in Hc; [|discriminate].
  destruct (get_opt l24 "environments") as [envs|]; simpl in Hc; [|discriminate].
  destruct (get_opt l24 "top_services") as [[| | | | |xs|]|]; simpl in Hc;
    try discriminate; injection Hc as <-; cbn in Hf; try discriminate.
  injection Hf as <-. by exists xs.
Qed.

(** The cell of index [i] takes the palette entry [i mod 6]. *)
Lemma imap_palette_lookup (xs : list js) (i : nat) :
  (i < length xs)%nat ->
  imap (fun i _ => nth (i mod length COLORS) COLORS ""%string) xs !! i =
    Some (nth (i mod length COLORS) COLORS ""%string).
Proof.
  intros Hi. rewrite list_lookup_imap. destruct (lookup_lt_is_Some_2 xs i Hi) as [x ->]. done.
Qed.

(** The 1000 ms callback acts on the document: when a highlight timer
    is the next due while instance [j] is shown, firing it runs the
    callback on [j]'s cards, whichever instance armed it. *)
Lemma fire_highlight_shown (w : world) (tm : timer closure) (T' : timers closure) (i j : nat) (h : string) :
  take_next (timers_of w) = Some (tm, T') -> t_cb tm = HighlightTimeout i h -> shown (app w) = Some j ->
  inst j (app (step w (Life Fire))) = dash_scroll h (inst j (app w)).
Proof.
  intros Ht Hc Hs. cbn [step dashboard_step lifecycle_step]. rewrite inst_sync_shown.
  unfold fire. rewrite Ht, Hc. cbn [run_closure snd highlightScroll dashboard_hooks].
  cbn [app]. unfold scroll_shown. rewrite Hs, inst_on_inst. by rewrite decide_True.
Qed.

(** A mount only adds timers. *)
Lemma mount_keeps_timer (h : option string) (w : world) (tm : timer closure) :
  tm ∈ active (timers_of w) -> tm ∈ active (timers_of (mount h w)).
Proof.
  intros Hin. unfold mount. destruct (mounted w) as [[]|]; [done|].
  unfold sync_effect, highlight_effect, setTimeout, arm.
  destruct h as [h|]; [case_decide|]; cbn; rewrite ?elem_of_app; auto.
Qed.

(** The cleanup of the sync effect clears the one-shot sync timeout
    only: every other timer stays. *)
Lemma unmount_keeps_timer (w : world) (tm : timer closure) (i id : nat) :
  lifecycle_inv w -> mounted w = Some (i, id) -> tm ∈ active (timers_of w) ->
  t_cb tm <> InitialSync i -> tm ∈ active (timers_of (unmount w)).
Proof.
  intros Hinv Hm Hin Hc. unfold unmount. rewrite Hm. cbn [timers_of clearTimeout clearTimer active].
  first [exact Hin | apply list_elem_of_filter; split; [|done]; intros Hid;
    destruct (inv_cleanup _ Hinv i id Hm) as [_ Hf]; exact (Hc (proj1 (Forall_forall _ _) Hf tm Hin Hid))].
Qed.

(** C32 *)
(** The highlight timer outlives its dashboard: the effect that arms
    the 1000 ms callback returns no cleanup, and the sync effect's
    cleanup clears only its own timeout.  When the dashboard whose link
    armed the callback is unmounted before the tick and a dashboard is
    mounted again, the timer is still armed, the new instance is the
    one in the document, and the tick runs the callback on the new
    instance's cards. *)
Theorem highlight_timer_outlives_unmount (w : world) (i id : nat) (hm : option string)
    (tm : timer closure) (h : string) (T' : timers closure) :
  lifecycle_inv w -> dom_inv w -> mounted w = Some (i, id) ->
  tm ∈ active (timers_of w) -> t_cb tm = HighlightTimeout i h ->
  let w2 := run w [Life Unmount; Life (Mount hm)] in
  tm ∈ active (timers_of w2) /\ shown (app w2) = Some (instances w) /\ i <> instances w /\
  (take_next (timers_of w2) = Some (tm, T') ->
   inst (instances w) (app (step w2 (Life Fire))) = dash_scroll h (inst (instances w) (app w2))).
Proof.
  intros Hinv [_ Hdom] Hm Hin Hc w2.
  assert (Hi : (i < instances w)%nat).
  { apply (Hdom i). unfold highlight_pending, has_cb. apply existsb_exists.
    exists tm. split; [by apply list_elem_of_In|]. rewrite Hc. apply Nat.eqb_refl. }
  assert (Hu : mounted (sync_shown (unmount w)) = None) by (unfold unmount; by rewrite Hm).
  destruct (mount_inst hm (sync_shown (unmount w)) Hu) as [[id' Hm2] _].
  assert (Hsh : shown (app w2) = Some (instances w)).
  { subst w2. rewrite !run_cons, run_nil. cbn [step dashboard_step lifecycle_step].
    cbn [sync_shown app shown]. rewrite Hm2. unfold unmount. by rewrite Hm. }
  split_and!; [|exact Hsh|lia|intros Ht; exact (fire_highlight_shown _ _ _ _ _ _ Ht Hc Hsh)].
  subst w2. rewrite !run_cons, run_nil. cbn [step dashboard_step lifecycle_step sync_shown timers_of].
  apply mount_keeps_timer. apply (unmount_keeps_timer _ _ i id Hinv Hm Hin). by rewrite Hc.
Qed.

(** C38 *)
(** The pie's colours stay in the palette and cycle: the index of a
    service's cell is taken modulo the six colours of [COLORS], so
    every cell gets a colour of the palette (never [undefined]) and the
    cells six services apart share their colour: with seven or more
    services the pie repeats colours. *)
Theorem pie_fills_cycle (stats : js) (ch : chart_view) (fs : list string) :
  charts stats = Some ch -> pie_fills ch = Some fs ->
  Forall (fun c => c ∈ COLORS) fs /\
  forall i, (i + length COLORS < length fs)%nat -> fs !! (i + length COLORS)%nat = fs !! i.
Proof.
  intros Hc Hf. destruct (charts_fills _ _ _ Hc Hf) as [xs ->]. rewrite length_imap. split.
  - apply Forall_lookup. intros i c Hi.
    assert (Hlt : (i < length xs)%nat)
      by (apply lookup_lt_Some in Hi; by rewrite length_imap in Hi).
    rewrite imap_palette_lookup in Hi by done.
    assert (Hc' : c = nth (i mod length COLORS) COLORS ""%string) by congruence. subst c.
    apply list_elem_of_In, nth_In, Nat.mod_upper_bound. discriminate.
  - intros i Hi. rewrite !imap_palette_lookup by lia.
    replace (i + length COLORS)%nat with (i + 1 * length COLORS)%nat by lia.
    by rewrite Nat.Div0.mod_add.
Qed.

(** ** Witnesses *)

Definition ok_body (v : js) : fetch_result := Response (mkResponse 200 (Some v)).
Definition list_body (xs : list js) : fetch_result := ok_body (JObj [("errors"%string, JArr xs)]).
Definition dashboard_url : string := "http://localhost:3000/dashboard".
Definition E1_link : string := "http://localhost:3000/dashboard?highlight=E1".

(** The dashboard opened at 10:02:30, the list [E1] loaded, card [E1]
    expanded on its Traces view. *)
Definition E1_expanded : world :=
  run (page 36150000 initial_app)
    [open_link dashboard_url; PollSettle 0 (list_body [card_E1]) (ok_body (JObj []));
     CardEvent (Toggle (JStr "E1")); CardEvent (Select Traces)].

(** Two refreshes: [E1] leaves the list, then comes back. *)
Definition vanish_return : list event :=
  [Life Refresh; PollSettle 1 (list_body []) (ok_body (JObj []));
   Life Refresh; PollSettle 2 (list_body [card_E1]) (ok_body (JObj []))].

Definition E1_traces_card : card_view :=
  mkCardView (JStr "E1") "error-E1" false true
    [CVal JUndefined; CVal JUndefined; CText "N/A"; CVal JUndefined; CVal JUndefined;
     CVal JUndefined; CVal JUndefined; CVal JUndefined; CVal JUndefined]
    (Some (Traces, Empty "No traces found")).

Example E1_gone_midway :
  render (inst 0 (app (run E1_expanded (take 2 vanish_return)))) =
  Some (Page [num 0; num 0; num 0; num 0] no_charts [] true).
Proof. vm_compute. reflexivity. Qed.

Lemma card_state_kept_across_polls_witness :
  Forall (fun e => card_click e = false) vanish_return /\
  render (inst 0 (app (run E1_expanded vanish_return))) =
    Some (Page [num 0; num 0; num 0; num 0] no_charts [E1_traces_card] false) /\
  E1_traces_card ∈ [E1_traces_card] /\
  card_shows E1_traces_card (abstraction (cards_of (inst 0 (app E1_expanded))) (cv_key E1_traces_card)).
Proof.
  assert (H1 : Forall (fun e => card_click e = false) vanish_return) by repeat constructor.
  assert (H2 : render (inst 0 (app (run E1_expanded vanish_return))) =
               Some (Page [num 0; num 0; num 0; num 0] no_charts [E1_traces_card] false))
    by (vm_compute; reflexivity).
  assert (H3 : E1_traces_card ∈ [E1_traces_card]) by (apply list_elem_of_In; left; reflexivity).
  split; [exact H1|]. split; [exact H2|]. split; [exact H3|].
  exact (card_state_kept_across_polls _ _ _ _ _ _ _ _ H1 H2 H3).
Defined.

Lemma failed_first_poll_shows_empty_page_witness :
  transport_or_parse_failure NetworkError (ok_body (JObj [])) /\
  screen_of (run (page 36150000 initial_app)
               [open_link dashboard_url; PollSettle 0 NetworkError (ok_body (JObj []))]) =
  Some (Some (Page [num 0; num 0; num 0; num 0] no_charts [] true)).
Proof.
  split; [exact I|].
  exact (failed_first_poll_shows_empty_page 36150000 dashboard_url NetworkError _ I).
Defined.

Definition opened : world := run (page 36150000 initial_app) [open_link dashboard_url].

Lemma null_stats_body_crashes_render_witness :
  mounted opened = Some (0%nat, 1%nat) /\ (0 ∈ inflight (poll_of (inst 0 (app opened))))%nat /\
  screen_of (step opened (PollSettle 0 (Response (mkResponse 200 (Some (JObj [("errors"%string, JArr [])]))))
                                        (Response (mkResponse 200 (Some JNull))))) = Some None.
Proof.
  assert (Hm : mounted opened = Some (0%nat, 1%nat)) by reflexivity.
  assert (Hk : (0 ∈ inflight (poll_of (inst 0 (app opened))))%nat)
    by (vm_compute; apply list_elem_of_In; left; reflexivity).
  split; [exact Hm|]. split; [exact Hk|].
  exact (null_stats_body_crashes_render opened 0 1 0 _ 200 200 Hm Hk).
Defined.

Lemma highlight_before_first_poll_never_rings_witness :
  Forall (fun e => poll_settle e = false) [Life Fire] /\
  highlight_pending 0 (run (page 36150000 initial_app) [open_link E1_link; Life Fire]) = false /\
  rings (inst 0 (app (run (page 36150000 initial_app)
    (open_link E1_link :: [Life Fire] ++
     [PollSettle 0 (list_body [card_E1]) (ok_body (JObj [])); Life Fire; Life Fire])))) = [].
Proof.
  assert (H1 : Forall (fun e => poll_settle e = false) [Life Fire]) by repeat constructor.
  assert (H2 : highlight_pending 0 (run (page 36150000 initial_app) [open_link E1_link; Life Fire]) = false)
    by (vm_compute; reflexivity).
  split; [exact H1|]. split; [exact H2|].
  exact (highlight_before_first_poll_never_rings 36150000 E1_link [Life Fire] _ H1 H2).
Defined.

(** In that run the list is loaded and the card of [E1] is in the
    document: only the ring is missing. *)
Example highlight_race_card_shown :
  document_ids (inst 0 (app (run (page 36150000 initial_app)
    [open_link E1_link; Life Fire; PollSettle 0 (list_body [card_E1]) (ok_body (JObj []))])))
  = ["error-E1"%string].
Proof. vm_compute. reflexivity. Qed.

Definition E1_list_body : js := JObj [("errors"%string, JArr [card_E1])].

Lemma deep_link_emphasis_end_to_end_witness :
  (1000 <= getTimeUntilNextSync 36150000)%Z /\
  let w1 := run (page 36150000 initial_app)
              [open_link (sample_origin +:+ "/dashboard?highlight=" +:+ "E1");
               PollSettle 0 (Response (mkResponse 200 (Some E1_list_body)))
                            (Response (mkResponse 200 (Some (JObj []))))] in
  is_Some (render (inst 0 (app w1))) /\
  rings (inst 0 (app (step w1 (Life Fire)))) = [("error-" +:+ "E1")%string] /\
  exists cv, cv ∈ page_cards (inst 0 (app (step w1 (Life Fire)))) /\ cv_key cv = JStr "E1" /\
    cv_bordered cv = true.
Proof.
  assert (Hd : (1000 <= getTimeUntilNextSync 36150000)%Z) by (vm_compute; discriminate).
  assert (Hin : card_E1 ∈ [card_E1]) by (apply list_elem_of_In; left; reflexivity).
  split; [exact Hd|]. intros w1.
  assert (Hr : is_Some (render (inst 0 (app w1)))) by (vm_compute; eexists; reflexivity).
  split; [exact Hr|].
  exact (deep_link_emphasis_end_to_end 36150000 sample_origin "E1" card_E1 E1_list_body [card_E1]
           (mkResponse 200 (Some E1_list_body)) (mkResponse 200 (Some (JObj [])))
           eq_refl eq_refl ltac:(discriminate) eq_refl Hin eq_refl eq_refl
           ltac:(eexists; reflexivity) Hd Hr).
Defined.

(** A dashboard opened from a link whose id no card has. *)
Definition unknown_loaded : dash :=
  inst 0 (app (run (page 36150000 initial_app)
    [open_link "http://localhost:3000/dashboard?highlight=unknown";
     PollSettle 0 (list_body [card_E1]) (ok_body (JObj []))])).

Lemma unknown_highlight_no_emphasis_witness :
  (forall cv, cv ∈ page_cards unknown_loaded -> cv_dom_id cv <> ("error-" +:+ "unknown")%string) /\
  rings (dash_scroll "unknown" unknown_loaded) = rings unknown_loaded /\
  (highlightedError unknown_loaded = JStr "unknown" ->
   forall cv, cv ∈ page_cards unknown_loaded -> cv_bordered cv = false).
Proof.
  assert (H : forall cv, cv ∈ page_cards unknown_loaded -> cv_dom_id cv <> ("error-" +:+ "unknown")%string).
  { intros cv Hcv. remember (page_cards unknown_loaded) as l eqn:Hl. vm_compute in Hl. subst l.
    apply list_elem_of_In in Hcv as [<-|[]]. cbn. discriminate. }
  split; [exact H|]. exact (unknown_highlight_no_emphasis unknown_loaded "unknown" H).
Defined.

(** A dashboard opened from the link of a card whose id is the number
    [42], with that card listed. *)
Definition numeric_loaded : dash :=
  inst 0 (app (run (page 36150000 initial_app)
    [open_link "http://localhost:3000/dashboard?highlight=42";
     PollSettle 0 (list_body [card_42]) (ok_body (JObj []))])).

Lemma numeric_id_ring_without_border_witness :
  is_Some (render numeric_loaded) /\ card_42 ∈ listed_errors (data_of (poll_of numeric_loaded)) /\
  highlightedError numeric_loaded = JStr "42" /\
  rings (dash_scroll (pretty 42%Z) numeric_loaded) = rings numeric_loaded ++ [("error-" +:+ pretty 42%Z)%string] /\
  exists cv, cv ∈ page_cards numeric_loaded /\ cv_key cv = JNum (QArith_base.inject_Z 42) /\
    forall h, highlightedError numeric_loaded = JStr h -> cv_bordered cv = false.
Proof.
  assert (Hr : is_Some (render numeric_loaded)) by (vm_compute; eexists; reflexivity).
  assert (Hin : card_42 ∈ listed_errors (data_of (poll_of numeric_loaded))).
  { assert (Hl : listed_errors (data_of (poll_of numeric_loaded)) = [card_42]) by (vm_compute; reflexivity).
    rewrite Hl. apply list_elem_of_In. left. reflexivity. }
  split; [exact Hr|]. split; [exact Hin|]. split; [vm_compute; reflexivity|].
  exact (numeric_id_ring_without_border numeric_loaded card_42 _ 42%Z Hr Hin eq_refl eq_refl).
Defined.

(** A link to [E1] opened at 00:02:00, left before the 1000 ms tick,
    and the dashboard opened again without a link; its first poll
    lists [E1]. *)
Definition E1_opened : world := run (page 120000 initial_app) [open_link E1_link].

Definition stale_highlight : world :=
  run E1_opened [Life Unmount; open_link dashboard_url;
                 PollSettle 0 (list_body [card_E1]) (ok_body (JObj []))].

(** The timers left once the first of them has been taken, after the
    link's dashboard was left and a new one mounted. *)
Definition stale_rest : timers closure :=
  let T := timers_of (run E1_opened [Life Unmount; Life (Mount None)]) in
  match take_next T with Some (_, T') => T' | None => T end.

Lemma highlight_timer_outlives_unmount_witness :
  lifecycle_inv E1_opened /\ dom_inv E1_opened /\ mounted E1_opened = Some (0%nat, 2%nat) /\
  mkTimer 1 121000 None (HighlightTimeout 0 "E1") ∈ active (timers_of E1_opened) /\
  let w2 := run E1_opened [Life Unmount; Life (Mount None)] in
  take_next (timers_of w2) = Some (mkTimer 1 121000 None (HighlightTimeout 0 "E1"), stale_rest) /\
  inst 1 (app (step w2 (Life Fire))) = dash_scroll "E1" (inst 1 (app w2)).
Proof.
  assert (Hinv : lifecycle_inv E1_opened)
    by (unfold E1_opened; apply run_preserves; [apply lifecycle_inv_dash_step|apply lifecycle_inv_page]).
  assert (Hdom : dom_inv E1_opened) by (unfold E1_opened; apply run_preserves; [apply dom_inv_step|apply dom_inv_page]).
  assert (Hm : mounted E1_opened = Some (0%nat, 2%nat)) by (vm_compute; reflexivity).
  assert (Hin : mkTimer 1 121000 None (HighlightTimeout 0 "E1") ∈ active (timers_of E1_opened))
    by (vm_compute; apply list_elem_of_In; left; reflexivity).
  assert (Ht : take_next (timers_of (run E1_opened [Life Unmount; Life (Mount None)])) =
               Some (mkTimer 1 121000 None (HighlightTimeout 0 "E1"), stale_rest))
    by (vm_compute; reflexivity).
  split_and!; [exact Hinv|exact Hdom|exact Hm|exact Hin|]. intros w2. split; [exact Ht|].
  exact (proj2 (proj2 (proj2 (highlight_timer_outlives_unmount E1_opened 0 2 None _ "E1" stale_rest
           Hinv Hdom Hm Hin eq_refl))) Ht).
Defined.

(** There the second dashboard, opened without a link, gets the ring on
    [E1] but no border: its [highlightedError] is [null]. *)
Example stale_highlight_rings_other_dashboard :
  rings (inst 1 (app (step stale_highlight (Life Fire)))) = ["error-E1"%string] /\
  card_bordered (highlightedError (inst 1 (app (step stale_highlight (Life Fire))))) card_E1 = false.
Proof. vm_compute. split; reflexivity. Qed.

(** Seven services: the seventh slice takes the first slice's colour. *)
Definition seven_services : js :=
  JObj [("last_24_hours"%string, JObj [("top_services"%string,
    JArr (map (fun s => JObj [("service"%string, JStr s); ("count"%string, num 1)])
              ["api"; "auth"; "db"; "cache"; "queue"; "mail"; "search"]%string))])].

Definition seven_charts : chart_view :=
  mkCharts (JArr []) (JArr (map (fun s => JObj [("service"%string, JStr s); ("count"%string, num 1)])
              ["api"; "auth"; "db"; "cache"; "queue"; "mail"; "search"]%string))
           (Some (COLORS ++ ["#0088FE"%string])).

Lemma pie_fills_cycle_witness :
  charts seven_services = Some seven_charts /\ pie_fills seven_charts = Some (COLORS ++ ["#0088FE"%string]) /\
  (Forall (fun c => c ∈ COLORS) (COLORS ++ ["#0088FE"%string]) /\
   forall i, (i + length COLORS < length (COLORS ++ ["#0088FE"%string]))%nat ->
     (COLORS ++ ["#0088FE"%string]) !! (i + length COLORS)%nat = (COLORS ++ ["#0088FE"%string]) !! i).
Proof.
  assert (H1 : charts seven_services = Some seven_charts) by (vm_compute; reflexivity).
  assert (H2 : pie_fills seven_charts = Some (COLORS ++ ["#0088FE"%string])) by reflexivity.
  split; [exact H1|]. split; [exact H2|].
  exact (pie_fills_cycle seven_services seven_charts _ H1 H2).
Defined.

End Dashboard.
