(* ===== verification/ErrorDetailPage.v ===== *)
(** * ErrorDetailPage: the error detail page

    Models components/ErrorDetail.js, the page of the route
    [/dashboard/error/:errorId] (App.js 17):
    - its state: [errorData] ([useState(null)], line 8), [loading]
      ([useState(true)], 9), [activeTab] ([useState('overview')], 10),
      and the route parameter [errorId] ([useParams()], 7);
    - the effect on [[errorId]] (12-14): on mount and on every change of
      the route parameter it runs [fetchErrorDetails] (16-26):
      [setLoading(true)], [axios.get('/api/errors/<errorId>')], then
      [setErrorData(response.data)] on success, nothing but a log on
      failure, and [setLoading(false)] in the [finally];
    - the tab buttons (142-163) calling [setActiveTab];
    - the Download JSON button (28-43): its request URL and the file it
      saves, or the logged failure;
    - the render (44-343): the spinner while loading, the not-found
      state when [errorData] is falsy, otherwise the header with the
      route's id, the summary of [error], the five tabs with the counts
      of traces, spans and logs, and the active tab's panel.  [None] is
      a [TypeError] thrown during render.

    Requests are numbered and carry the id they were made for; they
    settle in any order, and the code applies each to the current
    state without checking the route.  The page instance persists
    across route changes (same route, new parameter), so its state is
    not reset.  Theorems: the not-found state of a failed first load;
    a failed fetch after a route change showing the previous error's
    details under the new id; responses of two route changes arriving
    in reverse order; no throw on well-formed payloads; the span
    durations, shown in seconds with an [ms] suffix; and the liveness
    of the page: whatever order and content the network's answers
    have, the spinner goes once the requests in flight are answered
    (with the [eventually] combinator of the Prelude and the measure
    [length pending]). *)

From S2P Require Import Prelude JsValue Views.
From Stdlib Require Import QArith.

Module ErrorDetailPage.
Import JsValue Views.

(** The tab ids of lines 70-76. *)
Inductive tab := TOverview | TTraces | TSpans | TLogs | TRca.

#[global] Instance tab_eq_dec : EqDecision tab.
Proof. solve_decision. Defined.

Definition tab_id (t : tab) : string :=
  match t with
  | TOverview => "overview" | TTraces => "traces" | TSpans => "spans"
  | TLogs => "logs" | TRca => "rca"
  end%string.

Record page := mkPage {
  errorId : string;                 (* useParams().errorId *)
  errorData : js;
  loading : bool;
  activeTab : tab;
  next_req : nat;
  pending : list (nat * string)     (* requests in flight, with their id *)
}.

(** Lines 16-19: [setLoading(true)] and the request for the current
    route goes out. *)
Definition fetchErrorDetails (p : page) : page :=
  mkPage (errorId p) (errorData p) true (activeTab p) (S (next_req p))
         (pending p ++ [(next_req p, errorId p)]).

(** The first render with the route's id, then the effect. *)
Definition open_page (id : string) : page :=
  fetchErrorDetails (mkPage id JNull true TOverview 0 []).

(** A new route parameter: the effect's dependency changed, so it runs
    again; the same parameter does not rerun it. *)
Definition navigate (id : string) (p : page) : page :=
  if String.eqb id (errorId p) then p
  else fetchErrorDetails (mkPage id (errorData p) (loading p) (activeTab p) (next_req p) (pending p)).

(** Lines 19-25: request [k] settles, [Some data] on success. *)
Definition settle (k : nat) (r : option js) (p : page) : page :=
  if decide (k ∈ map fst (pending p)) then
    let rest := filter (fun q => q.1 <> k) (pending p) in
    match r with
    | Some data => mkPage (errorId p) data false (activeTab p) (next_req p) rest
    | None => mkPage (errorId p) (errorData p) false (activeTab p) (next_req p) rest
    end
  else p.

(** Line 147. *)
Definition setActiveTab (t : tab) (p : page) : page :=
  mkPage (errorId p) (errorData p) (loading p) t (next_req p) (pending p).

(** Lines 28-43, the Download JSON button: the request goes to
    [/api/errors/<errorId>/download]; on success the browser saves a
    file named [error-<errorId>.json] holding
    [JSON.stringify(response.data, null, 2)] (the payload is kept, its
    printing is not modelled); a failure is only logged.  The page's
    state does not change. *)
Inductive download_outcome := Saved (filename : string) (payload : js) | Logged.

Definition download_url (p : page) : string := ("/api/errors/" +:+ errorId p +:+ "/download")%string.

Definition downloadErrorData (p : page) (r : option js) : download_outcome :=
  match r with
  | Some data => Saved ("error-" +:+ errorId p +:+ ".json")%string data
  | None => Logged
  end.

Inductive event :=
| Navigate (id : string)
| Settle (k : nat) (r : option js)
| SelectTab (t : tab).

#[global] Instance detail_step : Step page event := fun p e =>
  match e with
  | Navigate id => navigate id p
  | Settle k r => settle k r p
  | SelectTab t => setActiveTab t p
  end.

(** ** The render *)

(** The summary of [error], lines 106-134. *)
Definition summary (error : js) : option (list cell) :=
  env ← get error "env"; service ← get error "service"; http ← get error "http_code";
  exc ← get error "exception"; count ← get error "count";
  ws ← get error "window_start"; we ← get error "window_end";
  Some [CVal (js_or env (JStr "UNSET")); CVal service; CVal http; CVal exc; CVal count;
        CDate ws; CDate we].

(** A tab button: its id and the count it shows when the count is not
    [undefined] (156). *)
Definition tab_button (t : tab) (count : option js) : string * option js :=
  (tab_id t, match count with Some JUndefined => None | c => c end).

(** [coll.length === 0 ? empty : coll.map(row)]. *)
Definition list_or_empty (coll : js) (header : list string) (row : js -> option (list cell))
    (message : string) : option panel :=
  len ← get coll "length";
  if strict_eq len (num 0) then Some (Empty message)
  else rows ← js_map row coll; Some (Table header rows).

(** 218-230. *)
Definition trace_item (trace : js) : option (list cell) :=
  _ ← get trace "id"; hex ← get trace "trace_id_hex"; created ← get trace "created_at";
  Some [CVal hex; CDate created].

(** 264-279: the duration printed as it is, followed by [ms]. *)
Definition span_item (span : js) : option (list cell) :=
  _ ← get span "id"; op ← get span "operation_name"; tid ← get span "trace_id";
  dur ← get span "duration"; st ← get span "start_time";
  Some [CVal op; CVal tid; CUnit dur "ms"; if truthy st then CDate st else CText "N/A"].

(** 297-309. *)
Definition log_item (log : js) : option (list cell) :=
  _ ← get log "id"; tid ← get log "trace_id"; created ← get log "created_at";
  ld ← get log "log_data";
  Some [CVal tid; CDate created; CVal ld].

Definition tab_panel (t : tab) (traces spans logs rca_report : js) : option panel :=
  match t with
  | TOverview =>
      nt ← get traces "length"; ns ← get spans "length"; nl ← get logs "length";
      rca ← (if truthy rca_report then s ← get rca_report "analysis_summary"; Some [CVal s]
             else Some []);
      Some (Fields [("Traces", [CVal nt]); ("Spans", [CVal ns]); ("Logs", [CVal nl]);
                    ("RCA Analysis", rca)])
  | TTraces => list_or_empty traces ["Trace"; "Created"] trace_item "No traces found for this error"
  | TSpans => list_or_empty spans ["Operation"; "Trace ID"; "Duration"; "Start Time"] span_item
                "No spans found for this error"
  | TLogs => list_or_empty logs ["Trace"; "Created"; "Log data"] log_item "No logs found for this error"
  | TRca =>
      if truthy rca_report
      then s ← get rca_report "analysis_summary"; c ← get rca_report "created_at";
           Some (Fields [("Analysis Summary", [CVal s]); ("Analysis created", [CDate c])])
      else Some (Empty "No RCA analysis available for this error")
  end.

Inductive screen :=
| Spinner
| NotFound
| Detail (id : string) (summary : list cell) (tabs : list (string * option js)) (active : tab)
         (body : panel).

(** The page for a route id, a payload and a tab. *)
Definition render_detail (id : string) (d : js) (t : tab) : option screen :=
  error ← get d "error"; traces ← get d "traces"; spans ← get d "spans";
  logs ← get d "logs"; rca_report ← get d "rca_report";
  nt ← get traces "length"; ns ← get spans "length"; nl ← get logs "length";
  sm ← summary error;
  body ← tab_panel t traces spans logs rca_report;
  Some (Detail id sm [tab_button TOverview None; tab_button TTraces (Some nt);
                      tab_button TSpans (Some ns); tab_button TLogs (Some nl);
                      tab_button TRca None] t body).

Definition render (p : page) : option screen :=
  if loading p then Some Spinner
  else if negb (truthy (errorData p)) then Some NotFound
  else render_detail (errorId p) (errorData p) (activeTab p).

(** ** Lemmas *)

Lemma navigate_other (id : string) (p : page) :
  id <> errorId p ->
  navigate id p = mkPage id (errorData p) true (activeTab p) (S (next_req p))
                         (pending p ++ [(next_req p, id)]).
Proof. intros Hne. unfold navigate. by rewrite (proj2 (String.eqb_neq _ _) Hne). Qed.

Lemma settle_in_flight (k : nat) (r : option js) (p : page) :
  k ∈ map fst (pending p) ->
  settle k r p = mkPage (errorId p) (default (errorData p) r) false (activeTab p) (next_req p)
                        (filter (fun q => q.1 <> k) (pending p)).
Proof. intros Hk. unfold settle. rewrite decide_True by done. by destruct r. Qed.

Lemma elem_of_fst_filter {B} (l : list (nat * B)) (k j : nat) :
  k ∈ map fst l -> k <> j -> k ∈ map fst (filter (fun q => q.1 <> j) l).
Proof.
  intros Hk Hne. apply list_elem_of_In, in_map_iff in Hk as ([k' b] & <- & Hin).
  apply list_elem_of_In, in_map_iff. exists (k', b). split; [done|].
  apply list_elem_of_In, list_elem_of_filter. split; [done|]. by apply list_elem_of_In.
Qed.

Lemma list_or_empty_Some (xs : list js) (p : js -> bool) header row message :
  (forall x, p x = true -> is_Some (row x)) -> forallb p xs = true ->
  is_Some (list_or_empty (JArr xs) header row message).
Proof.
  intros Hf Hp. unfold list_or_empty. simpl. destruct (Qeq_bool _ _); [eauto|].
  destruct (js_map_arr_Some row p xs Hf Hp) as [rows Hrows]. simpl in Hrows.
  rewrite Hrows. simpl. eauto.
Qed.

Lemma trace_item_Some (t : js) : is_obj t = true -> is_Some (trace_item t).
Proof. destruct t; try done; intros _; simpl; eauto. Qed.

Lemma span_item_Some (sp : js) : wf_span sp = true -> is_Some (span_item sp).
Proof. destruct sp; try done; intros _; simpl; eauto. Qed.

Lemma log_item_Some (l : js) : is_obj l = true -> is_Some (log_item l).
Proof. destruct l; try done; intros _; simpl; eauto. Qed.

Ltac panel_Some H item :=
  match goal with
  | |- context [list_or_empty (JArr ?xs) ?h ?row ?m] =>
      destruct (list_or_empty_Some xs _ h row m item H) as [?pn ->]
  end.

(** Successful responses. *)
Definition delivers_data (e : event) : bool :=
  match e with Settle _ (Some _) => true | _ => false end.

(** The detail state is never the spinner. *)
Lemma render_detail_not_spinner (id : string) (d : js) (t : tab) : render_detail id d t <> Some Spinner.
Proof.
  unfold render_detail.
  repeat match goal with |- context [mbind _ ?m] => destruct m; cbn [mbind option_bind] end; discriminate.
Qed.

(** ** Responses arriving

    The network answers one of the requests in flight, with a payload
    or a failure of its choosing. *)
Definition responses (p p' : page) : Prop :=
  exists k r, k ∈ map fst (pending p) /\ p' = settle k r p.

Definition respond (p : page) (next : page -> Prop) : Prop := pending p <> [] /\ next = responses p.

(** The spinner stays only while a request is in flight. *)
Definition idle_not_loading (p : page) : Prop := pending p = [] -> loading p = false.

Lemma idle_not_loading_step (p : page) (e : event) : idle_not_loading p -> idle_not_loading (step p e).
Proof.
  unfold idle_not_loading. intros H. destruct e as [id|k r|t]; cbn [step detail_step].
  - unfold navigate. destruct (String.eqb _ _); [done|]. cbn. by destruct (pending p).
  - unfold settle. case_decide; [destruct r; done|done].
  - exact H.
Qed.

Lemma idle_not_loading_reachable (id : string) (evs : list event) : idle_not_loading (run (open_page id) evs).
Proof. apply run_preserves; [apply idle_not_loading_step|]. unfold idle_not_loading. cbn. discriminate. Qed.

(** A response to a request in flight clears the spinner and takes the
    request off. *)
Lemma settle_progress (k : nat) (r : option js) (p : page) :
  k ∈ map fst (pending p) ->
  loading (settle k r p) = false /\ (length (pending (settle k r p)) < length (pending p))%nat.
Proof.
  intros Hk. rewrite settle_in_flight by done. split; [done|]. cbn [pending].
  apply list_elem_of_In, in_map_iff in Hk as ([k' b] & Heq & Hin). cbn in Heq. subst k'.
  apply (length_filter_lt _ _ (k, b)); [by apply list_elem_of_In|]. cbn. tauto.
Qed.

(** ** Properties *)

(** C27 *)
(** Not found: a page that has received no successful response (the
    fetch for an unknown id is rejected with a 404) shows the spinner
    while a request is out and the Error Not Found state otherwise,
    never a failure, whatever route changes and tab clicks happen. *)
Theorem no_data_not_found (id : string) (evs : list event) :
  Forall (fun e => delivers_data e = false) evs ->
  render (run (open_page id) evs) = Some Spinner \/ render (run (open_page id) evs) = Some NotFound.
Proof.
  intros Hevs.
  assert (Hnull : errorData (run (open_page id) evs) = JNull).
  { apply (run_preserves_on (fun e => delivers_data e = false) (fun p => errorData p = JNull));
      [|exact Hevs|reflexivity].
    intros p [id'|k [d|]|t] He Hp; try discriminate; cbn [step detail_step].
    - unfold navigate. by destruct (String.eqb _ _).
    - unfold settle. by case_decide.
    - exact Hp. }
  unfold render. rewrite Hnull. destruct (loading _); auto.
Qed.

(** C28 *)
(** Stale details after a failed fetch: when the route changes to
    another error id and its request fails, the page stops loading and
    shows the previous error's details under the new id (or Not Found
    if there were none), instead of the not-found state for that id. *)
Theorem failed_fetch_after_navigation_shows_previous (p : page) (b : string) :
  b <> errorId p ->
  render (run p [Navigate b; Settle (next_req p) None]) =
  if truthy (errorData p) then render_detail b (errorData p) (activeTab p) else Some NotFound.
Proof.
  intros Hb. rewrite !run_cons, run_nil. cbn [step detail_step].
  rewrite navigate_other by done. rewrite settle_in_flight by apply elem_of_fst_app_last.
  unfold render. cbn. by destruct (truthy (errorData p)).
Qed.

(** C29 *)
(** Responses out of order: after two route changes, when the second
    route's response arrives first and the first route's last, the page
    shows the first route's error under the second route's id. *)
Theorem route_responses_out_of_order (p : page) (b c : string) (db dc : js) :
  b <> errorId p -> c <> b -> truthy db = true ->
  render (run p [Navigate b; Navigate c; Settle (S (next_req p)) (Some dc);
                 Settle (next_req p) (Some db)]) = render_detail c db (activeTab p).
Proof.
  intros Hb Hc Hdb. rewrite !run_cons, run_nil. cbn [step detail_step].
  rewrite (navigate_other b p) by done. rewrite navigate_other by (simpl; done).
  cbn [errorId errorData activeTab next_req pending].
  rewrite (settle_in_flight (S (next_req p))) by (cbn [pending next_req]; apply elem_of_fst_app_last).
  rewrite settle_in_flight.
  - unfold render. cbn. by rewrite Hdb.
  - cbn. apply elem_of_fst_filter; [|lia].
    rewrite map_app. apply elem_of_app. left. apply elem_of_fst_app_last.
Qed.

(** C30 *)
(** On a well-formed payload of [GET errors/{id}] the detail page
    renders, whichever tab is active: no [TypeError]. *)
Theorem render_total_on_wf_detail (id : string) (d : js) (t : tab) :
  wf_detail d = true -> is_Some (render_detail id d t).
Proof.
  intros Hd. destruct d as [| | | | | |fs]; try done. simpl in Hd.
  apply andb_prop in Hd as [Hd Hr]. apply andb_prop in Hd as [Hd Hl].
  apply andb_prop in Hd as [Hd Hs]. apply andb_prop in Hd as [Herr Ht].
  unfold render_detail. cbn [get lookup_field mbind option_bind].
  destruct (lookup_field "error" fs) as [| | | | | |efs]; try done.
  arr_field Ht. arr_field Hs. arr_field Hl. simpl.
  destruct t; simpl.
  - destruct (lookup_field "rca_report" fs); try done; simpl; eauto.
  - panel_Some Ht trace_item_Some. simpl. eauto.
  - panel_Some Hs span_item_Some. simpl. eauto.
  - panel_Some Hl log_item_Some. simpl. eauto.
  - destruct (lookup_field "rca_report" fs); try done; simpl; eauto.
Qed.

(** C31 *)
(** The two pages disagree on span durations: the dashboard's spans
    table shows a duration [q] (seconds) as [q * 1000] milliseconds,
    the detail page prints [q] itself followed by [ms]; for every
    non-zero duration the numbers differ. *)
Theorem span_duration_units_disagree (fs : list (string * js)) (q : Q) :
  lookup_field "duration" fs = JNum q -> ~ (q == 0)%Q ->
  (exists row, span_row (JObj fs) = Some row /\ nth 3 row (CText "") = CMs (q * 1000)) /\
  (exists row, span_item (JObj fs) = Some row /\ nth 2 row (CText "") = CUnit (JNum q) "ms") /\
  ~ (q * 1000 == q)%Q.
Proof.
  intros Hd Hq.
  assert (Hb : Qeq_bool q 0 = false)
    by (destruct (Qeq_bool q 0) eqn:E; [apply Qeq_bool_iff in E; contradiction|done]).
  split_and!.
  - unfold span_row, duration_cell. cbn [get]. rewrite Hd. cbn -[Qeq_bool].
    rewrite Hb. simpl. eauto.
  - unfold span_item. cbn [get]. rewrite Hd. simpl. eauto.
  - intros E. apply Hq. destruct q as [n d]. unfold Qeq, Qmult in *. simpl in *. nia.
Qed.

(** C37 *)
(** Liveness of the detail page: from any state a run of the page
    reaches, whatever order the network answers the requests in flight
    and whatever it answers (data or failure), once it has answered
    them all, which takes finitely many responses, no request is in
    flight and the page shows the not-found or the detail state, not
    the spinner. *)
Theorem detail_page_leaves_spinner (id : string) (evs : list event) :
  eventually respond (fun p => pending p = [] /\ render p <> Some Spinner) (run (open_page id) evs).
Proof.
  apply (eventually_measure respond _ idle_not_loading (fun p => length (pending p)));
    [|apply idle_not_loading_reachable].
  intros p Hp. destruct (pending p) as [|q l] eqn:Hpend.
  - left. split; [done|]. unfold render. rewrite (Hp Hpend).
    destruct (negb (truthy (errorData p))); [discriminate|apply render_detail_not_spinner].
  - right. exists (responses p). split; [split; [congruence|done]|].
    intros p' (k & r & Hk & ->). destruct (settle_progress k r p Hk) as [Hl Hlen].
    split; [intros _; exact Hl|]. by rewrite Hpend in Hlen.
Qed.

(** ** Witnesses *)

(** The detail page of [E1], loaded. *)
Definition page_E1 : page := run (open_page "E1") [Settle 0 (Some sample_detail)].

Definition detail_E2 : js :=
  JObj [("error"%string, JObj [("id"%string, JStr "E2")]); ("traces"%string, JArr []);
        ("spans"%string, JArr []); ("logs"%string, JArr []); ("rca_report"%string, JNull)].

Lemma no_data_not_found_witness :
  Forall (fun e => delivers_data e = false) [Settle 0 None; Navigate "E8"; SelectTab TLogs; Settle 1 None] /\
  (render (run (open_page "E9") [Settle 0 None; Navigate "E8"; SelectTab TLogs; Settle 1 None]) = Some Spinner \/
   render (run (open_page "E9") [Settle 0 None; Navigate "E8"; SelectTab TLogs; Settle 1 None]) = Some NotFound).
Proof.
  assert (H : Forall (fun e => delivers_data e = false)
                [Settle 0 None; Navigate "E8"; SelectTab TLogs; Settle 1 None]) by repeat constructor.
  split; [exact H|]. exact (no_data_not_found "E9" _ H).
Defined.

Lemma failed_fetch_after_navigation_shows_previous_witness :
  "E2"%string <> errorId page_E1 /\
  render (run page_E1 [Navigate "E2"; Settle (next_req page_E1) None]) =
  (if truthy (errorData page_E1) then render_detail "E2" (errorData page_E1) (activeTab page_E1)
   else Some NotFound).
Proof.
  assert (H : "E2"%string <> errorId page_E1) by (vm_compute; discriminate).
  split; [exact H|]. exact (failed_fetch_after_navigation_shows_previous page_E1 "E2" H).
Defined.

(** In that run the page shows the summary of [E1]'s payload under the
    id [E2]. *)
Example stale_detail_shown :
  option_map (fun sc => match sc with Detail id _ _ _ _ => Some id | _ => None end)
    (render (run page_E1 [Navigate "E2"; Settle 1 None])) = Some (Some "E2"%string) /\
  errorData (run page_E1 [Navigate "E2"; Settle 1 None]) = sample_detail.
Proof. split; vm_compute; reflexivity. Qed.

Lemma route_responses_out_of_order_witness :
  "E2"%string <> errorId page_E1 /\ "E3"%string <> "E2"%string /\ truthy detail_E2 = true /\
  render (run page_E1 [Navigate "E2"; Navigate "E3"; Settle (S (next_req page_E1)) (Some sample_detail);
                       Settle (next_req page_E1) (Some detail_E2)]) =
  render_detail "E3" detail_E2 (activeTab page_E1).
Proof.
  assert (H1 : "E2"%string <> errorId page_E1) by (vm_compute; discriminate).
  assert (H2 : "E3"%string <> "E2"%string) by discriminate.
  split; [exact H1|]. split; [exact H2|]. split; [reflexivity|].
  exact (route_responses_out_of_order page_E1 "E2" "E3" detail_E2 sample_detail H1 H2 eq_refl).
Defined.

Lemma render_total_on_wf_detail_witness :
  wf_detail sample_detail = true /\ is_Some (render_detail "E1" sample_detail TSpans).
Proof.
  assert (H : wf_detail sample_detail = true) by (vm_compute; reflexivity).
  split; [exact H|]. exact (render_total_on_wf_detail "E1" sample_detail TSpans H).
Defined.

Lemma span_duration_units_disagree_witness :
  lookup_field "duration" [("duration"%string, JNum (1 # 2))] = JNum (1 # 2) /\ ~ ((1 # 2) == 0)%Q /\
  ((exists row, span_row (JObj [("duration"%string, JNum (1 # 2))]) = Some row /\
                nth 3 row (CText "") = CMs ((1 # 2) * 1000)) /\
   (exists row, span_item (JObj [("duration"%string, JNum (1 # 2))]) = Some row /\
                nth 2 row (CText "") = CUnit (JNum (1 # 2)) "ms") /\
   ~ ((1 # 2) * 1000 == 1 # 2)%Q).
Proof.
  assert (Hq : ~ ((1 # 2) == 0)%Q) by (unfold Qeq; simpl; lia).
  split; [reflexivity|]. split; [exact Hq|].
  exact (span_duration_units_disagree [("duration"%string, JNum (1 # 2))] (1 # 2) eq_refl Hq).
Defined.

(** The download of the page opened for [E1]. *)
Example download_E1 :
  download_url (open_page "E1") = "/api/errors/E1/download"%string /\
  downloadErrorData (open_page "E1") (Some (JObj [])) = Saved "error-E1.json" (JObj []).
Proof. split; reflexivity. Qed.

End ErrorDetailPage.
