(* ===== verification/App.v ===== *)
(** * App: the router, the navigation bar and the browser tab

    Models App.js and components/Navbar.js, and composes the two pages
    in one browser tab:
    - the route table of App.js 13-17 as React Router matches it: the
      paths [/] and [/dashboard] render [<Dashboard />], the path
      [/dashboard/error/:errorId] renders [<ErrorDetail />]; matching
      ignores trailing slashes and the case of the literal segments,
      and the parameter is one non-empty segment without [/];
    - the session history of the tab (its entries and the current
      one): a [<Link to>] click pushes the path, or replaces the entry
      when the path is the current location; the browser's Back and
      Forward buttons move in the entries;
    - the links a user can click: the two links of the navigation bar
      (Navbar.js 10 and 16), always shown, and the Back to Dashboard
      links of the detail page (ErrorDetail.js 58 and 83), shown in the
      not-found and the detail states;
    - the render after a location change: the same component type at
      the same place keeps its instance (ErrorDetail receives the new
      parameter), another one unmounts the old page (its effect
      cleanups) and mounts the new one (its effects);
    - an error thrown while rendering unmounts the whole tree: there
      is no error boundary, so the tab is left blank, its timers
      still running;
    - the page's other events, forwarded: timers, polls and card clicks
      to the Dashboard model, responses and tab clicks to the detail
      page model.

    Opening a URL (a share link opens in a new tab, [target="_blank"])
    starts a fresh tab: a fresh page, one history entry.  Theorems: the
    navigation bar never remounts the dashboard, so its state and its
    polling survive; a running 5-minute interval survives every event
    of the tab, the Back button that unmounts the dashboard included;
    a [null] stats body blanks the tab for good, navigation bar
    included. *)

From S2P Require Import Prelude JsValue Timers Lifecycle Poll Cards Views Highlight Dashboard ErrorDetailPage.
From Stdlib Require Import Ascii.

Module App.
Import Timers Lifecycle Poll Highlight.

(** ** Route matching *)

Definition lower_ascii (a : ascii) : ascii :=
  let n := nat_of_ascii a in
  if (65 <=? n)%nat && (n <=? 90)%nat then ascii_of_nat (n + 32) else a.

(** The rest of [s] after the lowercase literal [pre], compared without
    case. *)
Fixpoint strip_prefix_ci (pre s : string) : option string :=
  match pre, s with
  | EmptyString, _ => Some s
  | String a pre', String b s' => if ascii_dec a (lower_ascii b) then strip_prefix_ci pre' s' else None
  | String _ _, EmptyString => None
  end.

(** [pathname] without its trailing slashes. *)
Fixpoint trim_trailing_slashes (s : string) : string :=
  match s with
  | EmptyString => EmptyString
  | String a s' =>
      let r := trim_trailing_slashes s' in
      match r with
      | EmptyString => if ascii_dec a "/"%char then EmptyString else String a EmptyString
      | _ => String a r
      end
  end.

Inductive route := RDashboard | RErrorDetail (errorId : string) | RNoMatch.

#[global] Instance route_eq_dec : EqDecision route.
Proof. solve_decision. Defined.

(** App.js 13-17. *)
Definition match_routes (pathname : string) : route :=
  let p := trim_trailing_slashes pathname in
  match p with
  | EmptyString => RDashboard
  | _ =>
      match strip_prefix_ci "/dashboard" p with
      | Some EmptyString => RDashboard
      | _ =>
          match strip_prefix_ci "/dashboard/error/" p with
          | Some EmptyString | None => RNoMatch
          | Some x => if has_char "/"%char x then RNoMatch else RErrorDetail x
          end
      end
  end.

(** [location.pathname] of a path with query and fragment. *)
Definition pathname_of (path : string) : string :=
  match (split_first "?"%char (split_first "#"%char path).1).1 with
  | EmptyString => "/"
  | p => p
  end.

(** ** The tab *)

Record browser := mkBrowser {
  entries : list string;                     (* session history *)
  index : nat;                               (* the current entry *)
  dash_w : Dashboard.world;                  (* the page's timers and the Dashboard *)
  detail : option ErrorDetailPage.page;      (* the mounted ErrorDetail *)
  crashed : bool                             (* the tree was unmounted by a render error *)
}.

Definition location (b : browser) : string := default "/" (entries b !! index b).

Definition route_of (b : browser) : route := match_routes (pathname_of (location b)).

Definition with_pages (b : browser) (w : Dashboard.world) (d : option ErrorDetailPage.page) : browser :=
  mkBrowser (entries b) (index b) w d (crashed b).

Definition with_index (b : browser) (i : nat) : browser :=
  mkBrowser (entries b) i (dash_w b) (detail b) (crashed b).

(** The old page goes: the Dashboard's effect cleanup, or the detail
    page dropped. *)
Definition leave (r : route) (b : browser) : browser :=
  match r with
  | RDashboard => with_pages b (step (dash_w b) (Dashboard.Life Unmount)) (detail b)
  | RErrorDetail _ => with_pages b (dash_w b) None
  | RNoMatch => b
  end.

(** The new page comes: the Dashboard's mount effects read the query,
    the detail page's effect fetches its id. *)
Definition enter (r : route) (search : string) (b : browser) : browser :=
  match r with
  | RDashboard => with_pages b (step (dash_w b) (Dashboard.Life (Mount (highlight_param search)))) (detail b)
  | RErrorDetail id => with_pages b (dash_w b) (Some (ErrorDetailPage.open_page id))
  | RNoMatch => b
  end.

(** The render after a location change, from the route shown before. *)
Definition rerender (old : route) (b : browser) : browser :=
  if crashed b then b else
  match old, route_of b with
  | RDashboard, RDashboard | RNoMatch, RNoMatch => b
  | RErrorDetail _, RErrorDetail id => with_pages b (dash_w b) (option_map (ErrorDetailPage.navigate id) (detail b))
  | _, r => enter r (location_search (location b)) (leave old b)
  end.

(** Did the render of the current page throw? *)
Definition page_throws (b : browser) : bool :=
  match route_of b with
  | RDashboard => match Dashboard.screen_of (dash_w b) with Some None => true | _ => false end
  | RErrorDetail _ =>
      match detail b with
      | Some p => match ErrorDetailPage.render p with None => true | Some _ => false end
      | None => false
      end
  | RNoMatch => false
  end.

(** With no error boundary, a throw unmounts the whole tree. *)
Definition commit (b : browser) : browser :=
  if crashed b then b
  else if page_throws b
  then mkBrowser (entries b) (index b) (step (dash_w b) (Dashboard.Life Unmount)) None true
  else b.

(** ** Navigation *)

Inductive link := NavHome | NavDashboard | BackToDashboard.

Definition link_to (l : link) : string :=
  match l with NavHome => "/" | NavDashboard | BackToDashboard => "/dashboard" end.

#[global] Instance link_eq_dec : EqDecision link.
Proof. solve_decision. Defined.

(** Navbar.js 5-31: the bar, rendered above every route. *)
Definition navbar : list link := [NavHome; NavDashboard].

(** ErrorDetail.js 52-88: the detail page renders its Back to Dashboard
    link in the not-found state and in the header of the detail state,
    not while loading. *)
Definition detail_links (b : browser) : list link :=
  match route_of b, detail b with
  | RErrorDetail _, Some p =>
      match ErrorDetailPage.render p with
      | Some ErrorDetailPage.NotFound | Some (ErrorDetailPage.Detail _ _ _ _ _) => [BackToDashboard]
      | _ => []
      end
  | _, _ => []
  end.

(** The links on the screen: none once the tree is unmounted. *)
Definition links_shown (b : browser) : list link :=
  if crashed b then [] else navbar ++ detail_links b.

Definition link_shown (l : link) (b : browser) : bool := bool_decide (l ∈ links_shown b).

Definition push (to : string) (b : browser) : browser :=
  mkBrowser (take (S (index b)) (entries b) ++ [to]) (S (index b)) (dash_w b) (detail b) (crashed b).

(** A [<Link to>] click: the same location is replaced, which renders
    the same route again. *)
Definition follow (to : string) (b : browser) : browser :=
  if String.eqb to (location b) then b else rerender (route_of b) (push to b).

Definition history_back (b : browser) : browser :=
  match index b with
  | O => b
  | S i => rerender (route_of b) (with_index b i)
  end.

Definition history_forward (b : browser) : browser :=
  if (S (index b) <? length (entries b))%nat then rerender (route_of b) (with_index b (S (index b))) else b.

(** ** Events of the tab *)

Inductive event :=
| Click (l : link)
| Back
| Forward
| DashEvent (e : Dashboard.event)
| DetailEvent (e : ErrorDetailPage.event).

(** The handler of an event, before the commit. *)
Definition dispatch (b : browser) (e : event) : browser :=
  match e with
  | Click l => if link_shown l b then follow (link_to l) b else b
  | Back => history_back b
  | Forward => history_forward b
  | DashEvent e =>
      if Dashboard.lifecycle_owned e then b else with_pages b (step (dash_w b) e) (detail b)
  | DetailEvent (ErrorDetailPage.Navigate _) => b
  | DetailEvent e => with_pages b (dash_w b) (option_map (fun p => step p e) (detail b))
  end.

#[global] Instance browser_step : Step browser event := fun b e => commit (dispatch b e).

(** Opening [path] in a new tab at time [t]. *)
Definition open_tab (t : Z) (path : string) : browser :=
  commit (enter (match_routes (pathname_of path)) (location_search path)
                (mkBrowser [path] 0 (Lifecycle.page t Dashboard.initial_app) None false)).

(** ** The tab's bookkeeping *)

(** The current entry is one of the entries. *)
Definition tab_wf (b : browser) : Prop := (index b < length (entries b))%nat.

(** Every change of the page's Dashboard world is a run of Dashboard
    events: what the Dashboard model proves of its runs holds in the
    tab. *)
Definition dash_reach (w w' : Dashboard.world) : Prop := exists devs, w' = run w devs.

#[global] Instance dash_reach_preorder : PreOrder dash_reach.
Proof.
  split; [intros w; by exists []|].
  intros w1 w2 w3 [d1 ->] [d2 ->]. exists (d1 ++ d2). by rewrite run_app.
Qed.

Lemma dash_reach_step (w : Dashboard.world) (e : Dashboard.event) : dash_reach w (step w e).
Proof. by exists [e]. Qed.

Lemma dash_reach_preserves (P : Dashboard.world -> Prop) (w w' : Dashboard.world) :
  (forall w e, P w -> P (step w e)) -> dash_reach w w' -> P w -> P w'.
Proof. intros Hs [devs ->]. by apply run_preserves. Qed.

Lemma commit_cases (b : browser) :
  commit b = b \/
  (crashed b = false /\ commit b = mkBrowser (entries b) (index b) (step (dash_w b) (Dashboard.Life Unmount)) None true).
Proof. unfold commit. destruct (crashed b); [by left|]. destruct (page_throws b); [by right|by left]. Qed.

Definition reachable (b : browser) : Prop := exists t path evs, b = run (open_tab t path) evs.

Definition history_event (e : event) : bool :=
  match e with Back | Forward => true | _ => false end.

(** The router only reads the location: rendering and committing keep
    the entries, the current one and the crash flag set. *)
Lemma rerender_loc (r : route) (b : browser) :
  entries (rerender r b) = entries b /\ index (rerender r b) = index b /\ crashed (rerender r b) = crashed b.
Proof.
  unfold rerender. destruct (crashed b) eqn:Hc; [done|].
  destruct r, (route_of b) as [|id'|]; try done; destruct id' || idtac; cbn; rewrite ?Hc; done.
Qed.

Lemma route_with_pages (b : browser) (w : Dashboard.world) (d : option ErrorDetailPage.page) :
  route_of (with_pages b w d) = route_of b.
Proof. reflexivity. Qed.

Lemma dispatch_crashed (b : browser) (e : event) : crashed (dispatch b e) = crashed b.
Proof.
  destruct e as [l| | |e|[id|k r|t]]; cbn [dispatch]; try done.
  - destruct (link_shown l b); [|done]. unfold follow. destruct (String.eqb _ _); [done|].
    apply (rerender_loc _ (push _ b)).
  - unfold history_back. destruct (index b); [done|]. apply (rerender_loc _ (with_index b _)).
  - unfold history_forward. destruct (_ <? _)%nat; [apply (rerender_loc _ (with_index b _))|done].
  - by destruct (Dashboard.lifecycle_owned e).
Qed.

Lemma crashed_step (b : browser) (e : event) : crashed b = true -> crashed (step b e) = true.
Proof.
  intros Hc. change (crashed (commit (dispatch b e)) = true). rewrite <- (dispatch_crashed b e) in Hc.
  destruct (commit_cases (dispatch b e)) as [-> | [H _]]; congruence.
Qed.

Lemma leave_dash (r : route) (b : browser) : dash_reach (dash_w b) (dash_w (leave r b)).
Proof. destruct r; cbn [leave with_pages dash_w]; [apply dash_reach_step|reflexivity..]. Qed.

Lemma enter_dash (r : route) (q : string) (b : browser) : dash_reach (dash_w b) (dash_w (enter r q b)).
Proof. destruct r; cbn [enter with_pages dash_w]; [apply dash_reach_step|reflexivity..]. Qed.

Lemma rerender_dash (r : route) (b : browser) : dash_reach (dash_w b) (dash_w (rerender r b)).
Proof.
  unfold rerender. destruct (crashed b); [reflexivity|].
  destruct r, (route_of b); try reflexivity; etransitivity; (apply leave_dash || apply enter_dash).
Qed.

Lemma commit_dash (b : browser) : dash_reach (dash_w b) (dash_w (commit b)).
Proof. destruct (commit_cases b) as [-> | [_ ->]]; [reflexivity|apply dash_reach_step]. Qed.

Lemma browser_step_dash (b : browser) (e : event) : dash_reach (dash_w b) (dash_w (step b e)).
Proof.
  cbn [step browser_step]. etransitivity; [|apply commit_dash].
  destruct e as [l| | |e|[id|k r|t]]; cbn [dispatch dash_w].
  - destruct (link_shown l b); [|reflexivity]. unfold follow.
    destruct (String.eqb _ _); [reflexivity|]. exact (rerender_dash _ (push _ b)).
  - unfold history_back. destruct (index b); [reflexivity|exact (rerender_dash _ (with_index b _))].
  - unfold history_forward. destruct (_ <? _)%nat; [exact (rerender_dash _ (with_index b _))|reflexivity].
  - destruct (Dashboard.lifecycle_owned e); [reflexivity|apply dash_reach_step].
  - reflexivity.
  - reflexivity.
  - reflexivity.
Qed.

Lemma run_browser_dash (b : browser) (evs : list event) : dash_reach (dash_w b) (dash_w (run b evs)).
Proof.
  revert b. induction evs as [|e evs IH]; intros b; [reflexivity|].
  rewrite run_cons. etransitivity; [apply browser_step_dash|apply IH].
Qed.

Lemma open_tab_dash (t : Z) (path : string) :
  dash_reach (Lifecycle.page t Dashboard.initial_app) (dash_w (open_tab t path)).
Proof.
  unfold open_tab. etransitivity; [|apply commit_dash].
  exact (enter_dash _ _ (mkBrowser [path] 0 (Lifecycle.page t Dashboard.initial_app) None false)).
Qed.

(** The Lifecycle bookkeeping holds in every reachable tab. *)
Lemma lifecycle_inv_tab (t : Z) (path : string) (evs : list event) :
  lifecycle_inv (dash_w (run (open_tab t path) evs)).
Proof.
  apply (dash_reach_preserves _ (dash_w (open_tab t path))); [apply Dashboard.lifecycle_inv_dash_step|apply run_browser_dash|].
  apply (dash_reach_preserves _ (Lifecycle.page t Dashboard.initial_app));
    [apply Dashboard.lifecycle_inv_dash_step|apply open_tab_dash|apply lifecycle_inv_page].
Qed.

(** ** The tab's history *)

Lemma tab_wf_rerender (r : route) (b : browser) : tab_wf b -> tab_wf (rerender r b).
Proof. unfold tab_wf. by destruct (rerender_loc r b) as (-> & -> & _). Qed.

Lemma tab_wf_push (to : string) (b : browser) : tab_wf b -> tab_wf (push to b).
Proof. unfold tab_wf, push. intros Hwf. cbn [entries index]. rewrite length_app, length_take. cbn [length]. lia. Qed.

Lemma location_push (to : string) (b : browser) : tab_wf b -> location (push to b) = to.
Proof.
  unfold tab_wf, location, push. cbn [entries index]. intros Hwf.
  rewrite lookup_app_r; rewrite length_take; [|lia]. by replace (S (index b) - _)%nat with 0%nat by lia.
Qed.

Lemma tab_wf_commit (b : browser) : tab_wf b -> tab_wf (commit b).
Proof. destruct (commit_cases b) as [-> | [_ ->]]; done. Qed.

Lemma tab_wf_step (b : browser) (e : event) : tab_wf b -> tab_wf (step b e).
Proof.
  intros Hwf. apply tab_wf_commit. destruct e as [l| | |e|[id|k r|t]]; cbn [dispatch]; try done.
  - destruct (link_shown l b); [|done]. unfold follow. destruct (String.eqb _ _); [done|].
    by apply tab_wf_rerender, tab_wf_push.
  - unfold history_back. destruct (index b) eqn:Hi; [done|]. apply tab_wf_rerender.
    unfold tab_wf in *. cbn. lia.
  - unfold history_forward. destruct (_ <? _)%nat eqn:Hlt; [|done]. apply tab_wf_rerender.
    unfold tab_wf. cbn. by apply Nat.ltb_lt.
  - by destruct (Dashboard.lifecycle_owned e).
Qed.

Lemma tab_wf_open_tab (t : Z) (path : string) : tab_wf (open_tab t path).
Proof.
  apply tab_wf_commit. unfold tab_wf. by destruct (match_routes (pathname_of path)); cbn; lia.
Qed.

Lemma reachable_wf (b : browser) : reachable b -> tab_wf b.
Proof. intros (t & path & evs & ->). apply run_preserves; [apply tab_wf_step|apply tab_wf_open_tab]. Qed.

(** ** The dashboard under the navigation bar *)

(** A link to a path of the dashboard route, followed from the
    dashboard: the same instance stays. *)
Lemma follow_dashboard (to : string) (b : browser) :
  tab_wf b -> crashed b = false -> route_of b = RDashboard -> match_routes (pathname_of to) = RDashboard ->
  follow to b = b \/ follow to b = push to b.
Proof.
  intros Hwf Hc Hr Hto. unfold follow. destruct (String.eqb _ _); [by left|right].
  unfold rerender. cbn [crashed push]. rewrite Hc, Hr.
  unfold route_of at 1. rewrite location_push, Hto by done. done.
Qed.

(** On the dashboard only the links of the navigation bar are shown. *)
Lemma link_shown_dashboard (l : link) (b : browser) :
  route_of b = RDashboard -> link_shown l b = true -> l = NavHome \/ l = NavDashboard.
Proof.
  unfold link_shown, links_shown, detail_links. intros Hr. rewrite Hr, bool_decide_eq_true.
  destruct (crashed b); rewrite ?app_nil_r; unfold navbar;
    first [by intros ?%elem_of_nil | intros [->|[->|?%elem_of_nil]%elem_of_cons]%elem_of_cons; auto; done].
Qed.

(** The dashboard is shown with instance [m] of [n], or the tab is blank. *)
Definition dash_kept (m : option (nat * nat)) (n : nat) (b : browser) : Prop :=
  crashed b = true \/ (route_of b = RDashboard /\ mounted (dash_w b) = m /\ instances (dash_w b) = n).

Lemma dash_kept_step (m : option (nat * nat)) (n : nat) (b : browser) (e : event) :
  tab_wf b -> history_event e = false -> dash_kept m n b -> dash_kept m n (step b e).
Proof.
  intros Hwf Hh Hk. destruct (crashed b) eqn:Hc; [left; by apply crashed_step|].
  destruct Hk as [Hc'|(Hr & Hm & Hn)]; [congruence|].
  assert (Hd : route_of (dispatch b e) = RDashboard /\ mounted (dash_w (dispatch b e)) = m /\
               instances (dash_w (dispatch b e)) = n).
  { destruct e as [l| | |e|[id|k r|t]]; cbn [dispatch]; try discriminate; try done.
    - destruct (link_shown l b) eqn:Hs; [|done].
      destruct (link_shown_dashboard l b Hr Hs) as [-> | ->];
        (match goal with |- context [follow ?to b] =>
           destruct (follow_dashboard to b Hwf Hc Hr eq_refl) as [-> | ->]; [done|] end);
        (split; [unfold route_of; rewrite location_push by done; done|done]).
    - destruct (Dashboard.lifecycle_owned e) eqn:Ho; [done|].
      cbn [with_pages dash_w]. rewrite route_with_pages, (proj1 (Dashboard.mounted_dash_step _ _ Ho)),
        (proj2 (Dashboard.mounted_dash_step _ _ Ho)). done. }
  destruct (commit_cases (dispatch b e)) as [He | [_ He]]; change (step b e) with (commit (dispatch b e));
    rewrite He; [by right|by left].
Qed.

(** A freshly opened detail page shows the spinner: nothing throws. *)
Lemma commit_open_page (b : browser) (id : string) :
  crashed b = false -> route_of b = RErrorDetail id -> detail b = Some (ErrorDetailPage.open_page id) ->
  commit b = b.
Proof. intros Hc Hr Hd. unfold commit, page_throws. by rewrite Hc, Hr, Hd. Qed.

Lemma mounted_unmount (w : Dashboard.world) : mounted (step w (Dashboard.Life Unmount)) = None.
Proof. cbn [step Dashboard.dashboard_step lifecycle_step Dashboard.sync_shown mounted]. unfold unmount. by destruct (mounted w) as [[]|] eqn:Hm. Qed.

(** The Lifecycle lemma on intervals, lifted to every event of the tab. *)
Lemma alive_tab (b : browser) (tm : timer closure) (evs : list event) :
  reachable b -> tm ∈ active (timers_of (dash_w b)) -> is_sync_interval (t_cb tm) = true ->
  alive (t_id tm) (t_cb tm) (active (timers_of (dash_w (run b evs)))).
Proof.
  intros (t & path & evs0 & ->) Hin Hc.
  refine (proj2 (dash_reach_preserves (fun w => lifecycle_inv w /\ alive (t_id tm) (t_cb tm) (active (timers_of w)))
                   _ _ _ (run_browser_dash _ evs) _)).
  - intros w e [Hi Ha]. split; [by apply Dashboard.lifecycle_inv_dash_step|by apply Dashboard.alive_dash_step].
  - split; [apply lifecycle_inv_tab|by exists tm].
Qed.

(** C33 *)
(** The navigation bar never remounts the dashboard: from a shown
    dashboard, whatever the user clicks (the two links of the bar, the
    cards, the Refresh button), whatever timers fire and responses
    arrive, as long as the browser's Back and Forward buttons are not
    used the same instance stays mounted and none is created, so its
    list, its card state and its highlight are kept; only a render
    error can take it away, leaving the tab blank. *)
Theorem navbar_keeps_dashboard (b : browser) (evs : list event) :
  reachable b -> route_of b = RDashboard -> Forall (fun e => history_event e = false) evs ->
  crashed (run b evs) = true \/
  (route_of (run b evs) = RDashboard /\ mounted (dash_w (run b evs)) = mounted (dash_w b) /\
   instances (dash_w (run b evs)) = instances (dash_w b)).
Proof.
  intros Hreach Hr Hevs.
  refine (proj2 (run_preserves_on _ (fun b' => tab_wf b' /\ dash_kept (mounted (dash_w b)) (instances (dash_w b)) b')
                  _ b evs Hevs _)).
  - intros b' e He [Hwf Hk]. split; [by apply tab_wf_step|by apply dash_kept_step].
  - split; [by apply reachable_wf|by right].
Qed.

(** C34 *)
(** The browser's Back button unmounts the dashboard but not its
    polling: from a dashboard reached by the Back to Dashboard link of
    a detail page, Back shows the detail page again and runs the
    dashboard's effect cleanup, yet a 5-minute sync interval started
    before stays armed whatever happens next in the tab. *)
Theorem back_unmounts_dashboard_keeps_polling (b : browser) (i : nat) (id : string) (tm : timer closure) :
  reachable b -> crashed b = false -> route_of b = RDashboard -> index b = S i ->
  route_of (with_index b i) = RErrorDetail id ->
  tm ∈ active (timers_of (dash_w b)) -> is_sync_interval (t_cb tm) = true ->
  mounted (dash_w (step b Back)) = None /\ route_of (step b Back) = RErrorDetail id /\
  forall evs, alive (t_id tm) (t_cb tm) (active (timers_of (dash_w (run b (Back :: evs))))).
Proof.
  intros Hreach Hc Hr Hi Hprev Hin Hcb.
  assert (Hd : dispatch b Back =
    with_pages (with_pages (with_index b i) (step (dash_w b) (Dashboard.Life Unmount)) (detail b))
               (step (dash_w b) (Dashboard.Life Unmount)) (Some (ErrorDetailPage.open_page id))).
  { cbn [dispatch]. unfold history_back. rewrite Hi. unfold rerender. cbn [crashed with_index].
    by rewrite Hc, Hr, Hprev. }
  change (step b Back) with (commit (dispatch b Back)).
  rewrite Hd, (commit_open_page _ id) by done. split_and!; [apply mounted_unmount|done|].
  intros evs. by apply alive_tab.
Qed.

(** Once the tree is unmounted no dashboard is mounted again: the
    links are gone, a history move renders nothing, and the router's
    mount events do not reach the page. *)
Lemma crashed_unmounted_step (b : browser) (e : event) :
  crashed b = true /\ mounted (dash_w b) = None ->
  crashed (step b e) = true /\ mounted (dash_w (step b e)) = None.
Proof.
  intros [Hc Hm]. split; [by apply crashed_step|].
  change (step b e) with (commit (dispatch b e)). unfold commit. rewrite dispatch_crashed, Hc.
  destruct e as [l| | |de|[id|k r|t]]; cbn [dispatch]; try done.
  - unfold link_shown, links_shown. rewrite Hc, bool_decide_eq_false_2; [done|by intros ?%elem_of_nil].
  - unfold history_back. destruct (index b); [done|]. unfold rerender. cbn [crashed with_index]. by rewrite Hc.
  - unfold history_forward. destruct (_ <? _)%nat; [|done]. unfold rerender. cbn [crashed with_index]. by rewrite Hc.
  - destruct (Dashboard.lifecycle_owned de) eqn:Ho; [done|]. cbn [dash_w with_pages].
    by rewrite (proj1 (Dashboard.mounted_dash_step (dash_w b) de Ho)).
Qed.

(** C35 *)
(** A JSON [null] stats body blanks the tab for good: the poll stores
    it, the dashboard's render throws at [stats.last_24_hours], and
    with no error boundary React removes the whole tree, the navigation
    bar included.  Whatever happens next in the tab (clicks, Back and
    Forward, timers, responses), no link is on the screen and no
    dashboard is mounted again: only a reload recovers. *)
Theorem null_stats_body_blanks_tab (b : browser) (i id k : nat) (fs : list (string * JsValue.js))
    (st1 st2 : Z) (evs : list event) :
  crashed b = false -> route_of b = RDashboard -> mounted (dash_w b) = Some (i, id) ->
  k ∈ inflight (Dashboard.poll_of (Dashboard.inst i (app (dash_w b)))) ->
  let b' := run b (DashEvent (Dashboard.PollSettle k (Response (mkResponse st1 (Some (JsValue.JObj fs))))
                                                    (Response (mkResponse st2 (Some JsValue.JNull)))) :: evs) in
  crashed b' = true /\ links_shown b' = [] /\ mounted (dash_w b') = None.
Proof.
  intros Hc Hr Hm Hk b'. subst b'. rewrite run_cons.
  set (e := Dashboard.PollSettle k _ _).
  assert (H1 : crashed (step b (DashEvent e)) = true /\ mounted (dash_w (step b (DashEvent e))) = None).
  { change (step b (DashEvent e)) with (commit (dispatch b (DashEvent e))). cbn [dispatch Dashboard.lifecycle_owned e].
    unfold commit, page_throws. cbn [crashed with_pages]. rewrite Hc, route_with_pages, Hr.
    unfold with_pages. cbn [dash_w]. subst e. rewrite (Dashboard.null_stats_settle_throws _ i id k fs st1 st2 Hm Hk).
    split; [done|apply mounted_unmount]. }
  pose proof (run_preserves _ crashed_unmounted_step _ evs H1) as [Hc' Hm'].
  split_and!; [exact Hc'| |exact Hm']. unfold links_shown. by rewrite Hc'.
Qed.

(** ** Witnesses *)

(** The route table on a few paths. *)
Example routes_of_paths :
  map (fun p => match_routes (pathname_of p))
      ["/"; "/dashboard"; "/Dashboard/"; "/dashboard?highlight=E1"; "/dashboard/error/E1";
       "/dashboard/error/E1/"; "/dashboard/error/"; "/dashboard/error/a/b"; "/errors"]%string =
  [RDashboard; RDashboard; RDashboard; RDashboard; RErrorDetail "E1"; RErrorDetail "E1";
   RNoMatch; RNoMatch; RNoMatch].
Proof. vm_compute. reflexivity. Qed.

(** A share link opened in a new tab at 00:02:00, the list loaded, card
    [E1] expanded, then both links of the navigation bar. *)
Definition shared_tab : browser := open_tab 120000 "/dashboard?highlight=E1".

Definition navbar_clicks : list event :=
  [DashEvent (Dashboard.PollSettle 0 (Dashboard.list_body [card_E1]) (Dashboard.ok_body (JsValue.JObj [])));
   DashEvent (Dashboard.CardEvent (Cards.Toggle (JsValue.JStr "E1")));
   Click NavHome; Click NavDashboard; DashEvent (Dashboard.Life Fire)].

Lemma navbar_keeps_dashboard_witness :
  reachable shared_tab /\ route_of shared_tab = RDashboard /\
  Forall (fun e => history_event e = false) navbar_clicks /\
  (crashed (run shared_tab navbar_clicks) = true \/
   (route_of (run shared_tab navbar_clicks) = RDashboard /\
    mounted (dash_w (run shared_tab navbar_clicks)) = mounted (dash_w shared_tab) /\
    instances (dash_w (run shared_tab navbar_clicks)) = instances (dash_w shared_tab))).
Proof.
  assert (Hr : reachable shared_tab) by (exists 120000%Z, "/dashboard?highlight=E1"%string, []; reflexivity).
  assert (Hd : route_of shared_tab = RDashboard) by (vm_compute; reflexivity).
  assert (Hf : Forall (fun e => history_event e = false) navbar_clicks) by repeat constructor.
  split; [exact Hr|]. split; [exact Hd|]. split; [exact Hf|].
  exact (navbar_keeps_dashboard shared_tab navbar_clicks Hr Hd Hf).
Defined.

(** After the clicks the location is [/dashboard], the card is still
    expanded and the highlight read at the first mount is kept. *)
Example navbar_keeps_card_state :
  location (run shared_tab navbar_clicks) = "/dashboard"%string /\
  Cards.expandedError (Dashboard.cards_of (Dashboard.inst 0 (app (dash_w (run shared_tab navbar_clicks))))) =
    JsValue.JStr "E1" /\
  Dashboard.highlightedError (Dashboard.inst 0 (app (dash_w (run shared_tab navbar_clicks)))) = JsValue.JStr "E1".
Proof. vm_compute. split_and!; reflexivity. Qed.

(** A detail page opened at 00:02:00 for error [E1], its Back to
    Dashboard link, and the timed sync at 00:05:00 that starts the
    interval. *)
Definition back_tab : browser :=
  run (open_tab 120000 "/dashboard/error/E1")
    [DetailEvent (ErrorDetailPage.Settle 0 (Some Views.sample_detail)); Click BackToDashboard;
     DashEvent (Dashboard.Life Fire)].

Definition back_interval : timer closure := mkTimer 2 600000 (Some 300000) (SyncInterval 0).

Lemma back_unmounts_dashboard_keeps_polling_witness :
  reachable back_tab /\ crashed back_tab = false /\ route_of back_tab = RDashboard /\ index back_tab = 1%nat /\
  route_of (with_index back_tab 0) = RErrorDetail "E1" /\
  back_interval ∈ active (timers_of (dash_w back_tab)) /\ is_sync_interval (t_cb back_interval) = true /\
  (mounted (dash_w (step back_tab Back)) = None /\ route_of (step back_tab Back) = RErrorDetail "E1" /\
   forall evs, alive (t_id back_interval) (t_cb back_interval) (active (timers_of (dash_w (run back_tab (Back :: evs)))))).
Proof.
  assert (H1 : reachable back_tab) by (eexists _, _, _; reflexivity).
  assert (H2 : crashed back_tab = false) by (vm_compute; reflexivity).
  assert (H3 : route_of back_tab = RDashboard) by (vm_compute; reflexivity).
  assert (H4 : index back_tab = 1%nat) by (vm_compute; reflexivity).
  assert (H5 : route_of (with_index back_tab 0) = RErrorDetail "E1") by (vm_compute; reflexivity).
  assert (H6 : back_interval ∈ active (timers_of (dash_w back_tab)))
    by (vm_compute; apply list_elem_of_In; left; reflexivity).
  assert (H7 : is_sync_interval (t_cb back_interval) = true) by reflexivity.
  split; [exact H1|]. split; [exact H2|]. split; [exact H3|]. split; [exact H4|]. split; [exact H5|].
  split; [exact H6|]. split; [exact H7|].
  exact (back_unmounts_dashboard_keeps_polling back_tab 0 "E1" back_interval H1 H2 H3 H4 H5 H6 H7).
Defined.

(** Forward, two minutes later, mounts a second dashboard: two
    intervals poll from its first timed sync on. *)
Example forward_second_interval :
  length (filter (fun tm => is_sync_interval (t_cb tm) = true)
    (active (timers_of (dash_w (run back_tab [Back; DashEvent (Dashboard.Life (Advance 420000)); Forward;
                                              DashEvent (Dashboard.Life Fire); DashEvent (Dashboard.Life Fire)]))))) = 2%nat.
Proof. vm_compute. reflexivity. Qed.

(** A dashboard tab whose first poll gets a [null] stats body, then
    clicks, Back and a mount event of the router. *)
Definition dash_tab : browser := open_tab 120000 "/dashboard".

Definition null_stats_settle : event :=
  DashEvent (Dashboard.PollSettle 0 (Response (mkResponse 200 (Some (JsValue.JObj []))))
                                    (Response (mkResponse 200 (Some JsValue.JNull)))).

Lemma null_stats_body_blanks_tab_witness :
  crashed dash_tab = false /\ route_of dash_tab = RDashboard /\
  mounted (dash_w dash_tab) = Some (0%nat, 1%nat) /\
  (0 ∈ inflight (Dashboard.poll_of (Dashboard.inst 0 (app (dash_w dash_tab)))))%nat /\
  let b' := run dash_tab (null_stats_settle :: [Click NavHome; Back; DashEvent (Dashboard.Life (Mount None))]) in
  crashed b' = true /\ links_shown b' = [] /\ mounted (dash_w b') = None.
Proof.
  assert (Hc : crashed dash_tab = false) by (vm_compute; reflexivity).
  assert (Hr : route_of dash_tab = RDashboard) by (vm_compute; reflexivity).
  assert (Hm : mounted (dash_w dash_tab) = Some (0%nat, 1%nat)) by (vm_compute; reflexivity).
  assert (Hk : (0 ∈ inflight (Dashboard.poll_of (Dashboard.inst 0 (app (dash_w dash_tab)))))%nat)
    by (vm_compute; apply list_elem_of_In; left; reflexivity).
  split_and!; [exact Hc|exact Hr|exact Hm|exact Hk|].
  exact (null_stats_body_blanks_tab dash_tab 0 1 0 [] 200 200 _ Hc Hr Hm Hk).
Defined.

End App.
